(** * DoseCheck (PesoMed): scheduling, consistency and trend core of [app.js]

    A shallow embedding of the pure computations of [src/app.js] (streaks,
    weekly consistency, weight deltas, checklist, overdue backfill, next
    scheduled application, regularity and trend, local insight rules),
    followed by the properties proved about them.

    Modelling conventions, used throughout:
    - a JS [Date] is the number of milliseconds on the local time line
      ([Z]); the local zone has a fixed offset (no daylight-saving jumps),
      so [setDate(getDate() + n)] moves by [n] whole days of 86 400 000 ms;
      instant 0 is local midnight of 1970-01-01, a Thursday;
    - a date key ([YYYY-MM-DD], fixed width and zero padded) is modelled by
      the number of the local day it names, which orders the same way as
      the strings do;
    - finite JS numbers are rationals ([Q]) and arithmetic on them is
      exact; [NaN] is explicit, infinities are not modelled. The
      percentage [Math.round((donePoints / expectedPoints) * 100)] of the
      adherence of a range is computed in double precision, as the engine
      does; the weekly percentage, of at most 9 points, is shown to be the
      same in doubles;
    - a JS [Set] of date keys is a [gset Z]. *)

From Stdlib Require Import ZArith QArith Qround Qminmax Qabs Lia List Bool String.
From Stdlib Require Import Qfield Lqa Sorting.Sorted Sorting.Permutation.
From Stdlib Require Floats.PrimFloat Floats.SpecFloat Floats.FloatOps Uint63.
From stdpp Require Import base decidable sets gmap list.

Local Open Scope Z_scope.

(** ** JavaScript values and the runtime operations the code relies on *)

Module Js.

(** A JS number: [NaN] or a finite number. *)
Inductive jsnum : Type :=
| NaN
| Num (q : Q).

(** The scalar values a settings field or a symptom score may hold. *)
Inductive jsval : Type :=
| JUndefined
| JNull
| JBool (b : bool)
| JNum (n : jsnum).

(** [Number(value)] *)
Definition to_number (v : jsval) : jsnum :=
  match v with
  | JUndefined => NaN
  | JNull => Num 0
  | JBool true => Num 1
  | JBool false => Num 0
  | JNum n => n
  end.

(** Truthiness, as tested by [||], [&&], [!] and [?:]. *)
Definition truthy (v : jsval) : bool :=
  match v with
  | JUndefined | JNull => false
  | JBool b => b
  | JNum NaN => false
  | JNum (Num q) => negb (Qeq_bool q 0)
  end.

(** [a || b] *)
Definition or_else (a b : jsval) : jsval := if truthy a then a else b.

(** [a ?? b] *)
Definition nullish (a b : jsval) : jsval :=
  match a with
  | JUndefined | JNull => b
  | _ => a
  end.

(** [Math.max(a, b)]: [NaN] is contagious. *)
Definition math_max (a b : jsnum) : jsnum :=
  match a, b with
  | Num x, Num y => Num (Qmax x y)
  | _, _ => NaN
  end.

(** [Math.floor(n)] *)
Definition math_floor (n : jsnum) : jsnum :=
  match n with
  | NaN => NaN
  | Num q => Num (inject_Z (Qfloor q))
  end.

(** [Math.round(x)] on a finite number: the nearest integer, a tie going
    up, that is [floor(x + 1/2)]. *)
Definition math_round (x : Q) : Z := Qfloor (x + (1 # 2))%Q.

(** The double that holds a small non-negative integer, and the exact value
    of a finite double ([None] for an infinity or a NaN). *)
Definition double_of_int (z : Z) : PrimFloat.float :=
  PrimFloat.of_uint63 (Uint63.of_Z z).

Definition double_value (x : PrimFloat.float) : option Q :=
  match FloatOps.Prim2SF x with
  | SpecFloat.S754_zero _ => Some 0%Q
  | SpecFloat.S754_finite negative m e =>
      let magnitude :=
        if 0 <=? e then inject_Z (Zpos m * 2 ^ e) else Zpos m # Z.to_pos (2 ^ (- e)) in
      Some (if negative then Qopp magnitude else magnitude)
  | _ => None
  end.

(** [a / b] on finite numbers. A zero divisor gives [NaN] or an infinity
    in JS; the model, which has no infinities, answers [NaN] for every
    quotient that is not finite. *)
Definition div (a b : Q) : jsnum :=
  if Qeq_bool b 0 then NaN else Num (a / b)%Q.

(** Truncation toward zero ([ToIntegerOrInfinity] on a finite number). *)
Definition trunc (x : Q) : Z :=
  if Qle_bool 0 x then Qfloor x else Qceiling x.

(** [x % m] on finite numbers with [m] not zero: the remainder has the
    sign of the dividend. *)
Definition rem (x m : Q) : Q := (x - m * inject_Z (trunc (x / m)))%Q.

(** [k === x] between an integer and a finite number. *)
Definition eq_int (x : Q) (k : Z) : bool := Qeq_bool x (inject_Z k).

(** [Array.prototype.sort(cmp)]: a stable sort; [cmp a b <= 0] keeps [a]
    before [b]. Insertion from the right keeps equal elements in their
    original order. *)
Section Sort.
Context {A : Type} (cmp : A -> A -> Z).

Fixpoint insert_sorted (x : A) (l : list A) : list A :=
  match l with
  | [] => [x]
  | y :: l' => if cmp x y <=? 0 then x :: y :: l' else y :: insert_sorted x l'
  end.

Definition sort (l : list A) : list A := foldr insert_sorted [] l.
End Sort.

End Js.

Import Js.

(** [clampNumber(value, min, max)], app.js line 78. *)
Definition clampNumber (value : jsval) (min max : Q) : Q :=
  match to_number value with
  | NaN => min
  | Num n => Qmin max (Qmax min n)
  end.

(** ** Dates *)

Definition Date := Z.
Definition DateKey := Z.

Definition msPerDay : Z := 24 * 60 * 60 * 1000.

(** The number of the local day an instant falls on. *)
Definition dayNumber (d : Date) : Z := d / msPerDay.

(** [date.getDay()]: 0 is Sunday, 6 is Saturday. *)
Definition getDay (d : Date) : Z := (dayNumber d + 4) mod 7.

(** [getLocalDateKey(date)], line 585. *)
Definition getLocalDateKey (d : Date) : DateKey := dayNumber d.

(** [new Date(y, m, d, hh, mi, 0, 0)] taken on the day of [d]. *)
Definition atTimeOfDay (d : Date) (hh mi : Z) : Date :=
  dayNumber d * msPerDay + hh * (60 * 60 * 1000) + mi * (60 * 1000).

(** [parseDateKeyToLocalDate(dateKey, '00:00')], line 592. *)
Definition parseDateKeyToLocalDate (k : DateKey) : Date := k * msPerDay.

(** [compareDateKeys(a, b)], line 598. *)
Definition compareDateKeys (a b : DateKey) : Z :=
  if a =? b then 0 else if a <? b then -1 else 1.

(** [daysBetween(a, b)], line 670: absolute difference in days. *)
Definition daysBetween (a b : Date) : Q :=
  (inject_Z (Z.abs (a - b)) / inject_Z msPerDay)%Q.

(** [addDays(date, days)], line 676. *)
Definition addDays (d : Date) (days : Z) : Date := d + days * msPerDay.

(** [startOfDay(date)], line 682. *)
Definition startOfDay (d : Date) : Date := atTimeOfDay d 0 0.

(** [startOfWeekMonday(date)], line 1271. *)
Definition startOfWeekMonday (date : Date) : Date :=
  let d := startOfDay date in
  let mondayIndex := (getDay d + 6) mod 7 in
  addDays d (- mondayIndex).

(** A parsed [HH:mm] string: the two numbers [split(':').map(Number)]
    yields. *)
Record HHmm : Type := { hours : Z; minutes : Z }.

(** [isAfterTimeHHmm(date, timeHHmm)], line 1364 (the two parsed numbers
    are finite, so the guard on [Number.isFinite] is passed). *)
Definition isAfterTimeHHmm (date : Date) (t : HHmm) : bool :=
  let cutoff := atTimeOfDay date (hours t) (minutes t) in
  cutoff <=? date.

(** ** Records, settings and the checklist cache *)

Module Weight.
(** A weight record; [dateTimeISO] is the instant [new Date(dateTimeISO)]
    denotes. *)
Record t : Type := { dateTimeISO : Date; weightKg : Q }.
End Weight.

Module Injection.
(** An application record; [nausea] is [symptoms?.nausea], [JUndefined]
    when the record carries none. *)
Record t : Type := { dateTimeISO : Date; nausea : jsval }.
End Injection.

Module Measures.
(** A body-measures record; [dateISO] is a date key. *)
Record t : Type := { dateISO : DateKey }.
End Measures.

(** The schedule fields of the settings object. [weighDaysOfWeek] is [None]
    when the field is [null] or [undefined] (entries that are not integers
    never equal a [getDay()] and are left out); [injectionTime] is [None]
    when the field is falsy. *)
Record Settings : Type := {
  injectionDayOfWeek : jsval;
  injectionTime : option HHmm;
  weighDaysOfWeek : option (list Z);
  measureReminderEveryDays : jsval
}.

(** [DEFAULTS], line 32. *)
Definition DEFAULTS : Settings := {|
  injectionDayOfWeek := JNum (Num 6);
  injectionTime := Some {| hours := 9; minutes := 51 |};
  weighDaysOfWeek := Some [1; 3; 5];
  measureReminderEveryDays := JNum (Num 14)
|}.

(** The object [buildChecklistCache] returns, line 1371. *)
Record Cache : Type := {
  weights : list Weight.t;
  injections : list Injection.t;
  measures : list Measures.t;
  weightKeys : gset DateKey;
  injectionKeys : gset DateKey;
  measuresKeys : gset DateKey;
  lastMeasures : option Measures.t
}.

(** [settings.weighDaysOfWeek || DEFAULTS.weighDaysOfWeek] (an array, even
    an empty one, is truthy). *)
Definition weighDaysOrDefault (settings : Settings) : list Z :=
  match weighDaysOfWeek settings with
  | Some l => l
  | None => [1; 3; 5]
  end.

(** [clampNumber(settings.injectionDayOfWeek ?? DEFAULTS.injectionDayOfWeek, 0, 6)] *)
Definition clampedInjectionDow (settings : Settings) : Q :=
  clampNumber (nullish (injectionDayOfWeek settings) (injectionDayOfWeek DEFAULTS)) 0 6.

(** [settings.injectionTime || DEFAULTS.injectionTime], split at the colon. *)
Definition injectionTimeOrDefault (settings : Settings) : HHmm :=
  match injectionTime settings with
  | Some t => t
  | None => {| hours := 9; minutes := 51 |}
  end.

(** ** Streaks (lines 88-129) *)

(** The [while (checked < maxLookbackDays)] loop of [countStreakWeights];
    [remaining] is [maxLookbackDays - checked]. *)
Fixpoint countStreakWeights_loop (weighDows keys : gset Z)
    (remaining : nat) (d : Date) (streak : Z) : Z :=
  match remaining with
  | O => streak
  | S remaining' =>
      if bool_decide (getDay d ∈ weighDows) then
        if bool_decide (getLocalDateKey d ∈ keys)
        then countStreakWeights_loop weighDows keys remaining' (addDays d (-1)) (streak + 1)
        else streak
      else countStreakWeights_loop weighDows keys remaining' (addDays d (-1)) streak
  end.

(** [countStreakWeights(cache, settings, maxLookbackDays = 120)], line 88;
    [now] is the value of [now()]. *)
Definition countStreakWeights (now : Date) (cache : Cache) (settings : Settings)
    (maxLookbackDays : nat) : Z :=
  let weighDows : gset Z := list_to_set (weighDaysOrDefault settings) in
  countStreakWeights_loop weighDows (weightKeys cache) maxLookbackDays (startOfDay now) 0.

(** The inner [for j] loop shared by the weekly computations: the first of
    the seven days from [weekStart] whose weekday is [injDow]. *)
Definition findInjectionDay (weekStart : Date) (injDow : Q) : option Date :=
  List.find (fun d => eq_int injDow (getDay d)) (map (addDays weekStart) (seqZ 0 7)).

(** The [for (let i = 0; i < maxWeeks; i++)] loop of
    [countStreakInjections]; [remaining] is [maxWeeks - i]. *)
Fixpoint countStreakInjections_loop (injDow : Q) (keys : gset Z)
    (thisWeekStart : Date) (remaining : nat) (i : Z) (streak : Z) : Z :=
  match remaining with
  | O => streak
  | S remaining' =>
      let weekStart := addDays thisWeekStart (-7 * i) in
      match findInjectionDay weekStart injDow with
      | None => streak
      | Some candidate =>
          if bool_decide (getLocalDateKey candidate ∈ keys)
          then countStreakInjections_loop injDow keys thisWeekStart remaining' (i + 1) (streak + 1)
          else streak
      end
  end.

(** [countStreakInjections(cache, settings, maxWeeks = 52)], line 106. *)
Definition countStreakInjections (now : Date) (cache : Cache) (settings : Settings)
    (maxWeeks : nat) : Z :=
  let injDow := clampedInjectionDow settings in
  let thisWeekStart := startOfWeekMonday now in
  countStreakInjections_loop injDow (injectionKeys cache) thisWeekStart maxWeeks 0 0.

(** ** Weekly consistency (lines 131-162) *)

(** What [renderWeeklyConsistency] computes before it writes to the page. *)
Record WeeklyConsistency : Type := {
  wc_start : Date;
  wc_expectedWeighKeys : list DateKey;
  wc_injKey : option DateKey;
  wc_expectedWeights : Z;
  wc_doneWeights : Z;
  wc_expectedInj : Z;
  wc_doneInj : Z;
  wc_expectedPoints : Z;
  wc_donePoints : Z;
  wc_pct : Z
}.

(** [Math.max(0, Math.floor(Number(weekOffset) || 0))] *)
Definition weekOffsetOf (weekOffset : jsval) : Z :=
  let n := match to_number weekOffset with NaN => 0%Q | Num q => q end in
  Z.max 0 (Qfloor n).

(** The days of a week that are weigh days, as date keys. *)
Definition expectedWeighKeysFrom (start : Date) (weighDows : gset Z) : list DateKey :=
  map getLocalDateKey
    (List.filter (fun d => bool_decide (getDay d ∈ weighDows))
       (map (addDays start) (seqZ 0 7))).

(** [expectedPoints ? Math.round((donePoints / expectedPoints) * 100) : 0]
    on exact numbers. *)
Definition percentOf (donePoints expectedPoints : Z) : Z :=
  if expectedPoints =? 0 then 0
  else math_round (inject_Z donePoints / inject_Z expectedPoints * 100)%Q.

(** The same expression in double-precision arithmetic, as the engine
    evaluates it: the quotient and the product are rounded to doubles, and
    [Math.round] takes the nearest integer of the exact product. *)
Definition percentOfDouble (donePoints expectedPoints : Z) : option Z :=
  if expectedPoints =? 0 then Some 0
  else
    option_map math_round
      (double_value
         (PrimFloat.mul
            (PrimFloat.div (double_of_int donePoints) (double_of_int expectedPoints))
            (double_of_int 100))).

(** [renderWeeklyConsistency(cache, settings, weekOffset = 0)], line 131:
    the values it computes; the writes to the page elements are left out.
    A week has at most 9 points, where the exact percentage is the one the
    engine computes in doubles ([percentOfDouble_small]). *)
Definition renderWeeklyConsistency (now : Date) (cache : Cache) (settings : Settings)
    (weekOffset : jsval) : WeeklyConsistency :=
  let offset := weekOffsetOf weekOffset in
  let base := startOfWeekMonday now in
  let start := addDays base (-7 * offset) in
  let weighDows : gset Z := list_to_set (weighDaysOrDefault settings) in
  let expectedWeighKeys := expectedWeighKeysFrom start weighDows in
  let injDow := clampedInjectionDow settings in
  let injKey := option_map getLocalDateKey (findInjectionDay start injDow) in
  let expectedWeights := Z.of_nat (length expectedWeighKeys) in
  let doneWeights :=
    Z.of_nat (length (List.filter (fun k => bool_decide (k ∈ weightKeys cache)) expectedWeighKeys)) in
  let expectedInj := match injKey with Some _ => 1 | None => 0 end in
  let doneInj :=
    match injKey with
    | Some k => if bool_decide (k ∈ injectionKeys cache) then 1 else 0
    | None => 0
    end in
  let expectedPoints := expectedWeights + (if expectedInj =? 0 then 0 else 2) in
  let donePoints := doneWeights + (if doneInj =? 0 then 0 else 2) in
  let pct := percentOf donePoints expectedPoints in
  {| wc_start := start;
     wc_expectedWeighKeys := expectedWeighKeys;
     wc_injKey := injKey;
     wc_expectedWeights := expectedWeights;
     wc_doneWeights := doneWeights;
     wc_expectedInj := expectedInj;
     wc_doneInj := doneInj;
     wc_expectedPoints := expectedPoints;
     wc_donePoints := donePoints;
     wc_pct := pct |}.

(** ** Adherence over a range of days (lines 1881-1924) *)

(** [uniqueDateKeysFromDateTimeISO(items)], line 1881, on the instants. *)
Definition uniqueDateKeysFromDateTimeISO (instants : list Date) : gset DateKey :=
  list_to_set (map getLocalDateKey instants).

Record RangeData : Type := {
  rd_weights : list Weight.t;
  rd_injections : list Injection.t
}.

(** The object [computeScheduleAdherenceForRange] returns; [pct] is the
    integer [Math.round] gives, [None] if the double it rounds is not
    finite. *)
Record Adherence : Type := {
  expectedWeights : Z;
  doneWeights : Z;
  expectedInj : Z;
  doneInj : Z;
  expectedPoints : Z;
  donePoints : Z;
  pct : option Z
}.

(** The four counters of the [for] loop of
    [computeScheduleAdherenceForRange], updated for the day [d]. *)
Definition adherenceStep (weighDows weightKeys injKeys : gset Z) (injDow : Q)
    (acc : Z * Z * Z * Z) (d : Date) : Z * Z * Z * Z :=
  let '(eW, dW, eI, dI) := acc in
  let key := getLocalDateKey d in
  let '(eW, dW) :=
    if bool_decide (getDay d ∈ weighDows)
    then (eW + 1, if bool_decide (key ∈ weightKeys) then dW + 1 else dW)
    else (eW, dW) in
  let '(eI, dI) :=
    if eq_int injDow (getDay d)
    then (eI + 1, if bool_decide (key ∈ injKeys) then dI + 1 else dI)
    else (eI, dI) in
  (eW, dW, eI, dI).

(** [computeScheduleAdherenceForRange(rangeDays, settings, data)], line 1890;
    [settings] is [None] when the argument is [null]. The percentage is
    [expectedPoints ? Math.round((donePoints / expectedPoints) * 100) : 0]
    as the engine evaluates it, in double precision. *)
Definition computeScheduleAdherenceForRange (now : Date) (rangeDays : Z)
    (settings : option Settings) (data : RangeData) : Adherence :=
  let s := match settings with Some s => s | None => DEFAULTS end in
  let end_ := startOfDay now in
  let start := addDays end_ (- (Z.max 1 rangeDays - 1)) in
  let weighDows : gset Z := list_to_set (weighDaysOrDefault s) in
  let injDow := clampedInjectionDow s in
  let weightKeys := uniqueDateKeysFromDateTimeISO (map Weight.dateTimeISO (rd_weights data)) in
  let injKeys := uniqueDateKeysFromDateTimeISO (map Injection.dateTimeISO (rd_injections data)) in
  let '(eW, dW, eI, dI) :=
    fold_left (adherenceStep weighDows weightKeys injKeys injDow)
      (map (addDays start) (seqZ 0 rangeDays)) (0, 0, 0, 0) in
  let expectedPoints := eW + eI * 2 in
  let donePoints := dW + dI * 2 in
  {| expectedWeights := eW; doneWeights := dW; expectedInj := eI; doneInj := dI;
     expectedPoints := expectedPoints; donePoints := donePoints;
     pct := percentOfDouble donePoints expectedPoints |}.

(** ** Weight deltas (lines 1008-1058) *)

(** [sortByDateTimeDesc(a, b)], line 1008, on the instants of two records. *)
Definition sortByDateTimeDesc (ta tb : Date) : Z := tb - ta.

(** [sortByDateDesc(a, b)], line 1012: [b.dateISO.localeCompare(a.dateISO)]. *)
Definition sortByDateDesc (a b : Measures.t) : Z :=
  compareDateKeys (Measures.dateISO b) (Measures.dateISO a).

(** [pickWeightClosestAtOrBefore(weightsDesc, targetDate)], line 1017. *)
Fixpoint pickWeightClosestAtOrBefore (weightsDesc : list Weight.t) (targetDate : Date)
    : option Weight.t :=
  match weightsDesc with
  | [] => None
  | w :: rest =>
      if Weight.dateTimeISO w <=? targetDate then Some w
      else pickWeightClosestAtOrBefore rest targetDate
  end.

Record WeightDeltas : Type := {
  wd_last : option Weight.t;
  wd_lastDate : option Date;
  wd_d7 : option Q;
  wd_d14 : option Q;
  wd_d30 : option Q
}.

(** [computeWeightDeltas(weightsDesc)], line 1033. *)
Definition computeWeightDeltas (weightsDesc : list Weight.t) : WeightDeltas :=
  match weightsDesc with
  | [] => {| wd_last := None; wd_lastDate := None;
             wd_d7 := None; wd_d14 := None; wd_d30 := None |}
  | last :: _ =>
      let lastDate := Weight.dateTimeISO last in
      let t7 := addDays lastDate (-7) in
      let t14 := addDays lastDate (-14) in
      let t30 := addDays lastDate (-30) in
      let w7 := pickWeightClosestAtOrBefore weightsDesc t7 in
      let w14 := pickWeightClosestAtOrBefore weightsDesc t14 in
      let w30 := pickWeightClosestAtOrBefore weightsDesc t30 in
      let d := option_map (fun w => (Weight.weightKg last - Weight.weightKg w)%Q) in
      {| wd_last := Some last; wd_lastDate := Some lastDate;
         wd_d7 := d w7; wd_d14 := d w14; wd_d30 := d w30 |}
  end.

(** ** Next scheduled application (line 1297) *)

(** [computeNextScheduledDateTime(settings, fromDate)], line 1297;
    [settings] is [None] for a [null] argument. The unclamped remainder
    [delta] may be fractional when the stored weekday is: [setDate] then
    moves by the whole days in it. *)
Definition computeNextScheduledDateTime (settings : option Settings) (fromDate : Date) : Date :=
  let s := match settings with Some s => s | None => DEFAULTS end in
  let dow := clampedInjectionDow s in
  let time := injectionTimeOrDefault s in
  let base := fromDate in
  let currentDow := getDay base in
  let delta := rem (dow - inject_Z currentDow + 7)%Q 7 in
  let candidate := atTimeOfDay base (hours time) (minutes time) in
  let delta := if Qeq_bool delta 0 && (candidate <=? base) then 7%Q else delta in
  addDays candidate (trunc delta).

(** ** Regularity and trend (lines 2623-2675) *)

(** [safeRatio(numerator, denominator)], line 2623. *)
Definition safeRatio (numerator denominator : Q) : jsnum :=
  if Qeq_bool denominator 0 then Num 0 else div numerator denominator.

Record InjectionRegularity : Type := {
  ir_count : nat;
  ir_meanDays : option jsnum;
  ir_onTimeRate : option jsnum
}.

(** The [for (let i = 1; i < times.length; i++)] loop: the gaps between
    neighbours. *)
Fixpoint intervalsOf (times : list Date) : list Q :=
  match times with
  | t0 :: ((t1 :: _) as rest) => daysBetween t1 t0 :: intervalsOf rest
  | _ => []
  end.

Definition sumQ (l : list Q) : Q := fold_left Qplus l 0%Q.

(** [computeInjectionRegularity(injectionsDesc)], line 2628 (the [notes]
    text is left out). *)
Definition computeInjectionRegularity (injectionsDesc : list Injection.t)
    : InjectionRegularity :=
  if (length injectionsDesc <? 2)%nat then
    {| ir_count := length injectionsDesc; ir_meanDays := None; ir_onTimeRate := None |}
  else
    let times := sort (fun a b => a - b) (map Injection.dateTimeISO injectionsDesc) in
    let intervals := intervalsOf times in
    let mean := div (sumQ intervals) (inject_Z (Z.of_nat (length intervals))) in
    let onTime := length (List.filter (fun d => Qle_bool 6 d && Qle_bool d 8) intervals) in
    let onTimeRate :=
      safeRatio (inject_Z (Z.of_nat onTime)) (inject_Z (Z.of_nat (length intervals))) in
    {| ir_count := length injectionsDesc;
       ir_meanDays := Some mean; ir_onTimeRate := Some onTimeRate |}.

Record WeightTrend : Type := {
  wt_start : option Weight.t;
  wt_end : option Weight.t;
  wt_days : option Q;
  wt_deltaKg : option Q;
  wt_perWeekKg : option jsnum
}.

Definition nullWeightTrend : WeightTrend :=
  {| wt_start := None; wt_end := None; wt_days := None;
     wt_deltaKg := None; wt_perWeekKg := None |}.

(** [computeWeightTrend(weightsDesc)], line 2654 (the [notes] text is left
    out; [wt_days] exposes the local [days]). *)
Definition computeWeightTrend (weightsDesc : list Weight.t) : WeightTrend :=
  if (length weightsDesc <? 2)%nat then nullWeightTrend
  else
    let asc :=
      sort (fun a b => Weight.dateTimeISO a - Weight.dateTimeISO b) weightsDesc in
    match asc with
    | [] => nullWeightTrend
    | start :: _ =>
        let end_ := List.last asc start in
        let startDate := Weight.dateTimeISO start in
        let endDate := Weight.dateTimeISO end_ in
        let days := Qmax 1 (daysBetween endDate startDate) in
        let deltaKg := (Weight.weightKg end_ - Weight.weightKg start)%Q in
        let perWeekKg := div deltaKg (days / 7)%Q in
        {| wt_start := Some start; wt_end := Some end_; wt_days := Some days;
           wt_deltaKg := Some deltaKg; wt_perWeekKg := Some perWeekKg |}
    end.

(** ** The record store and the reads the checklist makes *)

(** The stored settings value: a field is [None] when the stored object
    does not have the key. *)
Record StoredSettings : Type := {
  st_injectionDayOfWeek : option jsval;
  st_injectionTime : option (option HHmm);
  st_weighDaysOfWeek : option (option (list Z));
  st_measureReminderEveryDays : option jsval
}.

(** The state the asynchronous reads go to: the four object stores and the
    clock. *)
Record World : Type := {
  db_settings : option StoredSettings;
  db_weights : list Weight.t;
  db_injections : list Injection.t;
  db_measures : list Measures.t;
  clock : Date
}.

(** Computations that may read or change the world. *)
Definition M (A : Type) : Type := World -> A * World.

Definition ret {A} (a : A) : M A := fun w => (a, w).

Definition bind {A B} (m : M A) (k : A -> M B) : M B :=
  fun w => let '(a, w') := m w in k a w'.

Notation "'let*' x ':=' m 'in' k" := (bind m (fun x => k))
  (at level 10, x name, m at level 200, k at level 200).

(** [getAll(STORE_WEIGHTS)] and its siblings, [getByKey(STORE_SETTINGS, SETTINGS_KEY)]
    and [now()] (here [now_]). *)
Definition getAllWeights : M (list Weight.t) := fun w => (db_weights w, w).
Definition getAllInjections : M (list Injection.t) := fun w => (db_injections w, w).
Definition getAllMeasures : M (list Measures.t) := fun w => (db_measures w, w).
Definition getSettingsValue : M (option StoredSettings) := fun w => (db_settings w, w).
Definition now_ : M Date := fun w => (clock w, w).

Definition orDefault {A} (stored : option A) (default : A) : A :=
  match stored with Some v => v | None => default end.

(** [getSettings()], line 876: [{ ...DEFAULTS, ...val }]. *)
Definition getSettings : M Settings :=
  let* s := getSettingsValue in
  let val := orDefault s {| st_injectionDayOfWeek := None; st_injectionTime := None;
                            st_weighDaysOfWeek := None;
                            st_measureReminderEveryDays := None |} in
  ret {| injectionDayOfWeek := orDefault (st_injectionDayOfWeek val) (injectionDayOfWeek DEFAULTS);
         injectionTime := orDefault (st_injectionTime val) (injectionTime DEFAULTS);
         weighDaysOfWeek := orDefault (st_weighDaysOfWeek val) (weighDaysOfWeek DEFAULTS);
         measureReminderEveryDays :=
           orDefault (st_measureReminderEveryDays val) (measureReminderEveryDays DEFAULTS) |}.

(** [buildChecklistCache()], line 1371. *)
Definition buildChecklistCache : M Cache :=
  let* weights := getAllWeights in
  let* injections := getAllInjections in
  let* measures := getAllMeasures in
  let weightKeys : gset DateKey :=
    list_to_set (map (fun w => getLocalDateKey (Weight.dateTimeISO w)) weights) in
  let injectionKeys : gset DateKey :=
    list_to_set (map (fun i => getLocalDateKey (Injection.dateTimeISO i)) injections) in
  let measuresKeys : gset DateKey := list_to_set (map Measures.dateISO measures) in
  let measuresSorted := sort sortByDateDesc measures in
  let lastMeasures := head measuresSorted in
  ret {| weights := weights; injections := injections; measures := measures;
         weightKeys := weightKeys; injectionKeys := injectionKeys;
         measuresKeys := measuresKeys; lastMeasures := lastMeasures |}.

(** ** Checklist (lines 1362-1559) *)

Inductive Kind : Type := weight | injection | measures_.

Inductive Status : Type := st_done | st_pending | st_late.

(** A checklist item. [warnAfterCutoff] and [status] are [None] while the
    object does not have the property (titles and [meta] texts are left
    out). *)
Record ChecklistItem : Type := {
  kind : Kind;
  dateKey : DateKey;
  required : bool;
  done : bool;
  warnAfterCutoff : option bool;
  status : option Status
}.

Definition CHECKLIST_CUTOFF_TIME : HHmm := {| hours := 12; minutes := 0 |}.

(** [isWeightLoggedOn(dateKey, cache)] and its two siblings, lines
    1389-1407, called with a cache. *)
Definition isWeightLoggedOn (k : DateKey) (c : Cache) : bool := bool_decide (k ∈ weightKeys c).
Definition isInjectionLoggedOn (k : DateKey) (c : Cache) : bool := bool_decide (k ∈ injectionKeys c).
Definition isMeasuresLoggedOn (k : DateKey) (c : Cache) : bool := bool_decide (k ∈ measuresKeys c).

(** [getStatus(item, nowDate)], line 1420. *)
Definition getStatus (item : ChecklistItem) (nowDate : Date) : Status :=
  if done item then st_done
  else
    let todayKey := getLocalDateKey nowDate in
    if compareDateKeys (dateKey item) todayKey <? 0 then st_late else st_pending.

(** [Math.max(7, Math.floor(Number(settings.measureReminderEveryDays ||
    DEFAULTS.measureReminderEveryDays)))] *)
Definition measureEvery (settings : Settings) : jsnum :=
  math_max (Num 7)
    (math_floor (to_number (or_else (measureReminderEveryDays settings)
                                    (measureReminderEveryDays DEFAULTS)))).

(** [computeMeasuresDueDateKey(cache, settings, todayKey)], line 1440.
    [None] stands for the key of an invalid date, which is the key of no
    day. *)
Definition computeMeasuresDueDateKey (cache : Cache) (settings : Settings)
    (todayKey : DateKey) : option DateKey :=
  let every := measureEvery settings in
  match lastMeasures cache with
  | None => Some todayKey
  | Some lastM =>
      match every with
      | NaN => None
      | Num n =>
          let base := parseDateKeyToLocalDate (Measures.dateISO lastM) in
          let due := addDays base (trunc n) in
          let dueKey := getLocalDateKey due in
          if compareDateKeys dueKey todayKey <? 0 then Some todayKey else Some dueKey
      end
  end.

Definition setStatus (nowDate : Date) (it : ChecklistItem) : ChecklistItem :=
  {| kind := kind it; dateKey := dateKey it; required := required it; done := done it;
     warnAfterCutoff := warnAfterCutoff it; status := Some (getStatus it nowDate) |}.

(** [buildChecklistForDate(date, cache, settings, nowDate)], line 1455. *)
Definition buildChecklistForDate (date : Date) (cache : option Cache)
    (settings : option Settings) (nowDate : Date) : M (list ChecklistItem) :=
  let* s := match settings with Some s => ret s | None => getSettings end in
  let* c := match cache with Some c => ret c | None => buildChecklistCache end in
  let dateKey := getLocalDateKey date in
  let todayKey := getLocalDateKey nowDate in
  let dow := getDay date in
  let items := [] in
  let items :=
    if match weighDaysOfWeek s with Some l => bool_decide (dow ∈ l) | None => false end then
      let done := isWeightLoggedOn dateKey c in
      items ++ [{| kind := weight; dateKey := dateKey; required := true; done := done;
                   warnAfterCutoff :=
                     Some ((compareDateKeys dateKey todayKey =? 0)
                           && isAfterTimeHHmm nowDate CHECKLIST_CUTOFF_TIME && negb done);
                   status := None |}]
    else items in
  let items :=
    if match to_number (injectionDayOfWeek s) with Num n => eq_int n dow | NaN => false end then
      let done := isInjectionLoggedOn dateKey c in
      items ++ [{| kind := injection; dateKey := dateKey; required := true; done := done;
                   warnAfterCutoff :=
                     Some ((compareDateKeys dateKey todayKey =? 0)
                           && isAfterTimeHHmm nowDate CHECKLIST_CUTOFF_TIME && negb done);
                   status := None |}]
    else items in
  let measuresDueKey := computeMeasuresDueDateKey c s todayKey in
  let items :=
    if match measuresDueKey with
       | Some due => compareDateKeys dateKey due =? 0
       | None => false
       end then
      let done := isMeasuresLoggedOn dateKey c in
      items ++ [{| kind := measures_; dateKey := dateKey; required := false; done := done;
                   warnAfterCutoff := None; status := None |}]
    else items in
  ret (map (setStatus nowDate) items).

(** The body of the inner [for (const it of items)] loop of
    [buildOverdueChecklist]. *)
Fixpoint pushOverdue (items overdue : list ChecklistItem) : list ChecklistItem :=
  match items with
  | [] => overdue
  | it :: rest =>
      if negb (required it) then pushOverdue rest overdue
      else if done it then pushOverdue rest overdue
      else
        pushOverdue rest
          (overdue ++ [{| kind := kind it; dateKey := dateKey it; required := required it;
                          done := done it; warnAfterCutoff := Some false;
                          status := Some st_late |}])
  end.

(** The outer [for (let i = 1; i <= daysBack; i++)] loop. *)
Fixpoint overdueLoop (s : Settings) (c : Cache) (base : Date) (indices : list Z)
    (overdue : list ChecklistItem) : M (list ChecklistItem) :=
  match indices with
  | [] => ret overdue
  | i :: rest =>
      let d := addDays base (- i) in
      let* nowDate := now_ in
      let* items := buildChecklistForDate d (Some c) (Some s) nowDate in
      overdueLoop s c base rest (pushOverdue items overdue)
  end.

(** [buildOverdueChecklist(daysBack = 7)], line 1538. *)
Definition buildOverdueChecklist (daysBack : Z) : M (list ChecklistItem) :=
  let* s := getSettings in
  let* c := buildChecklistCache in
  let* n := now_ in
  let base := startOfDay n in
  let* overdue := overdueLoop s c base (seqZ 1 daysBack) [] in
  ret (sort (fun a b => compareDateKeys (dateKey b) (dateKey a)) overdue).

(** ** Local insight rules (lines 445-546) *)

Inductive Severity : Type := sev_ok | sev_info | sev_warn | sev_danger.

(** An insight card; [severity] is the card's [kind] property (the
    [insight] and [action] texts are left out). *)
Record InsightItem : Type := { title : string; severity : Severity }.

Definition maxOf (x : Q) (l : list Q) : Q := fold_left Qmax l x.
Definition minOf (x : Q) (l : list Q) : Q := fold_left Qmin l x.

(** Rule 1, the plateau: at least six weights in the last 14 days that
    span less than 0.3 kg. *)
Definition plateauRule (nowMs : Date) (ws : list Weight.t) : list InsightItem :=
  let cutoff14 := nowMs - 14 * 24 * 60 * 60 * 1000 in
  let w14 :=
    sort (fun a b => Weight.dateTimeISO a - Weight.dateTimeISO b)
      (List.filter (fun w => cutoff14 <=? Weight.dateTimeISO w) ws) in
  if (6 <=? length w14)%nat then
    match map Weight.weightKg w14 with
    | [] => []
    | y :: ys =>
        let span := (maxOf y ys - minOf y ys)%Q in
        if negb (Qle_bool (3 # 10) span)
        then [{| title := "Possivel plato"; severity := sev_warn |}]
        else []
    end
  else [].

(** Rule 2, the [for (let i = 0; i < wAsc.length - 2; i++)] loop with its
    [continue]s and its [break]. *)
Fixpoint reboundRule (wAsc : list Weight.t) : list InsightItem :=
  match wAsc with
  | a :: ((b :: c :: _) as rest) =>
      let ta := Weight.dateTimeISO a in
      let tb := Weight.dateTimeISO b in
      let tc := Weight.dateTimeISO c in
      if 48 * 60 * 60 * 1000 <? tb - ta then reboundRule rest
      else
        let up := (Weight.weightKg b - Weight.weightKg a)%Q in
        if Qle_bool up 1 then reboundRule rest
        else if 72 * 60 * 60 * 1000 <? tc - tb then reboundRule rest
        else
          let back := Qabs (Weight.weightKg c - Weight.weightKg a) in
          if Qle_bool back (3 # 10)
          then [{| title := "Oscilacao compativel com retencao"; severity := sev_info |}]
          else reboundRule rest
  | _ => []
  end.

(** Rule 3: two or more expected weigh-ins of this week are missing. *)
Definition weighRoutineRule (now : Date) (cache : Cache) (settings : Settings)
    : list InsightItem :=
  let start := startOfWeekMonday now in
  let weighDows : gset Z := list_to_set (weighDaysOrDefault settings) in
  let expected := expectedWeighKeysFrom start weighDows in
  let done := length (List.filter (fun k => bool_decide (k ∈ weightKeys cache)) expected) in
  if 2 <=? Z.of_nat (length expected) - Z.of_nat done
  then [{| title := "Rotina de pesagem"; severity := sev_warn |}]
  else [].

Definition injectionsDesc (cache : Cache) : list Injection.t :=
  sort (fun a b => sortByDateTimeDesc (Injection.dateTimeISO a) (Injection.dateTimeISO b))
    (injections cache).

(** Rule 4: the last application was not on the scheduled weekday. *)
Definition scheduleRule (cache : Cache) (settings : Settings) : list InsightItem :=
  let injDow := clampedInjectionDow settings in
  match head (injectionsDesc cache) with
  | None => []
  | Some lastInj =>
      let d := Injection.dateTimeISO lastInj in
      if negb (eq_int injDow (getDay d))
      then [{| title := "Irregularidade de agenda"; severity := sev_warn |}]
      else []
  end.

(** [clampNumber(inj?.symptoms?.nausea ?? 0, 0, 10)] *)
Definition nauseaScore (inj : Injection.t) : Q :=
  clampNumber (nullish (Injection.nausea inj) (JNum (Num 0))) 0 10.

Definition nauseaItem : InsightItem :=
  {| title := "Nausea alta recorrente"; severity := sev_danger |}.

(** Rule 5: high nausea on the two latest applications. *)
Definition nauseaRule (cache : Cache) : list InsightItem :=
  let injDesc := injectionsDesc cache in
  match injDesc with
  | i0 :: i1 :: _ =>
      let a := nauseaScore i0 in
      let b := nauseaScore i1 in
      if Qle_bool 7 a && Qle_bool 7 b then [nauseaItem] else []
  | _ => []
  end.

(** [buildLocalInsights(cache, settings)], line 445; [now] is the clock
    reading that [Date.now()] and [now()] give. Titles are spelled without
    their accents. *)
Definition buildLocalInsights (now : Date) (cache : Cache) (settings : Settings)
    : list InsightItem :=
  let wAsc :=
    sort (fun a b => Weight.dateTimeISO a - Weight.dateTimeISO b) (weights cache) in
  let items :=
    plateauRule now (weights cache) ++ reboundRule wAsc
    ++ weighRoutineRule now cache settings ++ scheduleRule cache settings
    ++ nauseaRule cache in
  match items with
  | [] => [{| title := "Sem alertas por regras locais"; severity := sev_ok |}]
  | _ => items
  end.


(** ** Further date helpers *)

(** [endOfWeekSunday(startMonday)], line 1279: the last millisecond of the
    sixth day after [startMonday]. *)
Definition endOfWeekSunday (startMonday : Date) : Date :=
  let d := addDays startMonday 6 in
  dayNumber d * msPerDay + 23 * (60 * 60 * 1000) + 59 * (60 * 1000) + 59 * 1000 + 999.

(** ** The consistency badge (line 1310) *)

Record Badge : Type := { badge_label : string; badge_cls : string }.

(** [statusBadgeFromPercent(pct)], line 1310. *)
Definition statusBadgeFromPercent (pct : Z) : Badge :=
  if 90 <=? pct then {| badge_label := "Excelente"; badge_cls := "chip chip--ok" |}
  else if 70 <=? pct then {| badge_label := "Boa"; badge_cls := "chip chip--warn" |}
  else {| badge_label := "Ajustar"; badge_cls := "chip chip--danger" |}.

(** ** The weekly reminder (lines 919-972, 1684-1700) *)

(** The [reminderDow] setting as the code tells it apart: the empty string,
    or any other value, given by a value with the same [Number()] (the
    stored string ["3"] by the number 3). *)
Inductive ReminderDow : Type :=
| RdEmpty
| RdValue (v : jsval).

(** The reminder fields of the settings; [reminderTime] is [None] when the
    field is falsy. *)
Record ReminderSettings : Type := {
  reminderDow : ReminderDow;
  reminderTime : option HHmm
}.

(** [Number.isInteger(q)] on a finite number. *)
Definition isInteger (q : Q) : bool := Qeq_bool q (inject_Z (Qfloor q)).

(** [computeNextReminderDate(settings, fromDate)], line 919; [None] is
    [null]. *)
Definition computeNextReminderDate (settings : ReminderSettings) (fromDate : Date)
    : option Date :=
  match reminderDow settings with
  | RdEmpty | RdValue JNull | RdValue JUndefined => None
  | RdValue v =>
      match to_number v with
      | NaN => None
      | Num dow =>
          if negb (isInteger dow) || negb (Qle_bool 0 dow) || negb (Qle_bool dow 6)
          then None
          else
            let time :=
              match reminderTime settings with
              | Some t => t
              | None => {| hours := 19; minutes := 0 |}
              end in
            let base := fromDate in
            let currentDow := getDay base in
            let delta := rem (dow - inject_Z currentDow + 7)%Q 7 in
            let candidate := atTimeOfDay base (hours time) (minutes time) in
            let delta :=
              if Qeq_bool delta 0 && (candidate <=? base) then 7%Q else delta in
            Some (addDays candidate (trunc delta))
      end
  end.

Inductive DueKind : Type := due_overdue | due_soon | due_future.

(** [describeDueBanner(nextDue)], line 942: the [kind] of the banner ([n]
    is the reading of [now()]; the text is left out). *)
Definition describeDueBanner (nextDue : Date) (n : Date) : DueKind :=
  let diffMs := nextDue - n in
  if diffMs <? 0 then due_overdue
  else
    let diffHours := (inject_Z diffMs / inject_Z (1000 * 60 * 60))%Q in
    if Qle_bool diffHours 24 then due_soon else due_future.

(** What [renderReminderBanner], line 1684, sets on the banner: whether it
    is hidden, and the kind of its text when there is a next reminder. [n]
    is the reading of the clock, taken to be the same for [now()] in
    [computeNextReminderDate] and in [describeDueBanner]. *)
Record ReminderBanner : Type := { banner_hidden : bool; banner_kind : option DueKind }.

Definition renderReminderBanner (settings : ReminderSettings) (n : Date) : ReminderBanner :=
  match computeNextReminderDate settings n with
  | None => {| banner_hidden := true; banner_kind := None |}
  | Some next =>
      let info := describeDueBanner next n in
      {| banner_hidden :=
           negb (match info with due_soon | due_overdue => true | due_future => false end);
         banner_kind := Some info |}
  end.

(** ** Rotation of the application site (lines 52-59, 974-991) *)

Definition ROTATION_SITES_DEFAULT : list string :=
  ["abdomen_right"; "abdomen_left"; "thigh_right"; "thigh_left"; "arm_right"; "arm_left"]%string.

(** [getRotationSites(settings)], line 974; the argument is
    [settings?.enableArmSites]. *)
Definition getRotationSites (enableArmSites : jsval) : list string :=
  let enableArm := truthy enableArmSites in
  if enableArm then ROTATION_SITES_DEFAULT else take 4 ROTATION_SITES_DEFAULT.

Module Application.
(** An application record as the rotation reads it: its instant and its
    site, the empty text when the record has none. *)
Record t : Type := { dateTimeISO : Date; site : string }.
End Application.

(** [rotation.indexOf(lastSite)]: the first index, [None] for -1. *)
Fixpoint indexOf (rotation : list string) (s : string) : option nat :=
  match rotation with
  | [] => None
  | x :: rest =>
      if String.eqb x s then Some O
      else option_map S (indexOf rest s)
  end.

(** [getNextInjectionSite(injectionsDesc, settings)], line 980, called with
    both arguments; [None] is [undefined] (an empty rotation has no first
    element). *)
Definition getNextInjectionSite (injections : list Application.t) (enableArmSites : jsval)
    : option string :=
  let rotation := getRotationSites enableArmSites in
  let sorted :=
    sort (fun a b => sortByDateTimeDesc (Application.dateTimeISO a) (Application.dateTimeISO b))
      injections in
  match head sorted with
  | None => head rotation
  | Some last =>
      let lastSite := Application.site last in
      if String.eqb lastSite "" then head rotation
      else
        match indexOf rotation lastSite with
        | None => head rotation
        | Some idx => nth_error rotation ((idx + 1) mod length rotation)%nat
        end
  end.

(** ** More of the checklist (lines 1389-1407, 1515-1536) *)

(** [isWeightLoggedOn(dateKey, cache = null)], line 1389, and its two
    siblings with both branches: the cache when there is one, otherwise a
    read of the store. *)
Definition isWeightLoggedOnM (dateKey : DateKey) (cache : option Cache) : M bool :=
  match cache with
  | Some c => ret (bool_decide (dateKey ∈ weightKeys c))
  | None =>
      let* weights := getAllWeights in
      ret (existsb (fun w => getLocalDateKey (Weight.dateTimeISO w) =? dateKey) weights)
  end.

Definition isInjectionLoggedOnM (dateKey : DateKey) (cache : option Cache) : M bool :=
  match cache with
  | Some c => ret (bool_decide (dateKey ∈ injectionKeys c))
  | None =>
      let* injections := getAllInjections in
      ret (existsb (fun i => getLocalDateKey (Injection.dateTimeISO i) =? dateKey) injections)
  end.

Definition isMeasuresLoggedOnM (dateKey : DateKey) (cache : option Cache) : M bool :=
  match cache with
  | Some c => ret (bool_decide (dateKey ∈ measuresKeys c))
  | None =>
      let* measures := getAllMeasures in
      ret (existsb (fun m => Measures.dateISO m =? dateKey) measures)
  end.

(** An entry of the upcoming list: a day and its items. *)
Record UpcomingDay : Type := {
  up_dateKey : DateKey;
  up_dow : Z;
  up_items : list ChecklistItem
}.

(** The [for (let i = 1; i <= days; i++)] loop of [buildUpcomingChecklist]. *)
Fixpoint upcomingLoop (s : Settings) (c : Cache) (base : Date) (indices : list Z)
    (entries : list UpcomingDay) : M (list UpcomingDay) :=
  match indices with
  | [] => ret entries
  | i :: rest =>
      let d := addDays base i in
      let dateKey := getLocalDateKey d in
      let* nowDate := now_ in
      let* items := buildChecklistForDate d (Some c) (Some s) nowDate in
      upcomingLoop s c base rest
        (match items with
         | [] => entries
         | _ => entries ++ [{| up_dateKey := dateKey; up_dow := getDay d; up_items := items |}]
         end)
  end.

(** [buildUpcomingChecklist(days = 7)], line 1515. *)
Definition buildUpcomingChecklist (days : Z) : M (list UpcomingDay) :=
  let* s := getSettings in
  let* c := buildChecklistCache in
  let* n := now_ in
  let base := startOfDay n in
  upcomingLoop s c base (seqZ 1 days) [].

(** ** Dose history (line 1926) *)

Module Dose.
(** An application record as the dose history reads it; [doseMg] is
    [Number(inj.doseMg)], [NaN] when that is not a finite number. *)
Record t : Type := { dateTimeISO : Date; doseMg : jsnum }.
End Dose.

Record DoseItem : Type := { di_dateTimeISO : Date; di_doseMg : Q }.

(** The [for (const inj of injectionsAsc)] loop of [computeDoseHistory];
    [lastDose] is [None] while it is [null]. *)
Fixpoint doseLoop (injectionsAsc : list Dose.t) (lastDose : option Q)
    (items : list DoseItem) : list DoseItem :=
  match injectionsAsc with
  | [] => items
  | inj :: rest =>
      match Dose.doseMg inj with
      | NaN => doseLoop rest lastDose items
      | Num dose =>
          match lastDose with
          | None =>
              doseLoop rest (Some dose)
                (items ++ [{| di_dateTimeISO := Dose.dateTimeISO inj; di_doseMg := dose |}])
          | Some last =>
              if Qle_bool (1 # 10000) (Qabs (dose - last))
              then doseLoop rest (Some dose)
                     (items ++ [{| di_dateTimeISO := Dose.dateTimeISO inj;
                                   di_doseMg := dose |}])
              else doseLoop rest lastDose items
          end
      end
  end.

(** [computeDoseHistory(injectionsAsc)], line 1926. *)
Definition computeDoseHistory (injectionsAsc : list Dose.t) : list DoseItem :=
  match injectionsAsc with
  | [] => []
  | first :: _ =>
      let items := doseLoop injectionsAsc None [] in
      match items with
      | [_] =>
          let last := List.last injectionsAsc first in
          match Dose.doseMg last with
          | Num dose => [{| di_dateTimeISO := Dose.dateTimeISO last; di_doseMg := dose |}]
          | NaN => items
          end
      | _ => items
      end
  end.

(** ** Common symptoms (line 2712) *)

Module Symptoms.
(** The [symptoms] object of an application; a field is [JUndefined] when
    the object, or the key, is missing. *)
Record t : Type := {
  nausea : jsval; reflux : jsval; appetite : jsval; energy : jsval; bowel : jsval
}.
End Symptoms.

Inductive SymptomKey : Type := sk_nausea | sk_reflux | sk_appetite | sk_energy | sk_bowel.

(** [Object.keys(sums)], in the order the keys were written. *)
Definition symptomKeys : list SymptomKey :=
  [sk_nausea; sk_reflux; sk_appetite; sk_energy; sk_bowel].

(** [i.symptoms?.[k]] *)
Definition symptomOf (s : Symptoms.t) (k : SymptomKey) : jsval :=
  match k with
  | sk_nausea => Symptoms.nausea s
  | sk_reflux => Symptoms.reflux s
  | sk_appetite => Symptoms.appetite s
  | sk_energy => Symptoms.energy s
  | sk_bowel => Symptoms.bowel s
  end.

(** The sign of a finite number, which is all a sort reads of the number
    its comparator returns. *)
Definition signOf (q : Q) : Z :=
  match Qcompare q 0 with Lt => -1 | Eq => 0 | Gt => 1 end.

Record CommonSymptoms : Type := {
  cs_top : list (SymptomKey * Q);
  cs_averages : list (SymptomKey * Q)
}.

(** [computeCommonSymptoms(injectionsDesc)], line 2712, on the [symptoms]
    of the applications (the labels are left out). *)
Definition computeCommonSymptoms (injectionsDesc : list Symptoms.t) : CommonSymptoms :=
  match injectionsDesc with
  | [] => {| cs_top := []; cs_averages := [] |}
  | _ =>
      let n := inject_Z (Z.of_nat (length injectionsDesc)) in
      let sums :=
        map (fun k =>
               (k, sumQ (map (fun i => clampNumber (nullish (symptomOf i k) (JNum (Num 0))) 0 10)
                          injectionsDesc)))
          symptomKeys in
      let averages := map (fun '(k, s) => (k, (s / n)%Q)) sums in
      let top := take 2 (sort (fun a b => signOf (snd b - snd a)) averages) in
      {| cs_top := top; cs_averages := averages |}
  end.

(** The [symptoms] object that [normalizeInjection], line 821, builds from
    the one of its input: each score clamped to 0..10, 0 when missing. *)
Definition normalizeSymptoms (input : Symptoms.t) : Symptoms.t :=
  let score (v : jsval) := JNum (Num (clampNumber (nullish v (JNum (Num 0))) 0 10)) in
  {| Symptoms.nausea := score (Symptoms.nausea input);
     Symptoms.reflux := score (Symptoms.reflux input);
     Symptoms.appetite := score (Symptoms.appetite input);
     Symptoms.energy := score (Symptoms.energy input);
     Symptoms.bowel := score (Symptoms.bowel input) |}.

(** ** Measures delta (line 2677) *)

Module BodyMeasures.
(** A measures record with its eight fields; [None] is [null] or
    [undefined]. *)
Record t : Type := {
  dateISO : DateKey;
  waistCm : option Q; hipCm : option Q; armLCm : option Q; armRCm : option Q;
  thighCm : option Q; calfCm : option Q; chestCm : option Q; neckCm : option Q
}.
End BodyMeasures.

(** The [fields] table of [computeMeasuresDelta]: a reader and a label
    (labels are spelled without their accents). *)
Definition measureFields : list ((BodyMeasures.t -> option Q) * string) :=
  [(BodyMeasures.waistCm, "Cintura"); (BodyMeasures.hipCm, "Quadril");
   (BodyMeasures.armLCm, "Braco E"); (BodyMeasures.armRCm, "Braco D");
   (BodyMeasures.thighCm, "Coxa"); (BodyMeasures.calfCm, "Panturrilha");
   (BodyMeasures.chestCm, "Peito"); (BodyMeasures.neckCm, "Pescoco")]%string.

Record MeasuresDelta : Type := {
  md_start : option BodyMeasures.t;
  md_end : option BodyMeasures.t;
  md_deltas : option (list (string * Q))
}.

(** The [for (const [k, label] of fields)] loop. *)
Fixpoint deltasOf (fields : list ((BodyMeasures.t -> option Q) * string))
    (start end_ : BodyMeasures.t) : list (string * Q) :=
  match fields with
  | [] => []
  | (k, label) :: rest =>
      match k start, k end_ with
      | Some a, Some b => (label, (b - a)%Q) :: deltasOf rest start end_
      | _, _ => deltasOf rest start end_
      end
  end.

(** [computeMeasuresDelta(measuresDesc)], line 2677 (the [notes] text is
    left out). *)
Definition computeMeasuresDelta (measuresDesc : list BodyMeasures.t) : MeasuresDelta :=
  if (length measuresDesc <? 2)%nat then
    {| md_start := None; md_end := None; md_deltas := None |}
  else
    let asc :=
      sort (fun a b => compareDateKeys (BodyMeasures.dateISO a) (BodyMeasures.dateISO b))
        measuresDesc in
    match asc with
    | [] => {| md_start := None; md_end := None; md_deltas := None |}
    | start :: _ =>
        let end_ := List.last asc start in
        {| md_start := Some start; md_end := Some end_;
           md_deltas := Some (deltasOf measureFields start end_) |}
    end.

(** ** CSV fields (line 2986) *)

Definition quoteChar : Ascii.ascii := Ascii.ascii_of_nat 34.
Definition lineFeed : Ascii.ascii := Ascii.ascii_of_nat 10.
Definition carriageReturn : Ascii.ascii := Ascii.ascii_of_nat 13.
Definition comma : Ascii.ascii := Ascii.ascii_of_nat 44.

(** The class of [csvEscape]: line feed, carriage return, comma, quote. *)
Definition isCsvSpecial (c : Ascii.ascii) : bool :=
  Ascii.eqb c lineFeed || Ascii.eqb c carriageReturn || Ascii.eqb c comma
  || Ascii.eqb c quoteChar.

Fixpoint hasCsvSpecial (s : string) : bool :=
  match s with
  | EmptyString => false
  | String c rest => isCsvSpecial c || hasCsvSpecial rest
  end.

(** The [replace] of [csvEscape]: every quote written twice. *)
Fixpoint doubleQuotes (s : string) : string :=
  match s with
  | EmptyString => EmptyString
  | String c rest =>
      if Ascii.eqb c quoteChar then String quoteChar (String quoteChar (doubleQuotes rest))
      else String c (doubleQuotes rest)
  end.

(** [csvEscape(value)], line 2986, on the string [String(value ?? '')];
    the characters of a text are taken one byte each. *)
Definition csvEscape (s : string) : string :=
  if hasCsvSpecial s
  then String quoteChar (doubleQuotes s ++ String quoteChar EmptyString)
  else s.

(** ** The dashboard checklist (line 1584) *)





(** * Vocabulary of the statements *)

(** A list of weights with the most recent first. *)
Definition sortedDesc (l : list Weight.t) : Prop :=
  Sorted (fun a b => Weight.dateTimeISO b <= Weight.dateTimeISO a) l.

(** [c] is a record of [l] taken at or before [target], and no record of
    [l] taken at or before [target] is later than [c]. *)
Definition closestAtOrBefore (l : list Weight.t) (target : Date) (c : Weight.t) : Prop :=
  In c l /\ Weight.dateTimeISO c <= target
  /\ forall w, In w l -> Weight.dateTimeISO w <= target ->
               Weight.dateTimeISO w <= Weight.dateTimeISO c.

(** What is asked of the delta [d] at a horizon of [h] days: the last
    weight minus the weight of a closest record at or before
    [last - h days], or null when [l] has no record that old. *)
Definition deltaAtHorizon (l : list Weight.t) (last : Weight.t) (h : Z)
    (d : option Q) : Prop :=
  let target := Weight.dateTimeISO last - h * msPerDay in
  match d with
  | Some x =>
      exists c, closestAtOrBefore l target c
                /\ x = (Weight.weightKg last - Weight.weightKg c)%Q
  | None => forall w, In w l -> target < Weight.dateTimeISO w
  end.

(** Samples taken [days] days before [t0]. *)
Definition sampleAt (t0 : Date) (days : Z) (kg : Q) : Weight.t :=
  {| Weight.dateTimeISO := t0 - days * msPerDay; Weight.weightKg := kg |}.

(** The instant [t] falls on weekday [wd] at [hh:mm:00.000] local time. *)
Definition matchesSlot (wd hh mm : Z) (t : Date) : Prop :=
  getDay t = wd /\ t mod msPerDay = hh * (60 * 60 * 1000) + mm * (60 * 1000).

(** Settings whose schedule is weekday [wd] at [hh:mm]. *)
Definition scheduledAt (s : Settings) (wd hh mm : Z) : Prop :=
  injectionDayOfWeek s = JNum (Num (inject_Z wd))
  /\ injectionTime s = Some {| hours := hh; minutes := mm |}.

(** The next weekly occurrence as the specification computes it:
    [delta = (weekday - from.weekday + 7) mod 7], set to 7 when it is 0 and
    the candidate of the same day is at or before [from]; the result is
    [from]'s date plus [delta] days at the given time. *)
Definition nextWeeklyOccurrence (weekday hh mm : Z) (from : Date) : Date :=
  let delta := (weekday - getDay from + 7) mod 7 in
  let candidate := atTimeOfDay from hh mm in
  let delta := if (delta =? 0) && (candidate <=? from) then 7 else delta in
  addDays candidate delta.

(** A time of day within the day. *)
Definition validTime (t : HHmm) : Prop :=
  0 <= hours t < 24 /\ 0 <= minutes t < 60.

(** [Number(settings.injectionDayOfWeek ?? DEFAULTS.injectionDayOfWeek)],
    the number [clampNumber] works on. *)
Definition rawInjectionDow (s : Settings) : jsnum :=
  to_number (nullish (injectionDayOfWeek s) (injectionDayOfWeek DEFAULTS)).

(** Not a number, or a number with an integer value. *)
Definition integralOrNaN (n : jsnum) : Prop :=
  match n with
  | NaN => True
  | Num q => exists k : Z, (q == inject_Z k)%Q
  end.

(** Settings whose stored weekday is 2.5. *)
Definition halfDaySettings : Settings := {|
  injectionDayOfWeek := JNum (Num (5 # 2));
  injectionTime := None;
  weighDaysOfWeek := None;
  measureReminderEveryDays := JUndefined
|}.

(** A cache with an application logged on each of the days 4 to 10, the
    week from Monday 1970-01-05 to Sunday 1970-01-11. *)
Definition fullWeekCache : Cache := {|
  weights := []; injections := []; measures := [];
  weightKeys := ∅;
  injectionKeys := list_to_set [4; 5; 6; 7; 8; 9; 10];
  measuresKeys := ∅;
  lastMeasures := None
|}.

(** The [expectedInj] counter among the four of the adherence loop. *)
Definition expectedInjOf (acc : Z * Z * Z * Z) : Z := snd (fst acc).

(** A single application, and two weights taken at the same instant. *)
Definition loneInjection : list Injection.t :=
  [{| Injection.dateTimeISO := 0; Injection.nausea := JUndefined |}].

Definition twinWeights : list Weight.t :=
  [sampleAt 2000000000 0 80; sampleAt 2000000000 0 79].

(** The gaps, in days, between neighbours of a list of instants that
    starts with [t0]; the gaps of a list; and a gap that is on schedule,
    from 6 to 8 days. *)
Fixpoint neighbourGaps (t0 : Date) (rest : list Date) : list Q :=
  match rest with
  | [] => []
  | t1 :: rest' => (inject_Z (t1 - t0) / inject_Z msPerDay)%Q :: neighbourGaps t1 rest'
  end.

Definition gapsInDays (times : list Date) : list Q :=
  match times with
  | [] => []
  | t0 :: rest => neighbourGaps t0 rest
  end.

Definition onSchedule (gap : Q) : bool := Qle_bool 6 gap && Qle_bool gap 8.

(** The settings and the cache a world gives to its readers. *)
Definition settingsOf (w : World) : Settings := fst (getSettings w).
Definition cacheOf (w : World) : Cache := fst (buildChecklistCache w).

(** An item as [buildOverdueChecklist] hands it out: late, without the
    cutoff warning. *)
Definition markLate (it : ChecklistItem) : ChecklistItem :=
  {| kind := kind it; dateKey := dateKey it; required := required it; done := done it;
     warnAfterCutoff := Some false; status := Some st_late |}.

(** The required items that are not done. *)
Definition requiredNotDone (items : list ChecklistItem) : list ChecklistItem :=
  List.filter (fun it => required it && negb (done it)) items.

(** The checklist of the day [i] days before today, as [buildChecklistForDate]
    builds it from the world. *)
Definition checklistDaysAgo (w : World) (i : Z) : list ChecklistItem :=
  fst (buildChecklistForDate (addDays (startOfDay (clock w)) (- i)) None None (clock w) w).

(** Most recent date key first. *)
Definition mostRecentFirst (items : list ChecklistItem) : Prop :=
  Sorted (fun a b => dateKey b <= dateKey a) items.

(** A world with default settings, read on a Tuesday afternoon, whose only
    records are a weight and three applications. *)
Definition sampleWorld : World := {|
  db_settings := None;
  db_weights := [sampleAt (100 * msPerDay + 1000) 0 80];
  db_injections :=
    [{| Injection.dateTimeISO := 100 * msPerDay + 1000; Injection.nausea := JNum (Num 8) |};
     {| Injection.dateTimeISO := 93 * msPerDay + 1000; Injection.nausea := JNum (Num 9) |};
     {| Injection.dateTimeISO := 86 * msPerDay + 1000; Injection.nausea := JNum (Num 3) |}];
  db_measures := [];
  clock := 103 * msPerDay + 13 * 3600000
|}.

(** The nausea score of an application, as stored, is 7 or more. *)
Definition highNausea (inj : Injection.t) : Prop :=
  match to_number (nullish (Injection.nausea inj) (JNum (Num 0))) with
  | NaN => False
  | Num q => (7 <= q)%Q
  end.

(** An application on day [day] with nausea score [score]. *)
Definition injectionOn (day score : Z) : Injection.t :=
  {| Injection.dateTimeISO := day * msPerDay + 9 * 3600000;
     Injection.nausea := JNum (Num (inject_Z score)) |}.

(** Applications on the days 16, 9 and 30, listed out of order; and two
    weights taken a fortnight apart, the later one first. *)
Definition unevenInjections : list Injection.t :=
  [injectionOn 16 0; injectionOn 9 0; injectionOn 30 0].

Definition fortnightWeights : list Weight.t :=
  [sampleAt 4000000000 0 78; sampleAt 4000000000 14 80].

(** A cache that holds applications only. *)
Definition cacheOfInjections (l : list Injection.t) : Cache := {|
  weights := []; injections := l; measures := [];
  weightKeys := ∅;
  injectionKeys := list_to_set (map (fun i => getLocalDateKey (Injection.dateTimeISO i)) l);
  measuresKeys := ∅;
  lastMeasures := None
|}.

(** Every expected item of the week is done: each expected weigh day has a
    weight logged, and so has the application day when the week has one. *)
Definition allExpectedDone (cache : Cache) (r : WeeklyConsistency) : Prop :=
  (forall k, In k (wc_expectedWeighKeys r) -> k ∈ weightKeys cache)
  /\ (forall k, wc_injKey r = Some k -> k ∈ injectionKeys cache).

(** A cache with a weight logged on the Monday, the Wednesday and the
    Friday of the week of 1970-01-05, and no application. *)
Definition weighedWeekCache : Cache := {|
  weights := []; injections := []; measures := [];
  weightKeys := list_to_set [4; 6; 8];
  injectionKeys := ∅;
  measuresKeys := ∅;
  lastMeasures := None
|}.

(** Settings without weigh days whose stored application weekday is 2.5. *)
Definition noScheduleSettings : Settings := {|
  injectionDayOfWeek := JNum (Num (5 # 2));
  injectionTime := None;
  weighDaysOfWeek := Some [];
  measureReminderEveryDays := JUndefined
|}.

(** What is checked of the percentage computed in doubles from [d] done
    points out of [e]: an integer from 0 to 100, within 1 of the exact
    rounding, and with fewer than 200 points expected, 100 only for
    [d = e]. *)
Definition roundedPercentOk (d e : Z) : bool :=
  match percentOfDouble d e with
  | Some p =>
      (0 <=? p) && (p <=? 100) && (Z.abs (p - percentOf d e) <=? 1)
      && (if (0 <? e) && (e <? 200) then Bool.eqb (p =? 100) (d =? e) else true)
  | None => false
  end.

(** The day [i] of the week a weekly consistency is about, counted from
    its Monday. *)
Definition weekDay (r : WeeklyConsistency) (i : Z) : Date := addDays (wc_start r) i.

(** The weekday [wd] is a weigh day of the schedule: one of the stored
    weigh days, or Monday, Wednesday or Friday when none are stored. *)
Definition scheduledWeighDay (settings : Settings) (wd : Z) : Prop :=
  match weighDaysOfWeek settings with
  | Some l => In wd l
  | None => wd = 1 \/ wd = 3 \/ wd = 5
  end.

(** Every expected item of the week is done, said of the seven days of the
    week and of the schedule: each day that is a weigh day of the settings
    has a weight logged under its date key, and each day that falls on the
    clamped application weekday has an application logged. *)
Definition weekFullyDone (settings : Settings) (cache : Cache) (r : WeeklyConsistency)
    : Prop :=
  (forall i, 0 <= i < 7 ->
     scheduledWeighDay settings (getDay (weekDay r i)) ->
     getLocalDateKey (weekDay r i) ∈ weightKeys cache)
  /\ (forall i, 0 <= i < 7 ->
        (clampedInjectionDow settings == inject_Z (getDay (weekDay r i)))%Q ->
        getLocalDateKey (weekDay r i) ∈ injectionKeys cache).

(** The days a range of [rangeDays] days ending today runs over. *)
Definition daysOfRange (now : Date) (rangeDays : Z) : list Date :=
  map (addDays (addDays (startOfDay now) (- (Z.max 1 rangeDays - 1)))) (seqZ 0 rangeDays).

(** The number of elements of [l] that pass [p]. *)
Definition countOf {A} (p : A -> bool) (l : list A) : Z :=
  Z.of_nat (length (List.filter p l)).

(** A schedule with a weigh-in every day and the application on
    Wednesdays; and the records of a month that ends on Wednesday, day
    1000: a weight on each of the last 23 days, no application. *)
Definition everyDaySettings : Settings := {|
  injectionDayOfWeek := JNum (Num 3);
  injectionTime := None;
  weighDaysOfWeek := Some [0; 1; 2; 3; 4; 5; 6];
  measureReminderEveryDays := JUndefined
|}.

Definition monthOfGaps : RangeData := {|
  rd_weights := map (fun i => sampleAt (1000 * msPerDay) i 80) (seqZ 0 23);
  rd_injections := []
|}.

(** The counters of the adherence loop stay ordered: done at most expected. *)
Definition countersOrdered (acc : Z * Z * Z * Z) : Prop :=
  let '(eW, dW, eI, dI) := acc in 0 <= dW <= eW /\ 0 <= dI <= eI.

(** The days the streak loop visits, starting from [d]: [d], the day
    before, and so on, [n] days in all. *)
Fixpoint lookback (d : Date) (n : nat) : list Date :=
  match n with
  | O => []
  | S n' => d :: lookback (addDays d (-1)) n'
  end.

(** [d] is a weigh day of the schedule; a weight is logged on [d]. *)
Definition isWeighDay (settings : Settings) (d : Date) : bool :=
  bool_decide (getDay d ∈ (list_to_set (weighDaysOrDefault settings) : gset Z)).

Definition isWeighed (cache : Cache) (d : Date) : bool :=
  bool_decide (getLocalDateKey d ∈ weightKeys cache).

(** The days a backward scan passes before it stops at the first weigh day
    without a weight. *)
Fixpoint scanned (settings : Settings) (cache : Cache) (days : list Date) : list Date :=
  match days with
  | [] => []
  | d :: rest =>
      if isWeighDay settings d && negb (isWeighed cache d) then []
      else d :: scanned settings cache rest
  end.

(** The weigh-in streak of a world, and the streak counted from the day [d]
    over [n] days. *)
Definition weighStreak (w : World) (n : nat) : Z :=
  countStreakWeights (clock w) (cacheOf w) (settingsOf w) n.

Definition weighStreakFrom (w : World) (d : Date) (n : nat) : Z :=
  countStreakWeights_loop (list_to_set (weighDaysOrDefault (settingsOf w)))
    (weightKeys (cacheOf w)) n d 0.

(** One more weight record; and the weight records of a day removed. *)
Definition addWeight (rec : Weight.t) (w : World) : World :=
  {| db_settings := db_settings w; db_weights := rec :: db_weights w;
     db_injections := db_injections w; db_measures := db_measures w; clock := clock w |}.

Definition removeWeightsOn (k : DateKey) (w : World) : World :=
  {| db_settings := db_settings w;
     db_weights :=
       List.filter (fun r => negb (getLocalDateKey (Weight.dateTimeISO r) =? k)) (db_weights w);
     db_injections := db_injections w; db_measures := db_measures w; clock := clock w |}.

(** Friday 1970-01-09, 10:00, default schedule (Monday, Wednesday, Friday):
    weights logged on the Friday and on the Monday, none on the Wednesday. *)
Definition gapWorld : World := {|
  db_settings := None;
  db_weights := [sampleAt (8 * msPerDay + 7 * 3600000) 0 80;
                 sampleAt (4 * msPerDay + 7 * 3600000) 0 81];
  db_injections := [];
  db_measures := [];
  clock := 8 * msPerDay + 10 * 3600000
|}.

(** A weight taken on the Wednesday, 1970-01-07. *)
Definition wednesdayWeight : Weight.t := sampleAt (6 * msPerDay + 7 * 3600000) 0 (161 # 2).

(** * Vocabulary of the further properties *)

(** The site that follows [s] in the rotation, as a table: the four
    abdomen and thigh sites in turn, then the two arm sites when they are
    enabled, then the first site again; any other text, the empty one
    included, is followed by the first site. *)
Definition siteAfter (enableArm : bool) (s : string) : string :=
  if String.eqb "abdomen_right" s then "abdomen_left"
  else if String.eqb "abdomen_left" s then "thigh_right"
  else if String.eqb "thigh_right" s then "thigh_left"
  else if String.eqb "thigh_left" s then (if enableArm then "arm_right" else "abdomen_right")
  else if String.eqb "arm_right" s then (if enableArm then "arm_left" else "abdomen_right")
  else "abdomen_right".

(** The latest instant among the applications, and the list after the
    suggested site has been logged one millisecond later than all of
    them. *)
Definition latestTime (injections : list Application.t) : Date :=
  foldr Z.max 0 (map Application.dateTimeISO injections).

Definition logSuggested (enableArmSites : jsval) (injections : list Application.t)
    : list Application.t :=
  match getNextInjectionSite injections enableArmSites with
  | Some s =>
      injections ++ [{| Application.dateTimeISO := latestTime injections + 1;
                        Application.site := s |}]
  | None => injections
  end.

(** Two applications used as an example: the later one, listed last, was
    made in the left thigh. *)
Definition twoApplications : list Application.t :=
  [{| Application.dateTimeISO := 86400000; Application.site := "abdomen_left" |};
   {| Application.dateTimeISO := 691200000; Application.site := "thigh_left" |}].

(** [settings.reminderTime || '19:00'], split at the colon. *)
Definition reminderTimeOrDefault (s : ReminderSettings) : HHmm :=
  match reminderTime s with
  | Some t => t
  | None => {| hours := 19; minutes := 0 |}
  end.

(** The reminder is set to the weekday [wd]: the stored value is neither
    empty nor null, and its number is the integer [wd], from 0 to 6. *)
Definition reminderWeekday (s : ReminderSettings) (wd : Z) : Prop :=
  exists v q, reminderDow s = RdValue v /\ v <> JNull /\ v <> JUndefined
              /\ to_number v = Num q /\ (q == inject_Z wd)%Q /\ 0 <= wd <= 6.

(** A reminder on Wednesdays at the default time, and the schedule
    settings with the same weekday and time. *)
Definition wednesdayReminder : ReminderSettings :=
  {| reminderDow := RdValue (JNum (Num 3)); reminderTime := None |}.

Definition scheduleLike (wd : Z) (t : HHmm) : Settings :=
  {| injectionDayOfWeek := JNum (Num (inject_Z wd)); injectionTime := Some t;
     weighDaysOfWeek := None; measureReminderEveryDays := JUndefined |}.

(** A record of the kind [k] is stored for the day [key]. *)
Definition loggedOn (w : World) (k : Kind) (key : DateKey) : Prop :=
  match k with
  | weight =>
      exists r, In r (db_weights w) /\ getLocalDateKey (Weight.dateTimeISO r) = key
  | injection =>
      exists r, In r (db_injections w) /\ getLocalDateKey (Injection.dateTimeISO r) = key
  | measures_ => exists r, In r (db_measures w) /\ Measures.dateISO r = key
  end.

(** The three conditions under which [buildChecklistForDate] pushes an
    item, and the items it pushes, before their status is set. *)
Definition hasWeighItem (s : Settings) (date : Date) : bool :=
  match weighDaysOfWeek s with
  | Some l => bool_decide (getDay date ∈ l)
  | None => false
  end.

Definition hasInjectionItem (s : Settings) (date : Date) : bool :=
  match to_number (injectionDayOfWeek s) with
  | Num n => eq_int n (getDay date)
  | NaN => false
  end.

Definition hasMeasuresItem (c : Cache) (s : Settings) (date nowDate : Date) : bool :=
  match computeMeasuresDueDateKey c s (getLocalDateKey nowDate) with
  | Some due => compareDateKeys (getLocalDateKey date) due =? 0
  | None => false
  end.

Definition requiredItem (k : Kind) (done : bool) (date nowDate : Date) : ChecklistItem :=
  {| kind := k; dateKey := getLocalDateKey date; required := true; done := done;
     warnAfterCutoff :=
       Some ((compareDateKeys (getLocalDateKey date) (getLocalDateKey nowDate) =? 0)
             && isAfterTimeHHmm nowDate CHECKLIST_CUTOFF_TIME && negb done);
     status := None |}.

Definition measuresItem (c : Cache) (date : Date) : ChecklistItem :=
  {| kind := measures_; dateKey := getLocalDateKey date; required := false;
     done := isMeasuresLoggedOn (getLocalDateKey date) c;
     warnAfterCutoff := None; status := None |}.

Definition itemsBeforeStatus (c : Cache) (s : Settings) (date nowDate : Date)
    : list ChecklistItem :=
  (if hasWeighItem s date
   then [requiredItem weight (isWeightLoggedOn (getLocalDateKey date) c) date nowDate]
   else [])
  ++ (if hasInjectionItem s date
      then [requiredItem injection (isInjectionLoggedOn (getLocalDateKey date) c) date nowDate]
      else [])
  ++ (if hasMeasuresItem c s date nowDate then [measuresItem c date] else []).



(** The weigh-in item of [sampleWorld]'s Monday, read on that Monday at
    13:00: not done, and past the 12:00 cutoff. *)
Definition mondayWeighItem : ChecklistItem :=
  {| kind := weight; dateKey := 102; required := true; done := false;
     warnAfterCutoff := Some true; status := Some st_pending |}.

(** The checklist of the day [i] days after today, and the entry
    [buildUpcomingChecklist] makes of it: none when the checklist is
    empty. *)
Definition checklistDaysAhead (w : World) (i : Z) : list ChecklistItem :=
  fst (buildChecklistForDate (addDays (startOfDay (clock w)) i) None None (clock w) w).

Definition upcomingEntry (w : World) (i : Z) : list UpcomingDay :=
  match checklistDaysAhead w i with
  | [] => []
  | items =>
      [{| up_dateKey := getLocalDateKey (addDays (startOfDay (clock w)) i);
          up_dow := getDay (addDays (startOfDay (clock w)) i);
          up_items := items |}]
  end.

(** Schedule settings whose stored application weekday is 8, out of the
    range of weekday indices. *)
Definition weekdayEightSettings : Settings := {|
  injectionDayOfWeek := JNum (Num 8);
  injectionTime := None;
  weighDaysOfWeek := Some [];
  measureReminderEveryDays := JUndefined
|}.

(** The stored application weekday is the weekday index [wd]. *)
Definition storedWeekday (s : Settings) (wd : Z) : Prop :=
  exists q, injectionDayOfWeek s = JNum (Num q) /\ (q == inject_Z wd)%Q /\ 0 <= wd <= 6.

(** The day key of weekday [k] in the Monday-first week that lies [i]
    weeks before the week of [now]. *)
Definition weekdayKeyWeeksAgo (now : Date) (k i : Z) : DateKey :=
  dayNumber (startOfWeekMonday now) - 7 * i + (k + 6) mod 7.

(** No weight of [l] was taken after [a] and at or before [b]. *)
Definition noWeightBetween (l : list Weight.t) (a b : Date) : Prop :=
  forall w, In w l -> ~ (a < Weight.dateTimeISO w <= b).

(** Three weights: today, 20 days ago and 40 days ago. *)
Definition sparseWeights : list Weight.t :=
  [sampleAt 4000000000 0 80; sampleAt 4000000000 20 82; sampleAt 4000000000 40 85].

(** The instant of an application, and three applications a week apart,
    listed out of order. *)
Definition instantsOf (l : list Injection.t) : list Date := map Injection.dateTimeISO l.

Definition weeklyInjections : list Injection.t :=
  [injectionOn 16 0; injectionOn 9 0; injectionOn 23 0].

(** The records of a world as the report hands them to the adherence
    computation. *)
Definition rangeDataOf (w : World) : RangeData :=
  {| rd_weights := db_weights w; rd_injections := db_injections w |}.

(** The world of [gapWorld], read on the Sunday that closes its week. *)
Definition gapWorldOnSunday : World := {|
  db_settings := None;
  db_weights := db_weights gapWorld;
  db_injections := [injectionOn 9 0];
  db_measures := [];
  clock := 10 * msPerDay + 20 * 3600000
|}.

(** The cards of the local rules, one per rule, and the card shown when
    no rule fires. *)
Definition plateauCard : InsightItem := {| title := "Possivel plato"; severity := sev_warn |}.
Definition reboundCard : InsightItem :=
  {| title := "Oscilacao compativel com retencao"; severity := sev_info |}.
Definition routineCard : InsightItem := {| title := "Rotina de pesagem"; severity := sev_warn |}.
Definition scheduleCard : InsightItem :=
  {| title := "Irregularidade de agenda"; severity := sev_warn |}.
Definition noAlertCard : InsightItem :=
  {| title := "Sem alertas por regras locais"; severity := sev_ok |}.

(** The entries the dose loop adds after a state in which the last dose
    kept is [last]: the doses that differ from the one kept before them
    by 0.0001 mg or more, and the first finite dose when none is kept. *)
Fixpoint doseChanges (l : list Dose.t) (last : option Q) : list DoseItem :=
  match l with
  | [] => []
  | inj :: rest =>
      match Dose.doseMg inj with
      | NaN => doseChanges rest last
      | Num dose =>
          let item := {| di_dateTimeISO := Dose.dateTimeISO inj; di_doseMg := dose |} in
          match last with
          | None => item :: doseChanges rest (Some dose)
          | Some kept =>
              if Qle_bool (1 # 10000) (Qabs (dose - kept))
              then item :: doseChanges rest (Some dose)
              else doseChanges rest last
          end
      end
  end.

(** Two neighbouring entries of a dose history differ by 0.0001 mg or
    more. *)
Definition doseStep (a b : DoseItem) : Prop :=
  (1 # 10000 <= Qabs (di_doseMg b - di_doseMg a))%Q.

(** The entry of a record with a finite dose. *)
Definition entryOf (r : Dose.t) (it : DoseItem) : Prop :=
  Dose.dateTimeISO r = di_dateTimeISO it /\ Dose.doseMg r = Num (di_doseMg it).

(** Doses of 2.5 mg on two days, then 5 mg; and the same dose three
    times. *)
Definition steppedDoses : list Dose.t :=
  [{| Dose.dateTimeISO := 1 * msPerDay; Dose.doseMg := Num (5 # 2) |};
   {| Dose.dateTimeISO := 8 * msPerDay; Dose.doseMg := Num (5 # 2) |};
   {| Dose.dateTimeISO := 15 * msPerDay; Dose.doseMg := Num 5 |}].

Definition steadyDoses : list Dose.t :=
  [{| Dose.dateTimeISO := 1 * msPerDay; Dose.doseMg := Num (5 # 2) |};
   {| Dose.dateTimeISO := 8 * msPerDay; Dose.doseMg := NaN |};
   {| Dose.dateTimeISO := 15 * msPerDay; Dose.doseMg := Num (5 # 2) |}].

(** The symptoms of two applications: nausea 8 and 6, no appetite score
    on the second, an energy score out of range on the first. *)
Definition twoSymptomReports : list Symptoms.t :=
  [{| Symptoms.nausea := JNum (Num 8); Symptoms.reflux := JNum (Num 1);
      Symptoms.appetite := JNum (Num 4); Symptoms.energy := JNum (Num 12);
      Symptoms.bowel := JUndefined |};
   {| Symptoms.nausea := JNum (Num 6); Symptoms.reflux := JNum (Num 1);
      Symptoms.appetite := JUndefined; Symptoms.energy := JNum (Num 3);
      Symptoms.bowel := JNull |}].

(** Measures taken on three days, listed latest first: the waist is
    measured each time, the hip only on the last day, the neck never. *)
Definition measuresOf (day : DateKey) (waist hip : option Q) : BodyMeasures.t :=
  {| BodyMeasures.dateISO := day;
     BodyMeasures.waistCm := waist; BodyMeasures.hipCm := hip;
     BodyMeasures.armLCm := None; BodyMeasures.armRCm := None;
     BodyMeasures.thighCm := None; BodyMeasures.calfCm := None;
     BodyMeasures.chestCm := None; BodyMeasures.neckCm := None |}.

Definition threeMeasures : list BodyMeasures.t :=
  [measuresOf 130 (Some 92%Q) (Some 104%Q); measuresOf 116 (Some 94%Q) None;
   measuresOf 102 (Some 95%Q) None].

(** The number of quote characters of a text. *)
Fixpoint countQuotes (s : string) : nat :=
  match s with
  | EmptyString => O
  | String c rest => ((if Ascii.eqb c quoteChar then 1 else 0) + countQuotes rest)%nat
  end.

(** A field with a comma and a quoted word. *)
Definition quotedField : string :=
  ("a" ++ String comma (String quoteChar ("b" ++ String quoteChar EmptyString)))%string.

(** The number of distinct weekdays among the weigh days of the settings. *)
Definition weighDaysPerWeek (s : Settings) : Z :=
  Z.of_nat (length (List.filter
                      (fun d => bool_decide (d ∈ (list_to_set (weighDaysOrDefault s) : gset Z)))
                      (seqZ 0 7))).




(** * Properties *)

(** ** Dates *)

Lemma msPerDay_pos : 0 < msPerDay.
Proof. reflexivity. Qed.

Lemma dayNumber_addDays (d : Date) (n : Z) : dayNumber (addDays d n) = dayNumber d + n.
Proof. unfold dayNumber, addDays. rewrite Z.div_add by discriminate. reflexivity. Qed.

Lemma getDay_range (d : Date) : 0 <= getDay d < 7.
Proof. unfold getDay. apply Z.mod_pos_bound. lia. Qed.

Lemma dayNumber_startOfDay (d : Date) : dayNumber (startOfDay d) = dayNumber d.
Proof.
  unfold startOfDay, atTimeOfDay, dayNumber.
  rewrite !Z.mul_0_l, !Z.add_0_r. apply Z.div_mul. discriminate.
Qed.

Lemma startOfDay_le (d : Date) : startOfDay d <= d < startOfDay d + msPerDay.
Proof.
  unfold startOfDay, atTimeOfDay, dayNumber.
  pose proof (Z.mod_pos_bound d msPerDay msPerDay_pos) as Hm.
  pose proof (Z.div_mod d msPerDay ltac:(discriminate)) as Hd.
  lia.
Qed.

(** ** JavaScript numbers *)

Lemma trunc_inject_Z (z : Z) : trunc (inject_Z z) = z.
Proof.
  unfold trunc. destruct (Qle_bool 0 (inject_Z z)).
  - apply Qfloor_Z.
  - apply Qceiling_Z.
Qed.

Lemma Qmax_inject_Z (a b : Z) : Qmax (inject_Z a) (inject_Z b) = inject_Z (Z.max a b).
Proof.
  unfold Qmax, GenericMinMax.gmax, Z.max, Qcompare, inject_Z; simpl.
  rewrite !Z.mul_1_r. destruct (a ?= b); reflexivity.
Qed.

Lemma Qmin_inject_Z (a b : Z) : Qmin (inject_Z a) (inject_Z b) = inject_Z (Z.min a b).
Proof.
  unfold Qmin, GenericMinMax.gmin, Z.min, Qcompare, inject_Z; simpl.
  rewrite !Z.mul_1_r. destruct (a ?= b); reflexivity.
Qed.

Lemma compareDateKeys_lt (a b : DateKey) : (compareDateKeys a b <? 0) = (a <? b).
Proof.
  unfold compareDateKeys.
  destruct (Z.eqb_spec a b) as [->|Hne].
  - now rewrite !Z.ltb_irrefl.
  - destruct (a <? b); reflexivity.
Qed.

Lemma compareDateKeys_eq (a b : DateKey) : (compareDateKeys a b =? 0) = (a =? b).
Proof.
  unfold compareDateKeys.
  destruct (Z.eqb_spec a b) as [->|Hne]; [reflexivity|].
  destruct (a <? b); reflexivity.
Qed.

#[global] Instance trunc_comp : Proper (Qeq ==> eq) trunc.
Proof.
  intros x y Hxy. unfold trunc.
  rewrite Hxy, (Qfloor_comp _ _ Hxy), (Qceiling_comp _ _ Hxy). reflexivity.
Qed.

#[global] Instance rem_comp : Proper (Qeq ==> Qeq ==> Qeq) rem.
Proof.
  intros x y Hxy m n Hmn. unfold rem.
  assert (Ht : trunc (x / m) = trunc (y / n)).
  { apply trunc_comp. apply Qdiv_comp; assumption. }
  rewrite Ht. apply Qminus_comp; [exact Hxy|].
  apply Qmult_comp; [exact Hmn|reflexivity].
Qed.

#[global] Instance eq_int_comp : Proper (Qeq ==> eq ==> eq) eq_int.
Proof.
  intros x y Hxy k k' <-. unfold eq_int. apply Qeqb_comp; [exact Hxy|reflexivity].
Qed.

Lemma eq_int_inject_Z (a k : Z) : eq_int (inject_Z a) k = (a =? k).
Proof.
  unfold eq_int, Qeq_bool, inject_Z; simpl. now rewrite !Z.mul_1_r.
Qed.

Lemma inject_Z_eq (a b : Z) : (inject_Z a == inject_Z b)%Q -> a = b.
Proof. apply inject_Z_injective. Qed.

(** The remainder of non-negative integers is the integer remainder. *)
Lemma rem_inject_Z (x m : Z) :
  0 <= x -> 0 < m -> (rem (inject_Z x) (inject_Z m) == inject_Z (x mod m))%Q.
Proof.
  intros Hx Hm. unfold rem.
  assert (Ht : trunc (inject_Z x / inject_Z m) = x / m).
  { unfold trunc.
    assert (Hq : Qle_bool 0 (inject_Z x / inject_Z m) = true).
    { apply Qle_bool_iff. apply Qle_shift_div_l.
      - change 0%Q with (inject_Z 0). rewrite <- Zlt_Qlt. exact Hm.
      - rewrite Qmult_0_l. change 0%Q with (inject_Z 0). rewrite <- Zle_Qle. exact Hx. }
    rewrite Hq. symmetry. apply Zdiv_Qdiv. }
  rewrite Ht, Z.mod_eq by lia.
  rewrite <- inject_Z_mult. unfold Qminus. rewrite <- inject_Z_opp, <- inject_Z_plus.
  reflexivity.
Qed.

(** ** [clampNumber] *)

Lemma clampNumber_range (v : jsval) (lo hi : Q) :
  (lo <= hi)%Q -> (lo <= clampNumber v lo hi <= hi)%Q.
Proof.
  intros Hle. unfold clampNumber.
  destruct (to_number v) as [|q].
  - split; [apply Qle_refl|exact Hle].
  - split.
    + apply Q.min_glb; [exact Hle|apply Q.le_max_l].
    + apply Q.le_min_l.
Qed.

Lemma clampNumber_NaN (v : jsval) (lo hi : Q) :
  to_number v = NaN -> clampNumber v lo hi = lo.
Proof. intros H. unfold clampNumber. now rewrite H. Qed.

Lemma clampNumber_inject_Z (v : jsval) (k lo hi : Z) :
  to_number v = Num (inject_Z k) ->
  clampNumber v (inject_Z lo) (inject_Z hi) = inject_Z (Z.min hi (Z.max lo k)).
Proof.
  intros H. unfold clampNumber. rewrite H.
  now rewrite Qmax_inject_Z, Qmin_inject_Z.
Qed.

(** A number that equals an integer is clamped to an integer. *)
Lemma clampNumber_integral (v : jsval) (q : Q) (k lo hi : Z) :
  to_number v = Num q -> (q == inject_Z k)%Q ->
  (clampNumber v (inject_Z lo) (inject_Z hi) == inject_Z (Z.min hi (Z.max lo k)))%Q.
Proof.
  intros H Hq. unfold clampNumber. rewrite H.
  rewrite <- Qmin_inject_Z, <- Qmax_inject_Z.
  apply Q.min_compat; [reflexivity|].
  apply Q.max_compat; [reflexivity|exact Hq].
Qed.

(** ** [Array.prototype.sort] *)

Section SortFacts.
Context {A : Type} (cmp : A -> A -> Z).

Lemma insert_sorted_perm (x : A) (l : list A) :
  Permutation (insert_sorted cmp x l) (x :: l).
Proof.
  induction l as [|y l IH]; simpl.
  - reflexivity.
  - destruct (cmp x y <=? 0).
    + reflexivity.
    + rewrite IH. apply perm_swap.
Qed.

Lemma sort_perm (l : list A) : Permutation (sort cmp l) l.
Proof.
  induction l as [|x l IH]; simpl.
  - reflexivity.
  - change (foldr (insert_sorted cmp) [] l) with (sort cmp l).
    rewrite insert_sorted_perm. now rewrite IH.
Qed.

Lemma sort_length (l : list A) : length (sort cmp l) = length l.
Proof. apply Permutation_length, sort_perm. Qed.

Lemma sort_in (l : list A) (x : A) : In x (sort cmp l) <-> In x l.
Proof.
  split; apply Permutation_in; [|symmetry]; apply sort_perm.
Qed.

(** A list already in order is left as it is. *)
Lemma sort_sorted_id (l : list A) :
  Sorted (fun a b => cmp a b <= 0) l -> sort cmp l = l.
Proof.
  induction 1 as [|a l Hs IH Hhd]; [reflexivity|].
  simpl. change (foldr (insert_sorted cmp) [] l) with (sort cmp l). rewrite IH.
  destruct Hhd as [|b l' Hab]; [reflexivity|].
  simpl. now rewrite (proj2 (Z.leb_le _ _) Hab).
Qed.

(** With a comparator that relates any two elements one way or the other,
    the result is in order. *)
Hypothesis cmp_total : forall x y, cmp x y <= 0 \/ cmp y x <= 0.

Lemma insert_sorted_sorted (x : A) (l : list A) :
  Sorted (fun a b => cmp a b <= 0) l ->
  Sorted (fun a b => cmp a b <= 0) (insert_sorted cmp x l).
Proof.
  induction 1 as [|a l Hs IH Hhd]; simpl.
  - repeat constructor.
  - destruct (Z.leb_spec (cmp x a) 0) as [Hle|Hgt].
    + repeat constructor; assumption.
    + constructor; [exact IH|].
      assert (Hax : cmp a x <= 0) by (destruct (cmp_total a x); [assumption|lia]).
      destruct l as [|b l']; simpl.
      * now constructor.
      * destruct (cmp x b <=? 0); constructor; [exact Hax|].
        now inversion Hhd.
Qed.

Lemma sort_sorted (l : list A) : Sorted (fun a b => cmp a b <= 0) (sort cmp l).
Proof.
  induction l as [|x l IH]; simpl.
  - constructor.
  - now apply insert_sorted_sorted.
Qed.

End SortFacts.

(** ** Weight deltas *)

Lemma sortedDesc_strong (l : list Weight.t) :
  sortedDesc l ->
  StronglySorted (fun a b => Weight.dateTimeISO b <= Weight.dateTimeISO a) l.
Proof.
  apply Sorted_StronglySorted. intros a b c Hab Hbc. lia.
Qed.

Lemma pick_closest (l : list Weight.t) (target : Date) :
  sortedDesc l ->
  match pickWeightClosestAtOrBefore l target with
  | Some c => closestAtOrBefore l target c
  | None => forall w, In w l -> target < Weight.dateTimeISO w
  end.
Proof.
  intros Hs. apply sortedDesc_strong in Hs.
  induction Hs as [|a l Hs IH Hall]; simpl.
  - intros w [].
  - destruct (Z.leb_spec (Weight.dateTimeISO a) target) as [Hle|Hgt].
    + split; [now left|]. split; [exact Hle|].
      intros w [<-|Hin] Hw; [lia|].
      exact (proj1 (List.Forall_forall _ _) Hall w Hin).
    + destruct (pickWeightClosestAtOrBefore l target) as [c|].
      * destruct IH as (Hin & Hle & Hmax).
        split; [now right|]. split; [exact Hle|].
        intros w [<-|Hw] Hwt; [lia|]. now apply Hmax.
      * intros w [<-|Hw]; [exact Hgt|]. now apply IH.
Qed.

Lemma pick_delta (l : list Weight.t) (last : Weight.t) (h : Z) :
  sortedDesc l ->
  deltaAtHorizon l last h
    (option_map (fun w => (Weight.weightKg last - Weight.weightKg w)%Q)
       (pickWeightClosestAtOrBefore l (addDays (Weight.dateTimeISO last) (- h)))).
Proof.
  intros Hs. unfold deltaAtHorizon.
  replace (Weight.dateTimeISO last - h * msPerDay)
    with (addDays (Weight.dateTimeISO last) (- h)) by (unfold addDays; lia).
  pose proof (pick_closest l (addDays (Weight.dateTimeISO last) (- h)) Hs) as Hp.
  destruct (pickWeightClosestAtOrBefore l (addDays (Weight.dateTimeISO last) (- h)))
    as [c|]; simpl.
  - exists c. split; [exact Hp|reflexivity].
  - exact Hp.
Qed.

Lemma d7_of_four_samples (t0 : Date) (k0 k5 k9 k20 : Q) :
  wd_d7 (computeWeightDeltas
           [sampleAt t0 0 k0; sampleAt t0 5 k5; sampleAt t0 9 k9; sampleAt t0 20 k20])
  = Some (k0 - k9)%Q.
Proof.
  unfold computeWeightDeltas, addDays, sampleAt.
  cbn [pickWeightClosestAtOrBefore Weight.dateTimeISO Weight.weightKg wd_d7].
  pose proof msPerDay_pos as Hpos.
  destruct (Z.leb_spec (t0 - 0 * msPerDay) (t0 - 0 * msPerDay + -7 * msPerDay)); [lia|].
  destruct (Z.leb_spec (t0 - 5 * msPerDay) (t0 - 0 * msPerDay + -7 * msPerDay)); [lia|].
  destruct (Z.leb_spec (t0 - 9 * msPerDay) (t0 - 0 * msPerDay + -7 * msPerDay)); [|lia].
  reflexivity.
Qed.

(** C2. For a non-empty list of weights sorted most recent first,
    [computeWeightDeltas] reports the head as [last] and, for each horizon
    of 7, 14 and 30 days, the last weight minus the weight of a record with
    the greatest timestamp at or before [last - h days]; the delta is null
    exactly when no record is that old. On samples taken 0, 5, 9 and 20
    days before the last one, [d7] comes from the sample of 9 days before,
    not from the one of 5 days before. *)
Theorem computeWeightDeltas_closest_prior (last : Weight.t) (rest : list Weight.t) :
  sortedDesc (last :: rest) ->
  wd_last (computeWeightDeltas (last :: rest)) = Some last
  /\ deltaAtHorizon (last :: rest) last 7 (wd_d7 (computeWeightDeltas (last :: rest)))
  /\ deltaAtHorizon (last :: rest) last 14 (wd_d14 (computeWeightDeltas (last :: rest)))
  /\ deltaAtHorizon (last :: rest) last 30 (wd_d30 (computeWeightDeltas (last :: rest)))
  /\ (forall (t0 : Date) (k0 k5 k9 k20 : Q),
        wd_d7 (computeWeightDeltas
                 [sampleAt t0 0 k0; sampleAt t0 5 k5; sampleAt t0 9 k9; sampleAt t0 20 k20])
        = Some (k0 - k9)%Q).
Proof.
  intros Hs. split; [reflexivity|].
  split; [exact (pick_delta _ last 7 Hs)|].
  split; [exact (pick_delta _ last 14 Hs)|].
  split; [exact (pick_delta _ last 30 Hs)|].
  exact d7_of_four_samples.
Qed.

(** Three weekly samples: the list is sorted and the delta at 7 days is the
    one described. *)
Lemma computeWeightDeltas_closest_prior_witness :
  sortedDesc [sampleAt 2000000000 0 80; sampleAt 2000000000 7 79;
              sampleAt 2000000000 14 (157 # 2)]
  /\ deltaAtHorizon
       [sampleAt 2000000000 0 80; sampleAt 2000000000 7 79; sampleAt 2000000000 14 (157 # 2)]
       (sampleAt 2000000000 0 80) 7
       (wd_d7 (computeWeightDeltas
                 [sampleAt 2000000000 0 80; sampleAt 2000000000 7 79;
                  sampleAt 2000000000 14 (157 # 2)])).
Proof.
  assert (Hs : sortedDesc [sampleAt 2000000000 0 80; sampleAt 2000000000 7 79;
                           sampleAt 2000000000 14 (157 # 2)]).
  { repeat constructor; vm_compute; discriminate. }
  split; [exact Hs|].
  exact (proj1 (proj2 (computeWeightDeltas_closest_prior _ _ Hs))).
Defined.

Example weightDeltas_three_samples :
  let r := computeWeightDeltas
             [sampleAt 2000000000 0 80; sampleAt 2000000000 7 79;
              sampleAt 2000000000 14 (157 # 2)] in
  wd_d7 r = Some (80 - 79)%Q /\ wd_d14 r = Some (80 - (157 # 2))%Q /\ wd_d30 r = None.
Proof. repeat split; reflexivity. Qed.

(** ** The measures reminder *)



Example measures_due_examples :
  let c last := {| weights := []; injections := []; measures := [];
                   weightKeys := ∅; injectionKeys := ∅; measuresKeys := ∅;
                   lastMeasures := last |} in
  let s v := {| injectionDayOfWeek := JUndefined; injectionTime := None;
                weighDaysOfWeek := None; measureReminderEveryDays := v |} in
  computeMeasuresDueDateKey (c (Some {| Measures.dateISO := 100 |})) (s (JNum (Num (21 # 2)))) 105
  = Some 110
  /\ computeMeasuresDueDateKey (c (Some {| Measures.dateISO := 100 |})) (s (JNum (Num 3))) 120
     = Some 120
  /\ computeMeasuresDueDateKey (c (Some {| Measures.dateISO := 100 |})) (s JUndefined) 105
     = Some 114
  /\ computeMeasuresDueDateKey (c None) (s JUndefined) 105 = Some 105.
Proof. repeat split; reflexivity. Qed.

(** ** Next scheduled application *)

Lemma clampedInjectionDow_weekday (s : Settings) (wd : Z) :
  injectionDayOfWeek s = JNum (Num (inject_Z wd)) -> 0 <= wd <= 6 ->
  clampedInjectionDow s = inject_Z wd.
Proof.
  intros Hs Hwd. unfold clampedInjectionDow. rewrite Hs. simpl nullish.
  change 0%Q with (inject_Z 0). change 6%Q with (inject_Z 6).
  rewrite (clampNumber_inject_Z _ wd) by reflexivity.
  f_equal. lia.
Qed.

(** The remainder the code computes on numbers is the integer one. *)
Lemma weekday_delta (wd g : Z) :
  0 <= wd <= 6 -> 0 <= g < 7 ->
  (rem (inject_Z wd - inject_Z g + 7) 7 == inject_Z ((wd - g + 7) mod 7))%Q.
Proof.
  intros Hwd Hg.
  assert (He : (inject_Z wd - inject_Z g + 7 == inject_Z (wd - g + 7))%Q).
  { unfold Qeq, Qminus, Qplus, Qopp, inject_Z; simpl. lia. }
  rewrite He. change 7%Q with (inject_Z 7).
  apply rem_inject_Z; lia.
Qed.

(** On a weekday that is an integer the function is the specification's
    formula. *)
Lemma computeNextScheduledDateTime_integral (s : Settings) (k : Z) (from : Date) :
  (clampedInjectionDow s == inject_Z k)%Q -> 0 <= k <= 6 ->
  computeNextScheduledDateTime (Some s) from
  = nextWeeklyOccurrence k (hours (injectionTimeOrDefault s))
      (minutes (injectionTimeOrDefault s)) from.
Proof.
  intros Hk Hwd. unfold computeNextScheduledDateTime, nextWeeklyOccurrence.
  set (time := injectionTimeOrDefault s).
  assert (Hrem : (rem (clampedInjectionDow s - inject_Z (getDay from) + 7) 7
                  == inject_Z ((k - getDay from + 7) mod 7))%Q).
  { rewrite <- (weekday_delta k (getDay from) Hwd (getDay_range from)).
    apply rem_comp; [|reflexivity].
    apply Qplus_comp; [|reflexivity]. apply Qplus_comp; [exact Hk|reflexivity]. }
  set (r := rem (clampedInjectionDow s - inject_Z (getDay from) + 7) 7) in *.
  set (delta := (k - getDay from + 7) mod 7) in *.
  assert (Hz : Qeq_bool r 0 = (delta =? 0)).
  { rewrite (Qeqb_comp _ _ Hrem 0%Q 0%Q (Qeq_refl 0)).
    change 0%Q with (inject_Z 0). unfold Qeq_bool, inject_Z; simpl.
    now rewrite Z.mul_1_r. }
  cbv zeta. rewrite Hz.
  destruct ((delta =? 0) && (atTimeOfDay from (hours time) (minutes time) <=? from)).
  - reflexivity.
  - now rewrite (trunc_comp _ _ Hrem), trunc_inject_Z.
Qed.

(** The specification's formula gives the first matching instant after
    [from]. *)
Lemma nextWeeklyOccurrence_correct (wd hh mm : Z) (from : Date) :
  0 <= wd <= 6 -> 0 <= hh < 24 -> 0 <= mm < 60 ->
  from < nextWeeklyOccurrence wd hh mm from
  /\ matchesSlot wd hh mm (nextWeeklyOccurrence wd hh mm from)
  /\ (forall t, from < t -> matchesSlot wd hh mm t -> nextWeeklyOccurrence wd hh mm from <= t).
Proof.
  intros Hwd Hhh Hmm.
  unfold nextWeeklyOccurrence, matchesSlot, addDays.
  unfold atTimeOfDay, getDay, dayNumber, msPerDay in *.
  set (ms := 24 * 60 * 60 * 1000) in *.
  assert (Hms : ms = 86400000) by reflexivity.
  set (tod := hh * (60 * 60 * 1000) + mm * (60 * 1000)) in *.
  assert (Htod : 0 <= tod < ms) by (subst tod; lia).
  replace (from / ms * ms + hh * (60 * 60 * 1000) + mm * (60 * 1000))
    with (from / ms * ms + tod) by (subst tod; lia).
  pose proof (Z.div_mod from ms ltac:(lia)) as Hfrom.
  pose proof (Z.mod_pos_bound from ms ltac:(lia)) as Hfm.
  set (dn := from / ms) in *.
  set (g := (dn + 4) mod 7) in *.
  assert (Hg : 0 <= g < 7) by (apply Z.mod_pos_bound; lia).
  set (d0 := (wd - g + 7) mod 7).
  assert (Hd0 : 0 <= d0 < 7) by (apply Z.mod_pos_bound; lia).
  assert (Hwk : (dn + d0 + 4) mod 7 = wd).
  { pose proof (Z.div_mod (dn + 4) 7 ltac:(lia)) as Hq1.
    pose proof (Z.div_mod (wd - g + 7) 7 ltac:(lia)) as Hq2.
    fold g in Hq1. fold d0 in Hq2.
    replace (dn + d0 + 4) with (wd + ((dn + 4) / 7 + 1 - (wd - g + 7) / 7) * 7) by lia.
    rewrite Z.mod_add by lia. apply Z.mod_small. lia. }
  cbv zeta.
  set (delta := if (d0 =? 0) && (dn * ms + tod <=? from) then 7 else d0).
  assert (Hdelta : (delta = d0 /\ (d0 <> 0 \/ from < dn * ms + tod))
                   \/ (delta = 7 /\ d0 = 0 /\ dn * ms + tod <= from)).
  { subst delta. destruct (Z.eqb_spec d0 0) as [H0|H0]; simpl.
    - destruct (Z.leb_spec (dn * ms + tod) from); [right|left]; lia.
    - left; lia. }
  assert (Hday : (dn * ms + tod + delta * ms) / ms = dn + delta).
  { replace (dn * ms + tod + delta * ms) with (tod + (dn + delta) * ms) by lia.
    rewrite Z.div_add by lia. rewrite Z.div_small by lia. lia. }
  assert (Hwd' : (dn + delta + 4) mod 7 = wd).
  { destruct Hdelta as [[-> _]|[-> [H0 _]]]; [exact Hwk|].
    rewrite H0 in Hwk. replace (dn + 7 + 4) with (dn + 0 + 4 + 1 * 7) by lia.
    now rewrite Z.mod_add by lia. }
  split; [|split; [split|]].
  - destruct Hdelta as [[-> [Hne|Hlt]]|[-> _]]; nia.
  - now rewrite Hday.
  - replace (dn * ms + tod + delta * ms) with (tod + (dn + delta) * ms) by lia.
    rewrite Z.mod_add by lia. apply Z.mod_small; lia.
  - intros t Hlt [Hwt Htt].
    pose proof (Z.div_mod t ms ltac:(lia)) as Ht.
    rewrite Htt in Ht.
    set (dt := t / ms) in *.
    assert (Hge : dn <= dt) by nia.
    assert (Hcong : (dt - dn - d0) mod 7 = 0).
    { pose proof (Z.div_mod (dt + 4) 7 ltac:(lia)) as H1.
      pose proof (Z.div_mod (dn + d0 + 4) 7 ltac:(lia)) as H2.
      rewrite Hwt in H1. rewrite Hwk in H2.
      replace (dt - dn - d0) with (((dt + 4) / 7 - (dn + d0 + 4) / 7) * 7) by lia.
      apply Z.mod_mul. lia. }
    apply Z.mod_divide in Hcong; [|lia]. destruct Hcong as [k Hk].
    assert (Hkpos : delta <= dt - dn).
    { destruct Hdelta as [[-> _]|[-> [H0 Hc]]].
      - assert (0 <= k) by lia. lia.
      - assert (dn < dt) by nia. lia. }
    nia.
Qed.

(** C6. For a weekday index 0-6, a time [hh:mm] and an instant [from],
    [computeNextScheduledDateTime] returns [from]'s date at [hh:mm] plus
    [delta] days, where [delta = (weekday - from.weekday + 7) mod 7] and
    [delta] becomes 7 when it is 0 and the same-day candidate is at or
    before [from]. The result is strictly after [from], falls on the given
    weekday at the given wall-clock time, and is the smallest such
    instant. *)
Theorem computeNextScheduledDateTime_next_slot
    (s : Settings) (wd hh mm : Z) (from : Date) :
  scheduledAt s wd hh mm ->
  0 <= wd <= 6 -> 0 <= hh < 24 -> 0 <= mm < 60 ->
  computeNextScheduledDateTime (Some s) from = nextWeeklyOccurrence wd hh mm from
  /\ from < computeNextScheduledDateTime (Some s) from
  /\ matchesSlot wd hh mm (computeNextScheduledDateTime (Some s) from)
  /\ (forall t, from < t -> matchesSlot wd hh mm t ->
                computeNextScheduledDateTime (Some s) from <= t).
Proof.
  intros [Hd Ht] Hwd Hhh Hmm.
  assert (Hr : computeNextScheduledDateTime (Some s) from
               = nextWeeklyOccurrence wd hh mm from).
  { rewrite (computeNextScheduledDateTime_integral s wd from).
    - unfold injectionTimeOrDefault. now rewrite Ht.
    - now rewrite (clampedInjectionDow_weekday s wd Hd Hwd).
    - exact Hwd. }
  rewrite Hr. split; [reflexivity|].
  now apply nextWeeklyOccurrence_correct.
Qed.

(** The default schedule, Saturday 09:51, read at midnight of day 1000. *)
Lemma computeNextScheduledDateTime_next_slot_witness :
  scheduledAt DEFAULTS 6 9 51
  /\ 1000 * msPerDay < computeNextScheduledDateTime (Some DEFAULTS) (1000 * msPerDay)
  /\ matchesSlot 6 9 51 (computeNextScheduledDateTime (Some DEFAULTS) (1000 * msPerDay)).
Proof.
  assert (Hs : scheduledAt DEFAULTS 6 9 51) by (split; reflexivity).
  split; [exact Hs|].
  pose proof (computeNextScheduledDateTime_next_slot DEFAULTS 6 9 51 (1000 * msPerDay) Hs
                ltac:(lia) ltac:(lia) ltac:(lia)) as (_ & Hlt & Hslot & _).
  split; [exact Hlt|exact Hslot].
Defined.

Example next_slot_rolls_over :
  let sat0951 := 2 * msPerDay + 9 * 3600000 + 51 * 60000 in
  getDay sat0951 = 6
  /\ computeNextScheduledDateTime (Some DEFAULTS) sat0951 = sat0951 + 7 * msPerDay
  /\ computeNextScheduledDateTime (Some DEFAULTS) (sat0951 - 1) = sat0951
  /\ computeNextScheduledDateTime None (sat0951 + 1) = sat0951 + 7 * msPerDay.
Proof. repeat split; reflexivity. Qed.

(** ** The configured weekday *)

Lemma getDay_addDays (d : Date) (n : Z) : getDay (addDays d n) = (getDay d + n) mod 7.
Proof.
  unfold getDay. rewrite dayNumber_addDays.
  replace (dayNumber d + n + 4) with (dayNumber d + 4 + n) by lia.
  now rewrite Zplus_mod_idemp_l.
Qed.

Lemma in_seqZ (m n k : Z) : In k (seqZ m n) <-> m <= k < m + n.
Proof. rewrite <- list_elem_of_In. apply elem_of_seqZ. Qed.

(** An integer weekday 0-6 is found among the seven days of any block. *)
Lemma findInjectionDay_integral (weekStart : Date) (injDow : Q) (k : Z) :
  (injDow == inject_Z k)%Q -> 0 <= k <= 6 ->
  exists j, 0 <= j < 7
            /\ findInjectionDay weekStart injDow = Some (addDays weekStart j)
            /\ getDay (addDays weekStart j) = k.
Proof.
  intros Hk Hr. unfold findInjectionDay.
  destruct (List.find _ _) as [d|] eqn:E.
  - apply List.find_some in E as [Hin Hp].
    apply List.in_map_iff in Hin as (j & <- & Hj). apply in_seqZ in Hj.
    exists j. split; [lia|]. split; [reflexivity|].
    rewrite (eq_int_comp _ _ Hk _ _ eq_refl), eq_int_inject_Z in Hp.
    apply Z.eqb_eq in Hp. now symmetry.
  - exfalso.
    pose proof (getDay_range weekStart) as Hg.
    set (j := (k - getDay weekStart) mod 7).
    assert (Hj : 0 <= j < 7) by (apply Z.mod_pos_bound; lia).
    assert (Hin : In (addDays weekStart j) (map (addDays weekStart) (seqZ 0 7))).
    { apply List.in_map. apply in_seqZ. lia. }
    pose proof (List.find_none _ _ E _ Hin) as Hp. cbv beta in Hp.
    rewrite (eq_int_comp _ _ Hk _ _ eq_refl), eq_int_inject_Z in Hp.
    apply Z.eqb_neq in Hp. apply Hp.
    rewrite getDay_addDays. subst j.
    rewrite Zplus_mod_idemp_r.
    replace (getDay weekStart + (k - getDay weekStart)) with k by lia.
    symmetry. apply Z.mod_small. lia.
Qed.

(** A weekday that is not an integer is found in no block. *)
Lemma findInjectionDay_fractional (weekStart : Date) (injDow : Q) :
  (forall k : Z, ~ (injDow == inject_Z k)%Q) ->
  findInjectionDay weekStart injDow = None.
Proof.
  intros Hfrac. unfold findInjectionDay.
  destruct (List.find _ _) as [d|] eqn:E; [|reflexivity].
  apply List.find_some in E as [_ Hp].
  apply Qeq_bool_iff in Hp. now apply Hfrac in Hp.
Qed.

(** When the stored weekday is missing, not a number or an integer, the
    clamped weekday is an integer weekday index. *)
Lemma clampedInjectionDow_integral (s : Settings) :
  integralOrNaN (rawInjectionDow s) ->
  exists k, 0 <= k <= 6 /\ (clampedInjectionDow s == inject_Z k)%Q.
Proof.
  unfold integralOrNaN, rawInjectionDow, clampedInjectionDow.
  destruct (to_number _) as [|q] eqn:Hn.
  - intros _. exists 0. split; [lia|]. now rewrite (clampNumber_NaN _ _ _ Hn).
  - intros [k Hk]. exists (Z.min 6 (Z.max 0 k)). split; [lia|].
    change 0%Q with (inject_Z 0). change 6%Q with (inject_Z 6).
    exact (clampNumber_integral _ q k 0 6 Hn Hk).
Qed.

Lemma adherence_fold_expectedInj (weighDows weightKeys injKeys : gset Z) (injDow : Q)
    (days : list Date) (acc : Z * Z * Z * Z) :
  expectedInjOf (fold_left (adherenceStep weighDows weightKeys injKeys injDow) days acc)
  = expectedInjOf acc
    + Z.of_nat (length (List.filter (fun d => eq_int injDow (getDay d)) days)).
Proof.
  revert acc. induction days as [|d days IH]; intros acc; simpl.
  - lia.
  - rewrite IH. destruct acc as [[[eW dW] eI] dI]. unfold adherenceStep, expectedInjOf.
    destruct (bool_decide (getDay d ∈ weighDows)), (eq_int injDow (getDay d)); simpl; lia.
Qed.

Lemma filter_length_pos {A} (p : A -> bool) (l : list A) (x : A) :
  In x l -> p x = true -> (1 <= length (List.filter p l))%nat.
Proof.
  intros Hin Hp.
  assert (Hf : In x (List.filter p l)) by (apply List.filter_In; now split).
  destruct (List.filter p l); [destruct Hf|simpl; lia].
Qed.

Lemma expectedInj_fold (now : Date) (rangeDays : Z) (s : Settings) (data : RangeData) :
  expectedInj (computeScheduleAdherenceForRange now rangeDays (Some s) data)
  = Z.of_nat (length (List.filter (fun d => eq_int (clampedInjectionDow s) (getDay d))
       (map (addDays (addDays (startOfDay now) (- (Z.max 1 rangeDays - 1))))
            (seqZ 0 rangeDays)))).
Proof.
  unfold computeScheduleAdherenceForRange.
  match goal with
  | |- context [fold_left ?f ?l ?a] =>
      pose proof (adherence_fold_expectedInj
                    (list_to_set (weighDaysOrDefault s))
                    (uniqueDateKeysFromDateTimeISO (map Weight.dateTimeISO (rd_weights data)))
                    (uniqueDateKeysFromDateTimeISO (map Injection.dateTimeISO (rd_injections data)))
                    (clampedInjectionDow s) l a) as Hf;
      destruct (fold_left f l a) as [[[eW dW] eI] dI]
  end.
  simpl. unfold expectedInjOf in Hf. simpl in Hf. lia.
Qed.

(** Every week examined has its day logged: the streak counts them all. *)
Lemma countStreakInjections_loop_all (injDow : Q) (keys : gset Z) (thisWeekStart : Date)
    (k : Z) (remaining : nat) (i streak : Z) :
  (injDow == inject_Z k)%Q -> 0 <= k <= 6 ->
  (forall i' d, i <= i' < i + Z.of_nat remaining ->
                findInjectionDay (addDays thisWeekStart (-7 * i')) injDow = Some d ->
                getLocalDateKey d ∈ keys) ->
  countStreakInjections_loop injDow keys thisWeekStart remaining i streak
  = streak + Z.of_nat remaining.
Proof.
  intros Hk Hr. revert i streak.
  induction remaining as [|n IH]; intros i streak Hall.
  - simpl. lia.
  - cbn [countStreakInjections_loop].
    destruct (findInjectionDay_integral (addDays thisWeekStart (-7 * i)) injDow k Hk Hr)
      as (j & _ & Hfind & Hd).
    rewrite Hfind.
    rewrite bool_decide_eq_true_2 by (apply (Hall i); [lia|exact Hfind]).
    rewrite IH; [lia|].
    intros i' d Hi'. apply Hall. lia.
Qed.

(** The stored weekday 2.5 is clamped to 2.5, which is the weekday of no
    day: the streak stops at once although every day of the week is logged,
    and the week expects no application. *)
Lemma halfDay_not_located :
  clampedInjectionDow halfDaySettings = (5 # 2)%Q
  /\ (forall k : Z, ~ (clampedInjectionDow halfDaySettings == inject_Z k)%Q)
  /\ findInjectionDay (startOfWeekMonday (10 * msPerDay))
       (clampedInjectionDow halfDaySettings) = None
  /\ countStreakInjections (10 * msPerDay) fullWeekCache halfDaySettings 52 = 0
  /\ countStreakInjections (10 * msPerDay) fullWeekCache DEFAULTS 52 = 1
  /\ wc_expectedInj
       (renderWeeklyConsistency (10 * msPerDay) fullWeekCache halfDaySettings JUndefined) = 0.
Proof.
  split; [reflexivity|].
  split.
  - intros k. change (clampedInjectionDow halfDaySettings) with (5 # 2)%Q.
    unfold Qeq, inject_Z; simpl. lia.
  - repeat split; vm_compute; reflexivity.
Qed.

(** C9 (amended). Every computation that reads the configured weekday of
    the application first clamps it with [clampNumber] into the interval
    from 0 to 6, non-numeric input being mapped to 0. When the stored value
    is missing, not a number or an integer, the clamped value is a weekday
    index 0-6 and the computations locate the day: each block of seven days
    has a day of that weekday, the weekly consistency expects one
    application, the streak counts every logged week, a range of seven days
    or more expects an application, and the next scheduled instant falls on
    that weekday. *)
Theorem clampedInjectionDow_weekday_index (s : Settings) :
  (0 <= clampedInjectionDow s <= 6)%Q
  /\ (rawInjectionDow s = NaN -> clampedInjectionDow s = 0%Q)
  /\ (integralOrNaN (rawInjectionDow s) ->
      exists k, 0 <= k <= 6 /\ (clampedInjectionDow s == inject_Z k)%Q
        /\ (forall weekStart, exists j,
              0 <= j < 7
              /\ findInjectionDay weekStart (clampedInjectionDow s)
                 = Some (addDays weekStart j)
              /\ getDay (addDays weekStart j) = k)
        /\ (forall now cache weekOffset,
              wc_expectedInj (renderWeeklyConsistency now cache s weekOffset) = 1)
        /\ (forall now cache maxWeeks,
              (forall i d, 0 <= i < Z.of_nat maxWeeks ->
                 findInjectionDay (addDays (startOfWeekMonday now) (-7 * i))
                   (clampedInjectionDow s) = Some d ->
                 getLocalDateKey d ∈ injectionKeys cache) ->
              countStreakInjections now cache s maxWeeks = Z.of_nat maxWeeks)
        /\ (forall now rangeDays data,
              7 <= rangeDays ->
              1 <= expectedInj (computeScheduleAdherenceForRange now rangeDays (Some s) data))
        /\ (forall from,
              validTime (injectionTimeOrDefault s) ->
              getDay (computeNextScheduledDateTime (Some s) from) = k)).
Proof.
  split; [|split].
  - apply clampNumber_range. discriminate.
  - intros Hn. now apply clampNumber_NaN.
  - intros Hint. destruct (clampedInjectionDow_integral s Hint) as (k & Hr & Hk).
    exists k. split; [exact Hr|]. split; [exact Hk|].
    split; [|split; [|split; [|split]]].
    + intros weekStart. now apply findInjectionDay_integral.
    + intros now cache weekOffset. unfold renderWeeklyConsistency. cbn [wc_expectedInj].
      destruct (findInjectionDay_integral
                  (addDays (startOfWeekMonday now) (-7 * weekOffsetOf weekOffset))
                  (clampedInjectionDow s) k Hk Hr) as (j & _ & -> & _).
      reflexivity.
    + intros now cache maxWeeks Hall. unfold countStreakInjections.
      rewrite (countStreakInjections_loop_all _ _ _ k maxWeeks 0 0 Hk Hr); [lia|].
      intros i' d Hi'. apply Hall. lia.
    + intros now rangeDays data Hrange. rewrite expectedInj_fold.
      set (start := addDays (startOfDay now) (- (Z.max 1 rangeDays - 1))).
      destruct (findInjectionDay_integral start (clampedInjectionDow s) k Hk Hr)
        as (j & Hj & _ & Hd).
      assert (Hlen : (1 <= length (List.filter
                 (fun d => eq_int (clampedInjectionDow s) (getDay d))
                 (map (addDays start) (seqZ 0 rangeDays))))%nat).
      { apply (filter_length_pos _ _ (addDays start j)).
        - apply List.in_map. apply in_seqZ. lia.
        - rewrite (eq_int_comp _ _ Hk _ _ eq_refl), eq_int_inject_Z.
          now apply Z.eqb_eq. }
      lia.
    + intros from [Hhh Hmm].
      rewrite (computeNextScheduledDateTime_integral s k from Hk Hr).
      now apply nextWeeklyOccurrence_correct.
Qed.

(** The default weekday, 6, is an integer: it is clamped to a weekday index. *)
Lemma clampedInjectionDow_weekday_index_witness :
  integralOrNaN (rawInjectionDow DEFAULTS)
  /\ exists k, 0 <= k <= 6 /\ (clampedInjectionDow DEFAULTS == inject_Z k)%Q.
Proof.
  assert (Hint : integralOrNaN (rawInjectionDow DEFAULTS)).
  { exists 6. reflexivity. }
  split; [exact Hint|].
  destruct (proj2 (proj2 (clampedInjectionDow_weekday_index DEFAULTS)) Hint)
    as (k & Hr & Hk & _).
  exists k. split; [exact Hr|exact Hk].
Defined.

(** ** Regularity and trend *)

Lemma intervalsOf_length (times : list Date) :
  length (intervalsOf times) = (length times - 1)%nat.
Proof.
  induction times as [|t0 [|t1 rest] IH]; try reflexivity.
  change (intervalsOf (t0 :: t1 :: rest))
    with (daysBetween t1 t0 :: intervalsOf (t1 :: rest)).
  simpl length in *. rewrite IH. lia.
Qed.

Lemma div_defined (a b : Q) : ~ (b == 0)%Q -> div a b = Num (a / b).
Proof.
  intros Hb. unfold div.
  destruct (Qeq_bool b 0) eqn:E; [|reflexivity].
  apply Qeq_bool_iff in E. contradiction.
Qed.

Lemma inject_Z_of_nat_nonzero (n : nat) : (0 < n)%nat -> ~ (inject_Z (Z.of_nat n) == 0)%Q.
Proof.
  intros Hn He. change 0%Q with (inject_Z 0) in He. apply inject_Z_eq in He. lia.
Qed.


(** ** Checklist and overdue backfill *)

Lemma getSettings_reads (w : World) : getSettings w = (settingsOf w, w).
Proof. reflexivity. Qed.

Lemma buildChecklistCache_reads (w : World) : buildChecklistCache w = (cacheOf w, w).
Proof. reflexivity. Qed.

(** Building a checklist leaves the world as it was. *)
Lemma buildChecklistForDate_reads (date : Date) (cache : option Cache)
    (settings : option Settings) (nowDate : Date) (w : World) :
  snd (buildChecklistForDate date cache settings nowDate w) = w.
Proof.
  unfold buildChecklistForDate, bind.
  destruct settings, cache; reflexivity.
Qed.

(** Passing the settings and the cache of the world is the same as letting
    the function read them. *)
Lemma buildChecklistForDate_cached (date nowDate : Date) (w : World) :
  buildChecklistForDate date (Some (cacheOf w)) (Some (settingsOf w)) nowDate w
  = buildChecklistForDate date None None nowDate w.
Proof. reflexivity. Qed.

Lemma buildChecklistForDate_dateKey (date : Date) (cache : option Cache)
    (settings : option Settings) (nowDate : Date) (w : World) (it : ChecklistItem) :
  In it (fst (buildChecklistForDate date cache settings nowDate w)) ->
  dateKey it = getLocalDateKey date.
Proof.
  unfold buildChecklistForDate, bind.
  destruct settings as [s|], cache as [c|]; cbn [getSettings ret fst snd];
    rewrite ?getSettings_reads, ?buildChecklistCache_reads; cbn [ret fst snd];
    intros Hin; apply List.in_map_iff in Hin as (it0 & <- & Hin);
    repeat match type of Hin with
           | context [if ?b then _ else _] => destruct b
           end;
    cbn in Hin; intuition (subst; reflexivity).
Qed.

Lemma pushOverdue_spec (items overdue : list ChecklistItem) :
  pushOverdue items overdue = overdue ++ map markLate (requiredNotDone items).
Proof.
  revert overdue. induction items as [|it rest IH]; intros overdue; simpl.
  - now rewrite app_nil_r.
  - unfold requiredNotDone. cbn [List.filter]. fold (requiredNotDone rest).
    destruct (required it) eqn:Hr; simpl.
    + destruct (done it) eqn:Hd; simpl.
      * apply IH.
      * rewrite IH, <- app_assoc. unfold markLate at 2. now rewrite Hr, Hd.
    + apply IH.
Qed.

Lemma overdueLoop_spec (w : World) (indices : list Z) (overdue : list ChecklistItem) :
  overdueLoop (settingsOf w) (cacheOf w) (startOfDay (clock w)) indices overdue w
  = (overdue ++ flat_map (fun i => map markLate (requiredNotDone (checklistDaysAgo w i)))
                  indices, w).
Proof.
  revert overdue. induction indices as [|i rest IH]; intros overdue.
  - simpl. now rewrite app_nil_r.
  - cbn [overdueLoop flat_map]. unfold bind at 1. unfold now_ at 1.
    unfold bind at 1. rewrite buildChecklistForDate_cached.
    pose proof (buildChecklistForDate_reads
                  (addDays (startOfDay (clock w)) (- i)) None None (clock w) w) as Hw.
    fold (checklistDaysAgo w i).
    destruct (buildChecklistForDate _ None None (clock w) w) as [items w'] eqn:E.
    simpl in Hw. subst w'.
    assert (Hitems : items = checklistDaysAgo w i)
      by (unfold checklistDaysAgo; now rewrite E).
    rewrite IH, pushOverdue_spec, <- app_assoc, Hitems. reflexivity.
Qed.

Lemma in_overdue_of_day (w : World) (i : Z) (it : ChecklistItem) :
  In it (map markLate (requiredNotDone (checklistDaysAgo w i))) ->
  dateKey it = dayNumber (clock w) - i
  /\ required it = true /\ done it = false
  /\ status it = Some st_late /\ warnAfterCutoff it = Some false
  /\ exists it0, In it0 (checklistDaysAgo w i) /\ kind it0 = kind it
                 /\ required it0 = true.
Proof.
  intros Hin. apply List.in_map_iff in Hin as (it0 & <- & Hin).
  apply List.filter_In in Hin as [Hin Hrd].
  apply andb_true_iff in Hrd as [Hr Hd]. apply negb_true_iff in Hd.
  split.
  - cbn [markLate dateKey].
    rewrite (buildChecklistForDate_dateKey _ _ _ _ _ _ Hin).
    unfold getLocalDateKey. rewrite dayNumber_addDays, dayNumber_startOfDay. lia.
  - repeat split; try assumption. exists it0. now repeat split.
Qed.

(** The items of successive days back come out most recent first. *)
Lemma overdue_days_sorted (w : World) (n : nat) (m : Z) :
  let l := flat_map (fun i => map markLate (requiredNotDone (checklistDaysAgo w i)))
             (seqZ m (Z.of_nat n)) in
  StronglySorted (fun a b => dateKey b <= dateKey a) l
  /\ Forall (fun it => dateKey it <= dayNumber (clock w) - m) l.
Proof.
  revert m. induction n as [|n IH]; intros m l; subst l.
  - rewrite seqZ_nil by lia. simpl. split; constructor.
  - rewrite seqZ_cons by lia.
    replace (Z.pred (Z.of_nat (S n))) with (Z.of_nat n) by lia.
    cbn [flat_map]. destruct (IH (Z.succ m)) as [Hs Hb].
    set (today := map markLate (requiredNotDone (checklistDaysAgo w m))) in *.
    set (older := flat_map _ (seqZ (Z.succ m) (Z.of_nat n))) in *.
    assert (Hkeys : forall it, In it today -> dateKey it = dayNumber (clock w) - m).
    { intros it Hin. now apply in_overdue_of_day in Hin. }
    clearbody today older. split.
    + induction today as [|a today IHt]; [exact Hs|].
      simpl. constructor.
      * apply IHt. intros it Hin. apply Hkeys. now right.
      * apply List.Forall_app. split.
        -- apply List.Forall_forall. intros b Hb'.
           rewrite (Hkeys a), (Hkeys b); [lia|now right|now left].
        -- apply List.Forall_forall. intros b Hb'.
           rewrite (Hkeys a) by now left.
           pose proof (proj1 (List.Forall_forall _ _) Hb b Hb'). simpl in *. lia.
    + apply List.Forall_app. split.
      * apply List.Forall_forall. intros a Ha. rewrite (Hkeys a Ha). lia.
      * apply List.Forall_forall. intros b Hb'.
        pose proof (proj1 (List.Forall_forall _ _) Hb b Hb'). simpl in *. lia.
Qed.

Lemma sort_by_dateKey_desc_id (l : list ChecklistItem) :
  StronglySorted (fun a b => dateKey b <= dateKey a) l ->
  sort (fun a b => compareDateKeys (dateKey b) (dateKey a)) l = l.
Proof.
  intros Hs. apply sort_sorted_id. apply StronglySorted_Sorted in Hs.
  induction Hs as [|a l Hs IH Hhd]; constructor; [exact IH|].
  destruct Hhd as [|b l' Hab]; constructor.
  unfold compareDateKeys.
  destruct (Z.eqb_spec (dateKey b) (dateKey a)); [lia|].
  destruct (Z.ltb_spec (dateKey b) (dateKey a)); lia.
Qed.

(** The overdue list in closed form, and the world untouched. *)
Lemma buildOverdueChecklist_spec (daysBack : Z) (w : World) :
  buildOverdueChecklist daysBack w
  = (flat_map (fun i => map markLate (requiredNotDone (checklistDaysAgo w i)))
       (seqZ 1 daysBack), w).
Proof.
  unfold buildOverdueChecklist.
  unfold bind at 1. rewrite getSettings_reads.
  unfold bind at 1. rewrite buildChecklistCache_reads.
  unfold bind at 1. unfold now_ at 1.
  unfold bind at 1. rewrite overdueLoop_spec. cbn [app ret].
  f_equal. apply sort_by_dateKey_desc_id.
  destruct (Z.le_gt_cases daysBack 0) as [Hle|Hgt].
  - rewrite seqZ_nil by lia. constructor.
  - rewrite <- (Z2Nat.id daysBack) by lia.
    apply (overdue_days_sorted w (Z.to_nat daysBack) 1).
Qed.

(** The three shapes an item of a checklist can have. *)
Lemma buildChecklistForDate_shapes (date : Date) (cache : option Cache)
    (settings : option Settings) (nowDate : Date) (w : World) (it : ChecklistItem) :
  In it (fst (buildChecklistForDate date cache settings nowDate w)) ->
  (kind it = weight /\ required it = true /\ exists b, warnAfterCutoff it = Some b)
  \/ (kind it = injection /\ required it = true /\ exists b, warnAfterCutoff it = Some b)
  \/ (kind it = measures_ /\ required it = false /\ warnAfterCutoff it = None).
Proof.
  unfold buildChecklistForDate, bind.
  destruct settings as [s|], cache as [c|]; cbn [getSettings ret fst snd];
    rewrite ?getSettings_reads, ?buildChecklistCache_reads; cbn [ret fst snd];
    intros Hin; apply List.in_map_iff in Hin as (it0 & <- & Hin);
    repeat match type of Hin with
           | context [if ?b then _ else _] => destruct b
           end;
    cbn in Hin;
    repeat match type of Hin with
           | _ \/ _ => destruct Hin as [Hin|Hin]
           | False => destruct Hin
           end;
    subst it0; cbn; eauto 6.
Qed.

(** C5. [buildOverdueChecklist(daysBack)] goes through the days from
    [today - 1] to [today - daysBack] and returns exactly the items of
    their checklists that are required and not done, each with status
    [late] (and the cutoff warning off), the most recent date key first. It
    changes nothing in the world: calling it twice in a row on the same
    records, settings and clock gives the same list twice. *)
Theorem buildOverdueChecklist_backfill (daysBack : Z) (w : World) :
  snd (buildOverdueChecklist daysBack w) = w
  /\ fst (buildOverdueChecklist daysBack w)
     = flat_map (fun i => map markLate (requiredNotDone (checklistDaysAgo w i)))
         (seqZ 1 daysBack)
  /\ (forall it, In it (fst (buildOverdueChecklist daysBack w)) <->
                 exists i it0, 1 <= i <= daysBack
                               /\ In it0 (checklistDaysAgo w i)
                               /\ required it0 = true /\ done it0 = false
                               /\ it = markLate it0)
  /\ Forall (fun it => status it = Some st_late /\ required it = true /\ done it = false)
       (fst (buildOverdueChecklist daysBack w))
  /\ mostRecentFirst (fst (buildOverdueChecklist daysBack w))
  /\ (let* first := buildOverdueChecklist daysBack in
      let* second := buildOverdueChecklist daysBack in
      ret (first, second)) w
     = ((fst (buildOverdueChecklist daysBack w), fst (buildOverdueChecklist daysBack w)), w).
Proof.
  rewrite !buildOverdueChecklist_spec. cbn [fst snd].
  split; [reflexivity|]. split; [reflexivity|].
  split; [|split; [|split]].
  - intros it. rewrite List.in_flat_map. split.
    + intros (i & Hi & Hin). apply in_seqZ in Hi.
      apply List.in_map_iff in Hin as (it0 & <- & Hin).
      apply List.filter_In in Hin as [Hin Hrd].
      apply andb_true_iff in Hrd as [Hr Hd]. apply negb_true_iff in Hd.
      exists i, it0. repeat split; try assumption; lia.
    + intros (i & it0 & Hi & Hin & Hr & Hd & ->).
      exists i. split; [apply in_seqZ; lia|].
      apply List.in_map. apply List.filter_In. split; [exact Hin|].
      now rewrite Hr, Hd.
  - apply List.Forall_forall. intros it Hin.
    apply List.in_flat_map in Hin as (i & _ & Hin).
    apply in_overdue_of_day in Hin. tauto.
  - unfold mostRecentFirst. apply StronglySorted_Sorted.
    destruct (Z.le_gt_cases daysBack 0) as [Hle|Hgt].
    + rewrite seqZ_nil by lia. constructor.
    + rewrite <- (Z2Nat.id daysBack) by lia.
      apply (overdue_days_sorted w (Z.to_nat daysBack) 1).
  - unfold bind. rewrite !buildOverdueChecklist_spec. reflexivity.
Qed.

(** C10. A measures item of a checklist is created optional
    ([required = false]) and without the [warnAfterCutoff] property; the
    cutoff warning is set only on weight and application items; and
    [buildOverdueChecklist] returns no measures item, whatever the records,
    the settings and the clock. *)
Theorem measures_items_never_overdue (date : Date) (cache : option Cache)
    (settings : option Settings) (nowDate : Date) (daysBack : Z) (w : World) :
  Forall (fun it => kind it = measures_ -> required it = false /\ warnAfterCutoff it = None)
    (fst (buildChecklistForDate date cache settings nowDate w))
  /\ Forall (fun it => warnAfterCutoff it = Some true ->
                       kind it = weight \/ kind it = injection)
       (fst (buildChecklistForDate date cache settings nowDate w))
  /\ Forall (fun it => kind it <> measures_ /\ warnAfterCutoff it = Some false)
       (fst (buildOverdueChecklist daysBack w)).
Proof.
  split; [|split]; apply List.Forall_forall; intros it Hin.
  - intros Hk. apply buildChecklistForDate_shapes in Hin.
    destruct Hin as [(Hk' & _)|[(Hk' & _)|(_ & Hr & Hw)]]; try congruence. now split.
  - intros Hw. apply buildChecklistForDate_shapes in Hin.
    destruct Hin as [(Hk' & _)|[(Hk' & _)|(_ & _ & Hw')]]; try congruence; tauto.
  - rewrite buildOverdueChecklist_spec in Hin. cbn [fst] in Hin.
    apply List.in_flat_map in Hin as (i & _ & Hin).
    apply in_overdue_of_day in Hin as (_ & _ & _ & _ & Hw & it0 & Hin0 & Hk & Hr).
    split; [|exact Hw].
    apply buildChecklistForDate_shapes in Hin0.
    destruct Hin0 as [(Hk' & _)|[(Hk' & _)|(_ & Hr' & _)]]; congruence.
Qed.

Example sampleWorld_checklists :
  fst (buildChecklistForDate (clock sampleWorld) None None (clock sampleWorld) sampleWorld)
  = [{| kind := measures_; dateKey := 103; required := false; done := false;
        warnAfterCutoff := None; status := Some st_pending |}]
  /\ fst (buildChecklistForDate (clock sampleWorld - msPerDay) None None
            (clock sampleWorld - msPerDay) sampleWorld)
     = [{| kind := weight; dateKey := 102; required := true; done := false;
           warnAfterCutoff := Some true; status := Some st_pending |};
        {| kind := measures_; dateKey := 102; required := false; done := false;
           warnAfterCutoff := None; status := Some st_pending |}]
  /\ map (fun it => (kind it, dateKey it, status it))
       (fst (buildOverdueChecklist 7 sampleWorld))
     = [(weight, 102, Some st_late); (weight, 99, Some st_late); (weight, 97, Some st_late)].
Proof. repeat split; vm_compute; reflexivity. Qed.

(** ** Local insight rules *)

Lemma nauseaScore_high (inj : Injection.t) :
  Qle_bool 7 (nauseaScore inj) = true <-> highNausea inj.
Proof.
  unfold nauseaScore, highNausea, clampNumber.
  destruct (to_number _) as [|q].
  - split; [discriminate|contradiction].
  - rewrite Qle_bool_iff, Q.min_glb_iff, Q.max_le_iff. split.
    + intros [_ [H|H]]; [exfalso; apply H; reflexivity|exact H].
    + intros H. split; [discriminate|now right].
Qed.

Lemma plateauRule_severity (nowMs : Date) (ws : list Weight.t) (it : InsightItem) :
  In it (plateauRule nowMs ws) -> severity it = sev_warn.
Proof.
  unfold plateauRule.
  destruct (_ <=? _)%nat; [|intros []].
  destruct (map _ _); [intros []|].
  destruct (negb _); [|intros []].
  now intros [<-|[]].
Qed.

Lemma reboundRule_severity (wAsc : list Weight.t) (it : InsightItem) :
  In it (reboundRule wAsc) -> severity it = sev_info.
Proof.
  induction wAsc as [|a [|b [|c rest]] IH]; try (intros []).
  cbn [reboundRule].
  destruct (_ <? _); [exact IH|].
  destruct (Qle_bool _ 1); [exact IH|].
  destruct (_ <? _); [exact IH|].
  destruct (Qle_bool _ _); [|exact IH].
  now intros [<-|[]].
Qed.

Lemma weighRoutineRule_severity (now : Date) (cache : Cache) (settings : Settings)
    (it : InsightItem) :
  In it (weighRoutineRule now cache settings) -> severity it = sev_warn.
Proof.
  unfold weighRoutineRule. destruct (_ <=? _); [|intros []]. now intros [<-|[]].
Qed.

Lemma scheduleRule_severity (cache : Cache) (settings : Settings) (it : InsightItem) :
  In it (scheduleRule cache settings) -> severity it = sev_warn.
Proof.
  unfold scheduleRule. destruct (head _); [|intros []].
  destruct (negb _); [|intros []]. now intros [<-|[]].
Qed.

Lemma nauseaRule_cases (cache : Cache) :
  nauseaRule cache = [nauseaItem] \/ nauseaRule cache = [].
Proof.
  unfold nauseaRule. destruct (injectionsDesc cache) as [|i0 [|i1 rest]]; auto.
  destruct (_ && _); auto.
Qed.

(** The card of rule 5 is in the list exactly when rule 5 produced it, and
    it is the only card of severity [danger]. *)
Lemma buildLocalInsights_nausea (now : Date) (cache : Cache) (settings : Settings) :
  (In nauseaItem (buildLocalInsights now cache settings) <-> nauseaRule cache = [nauseaItem])
  /\ (forall it, In it (buildLocalInsights now cache settings) ->
                 severity it = sev_danger -> it = nauseaItem).
Proof.
  unfold buildLocalInsights.
  set (p := plateauRule now (weights cache)).
  set (r := reboundRule _).
  set (g := weighRoutineRule now cache settings).
  set (h := scheduleRule cache settings).
  assert (Hother : forall it, In it (p ++ r ++ g ++ h) -> severity it <> sev_danger).
  { intros it Hin. rewrite !List.in_app_iff in Hin.
    destruct Hin as [H|[H|[H|H]]].
    - apply plateauRule_severity in H. congruence.
    - apply reboundRule_severity in H. congruence.
    - apply weighRoutineRule_severity in H. congruence.
    - apply scheduleRule_severity in H. congruence. }
  assert (Hin : forall it, In it (p ++ r ++ g ++ h ++ nauseaRule cache) ->
                           severity it = sev_danger ->
                           it = nauseaItem /\ nauseaRule cache = [nauseaItem]).
  { intros it Hit Hsev.
    replace (p ++ r ++ g ++ h ++ nauseaRule cache)
      with ((p ++ r ++ g ++ h) ++ nauseaRule cache) in Hit
      by (now rewrite <- !app_assoc).
    apply List.in_app_iff in Hit as [Hit|Hit].
    - now apply Hother in Hit.
    - destruct (nauseaRule_cases cache) as [E|E]; rewrite E in Hit.
      + destruct Hit as [<-|[]]. now split.
      + destruct Hit. }
  destruct (p ++ r ++ g ++ h ++ nauseaRule cache) as [|x items] eqn:E.
  - split.
    + split.
      * intros [H|[]]. discriminate H.
      * intros Hn. rewrite Hn in E. destruct p, r, g, h; discriminate E.
    + intros it [<-|[]] Hsev. discriminate Hsev.
  - split.
    + split.
      * intros H. now apply (Hin nauseaItem H).
      * intros Hn. rewrite <- E, Hn. rewrite !List.in_app_iff. do 4 right. now left.
    + intros it H Hsev. now apply (Hin it H).
Qed.

Lemma injectionsDesc_sorted (cache : Cache) :
  StronglySorted (fun a b => Injection.dateTimeISO b <= Injection.dateTimeISO a)
    (injectionsDesc cache).
Proof.
  unfold injectionsDesc.
  set (cmp := fun a b => sortByDateTimeDesc (Injection.dateTimeISO a) (Injection.dateTimeISO b)).
  pose proof (sort_sorted cmp ltac:(intros x y; unfold cmp, sortByDateTimeDesc; lia)
                (injections cache)) as Hs.
  apply Sorted_StronglySorted.
  - intros x y z Hxy Hyz. lia.
  - induction Hs as [|a l Hs IH Hhd]; constructor; [exact IH|].
    destruct Hhd as [|b l' Hab]; constructor.
    unfold cmp, sortByDateTimeDesc in Hab. lia.
Qed.

Lemma injectionsDesc_perm (cache : Cache) :
  Permutation (injectionsDesc cache) (injections cache).
Proof. apply sort_perm. Qed.

(** When all the other applications are strictly older than [a] and [b],
    these two lead the sorted list. *)
Lemma injectionsDesc_top_two (cache : Cache) (a b : Injection.t) (rest : list Injection.t) :
  Permutation (injections cache) (a :: b :: rest) ->
  Injection.dateTimeISO b <= Injection.dateTimeISO a ->
  Forall (fun r => Injection.dateTimeISO r < Injection.dateTimeISO b) rest ->
  exists tl, injectionsDesc cache = a :: b :: tl \/ injectionsDesc cache = b :: a :: tl.
Proof.
  intros Hperm Hba Hrest.
  pose proof (injectionsDesc_sorted cache) as Hs.
  pose proof (injectionsDesc_perm cache) as Hp.
  rewrite Hperm in Hp. clear Hperm.
  rewrite List.Forall_forall in Hrest.
  destruct (injectionsDesc cache) as [|x [|y tl]].
  - apply Permutation_length in Hp. discriminate Hp.
  - apply Permutation_length in Hp. discriminate Hp.
  - exists tl.
    apply StronglySorted_inv in Hs as [Hs Hx].
    apply StronglySorted_inv in Hs as [_ Hy].
    rewrite List.Forall_forall in Hx, Hy.
    assert (Hmax : forall z, In z (a :: b :: rest) ->
                             Injection.dateTimeISO z <= Injection.dateTimeISO x).
    { intros z Hz. apply (Permutation_in _ (Permutation_sym Hp)) in Hz.
      destruct Hz as [<-|Hz]; [lia|]. now apply Hx. }
    assert (Hxin : In x (a :: b :: rest)) by (apply (Permutation_in _ Hp); now left).
    destruct Hxin as [<-|[<-|Hxr]].
    + left. apply Permutation_cons_inv in Hp.
      assert (Hyin : In y (b :: rest)) by (apply (Permutation_in _ Hp); now left).
      destruct Hyin as [<-|Hyr]; [reflexivity|exfalso].
      assert (Hb : In b (y :: tl)) by (apply (Permutation_in _ (Permutation_sym Hp)); now left).
      pose proof (Hrest y Hyr).
      destruct Hb as [<-|Hb]; [lia|]. pose proof (Hy b Hb). lia.
    + right.
      assert (Hp' : Permutation (y :: tl) (a :: rest)).
      { apply Permutation_cons_inv with (a := b).
        rewrite Hp. apply perm_swap. }
      assert (Hyin : In y (a :: rest)) by (apply (Permutation_in _ Hp'); now left).
      destruct Hyin as [<-|Hyr]; [reflexivity|exfalso].
      assert (Ha : In a (y :: tl)) by (apply (Permutation_in _ (Permutation_sym Hp')); now left).
      pose proof (Hrest y Hyr).
      destruct Ha as [<-|Ha]; [lia|]. pose proof (Hy a Ha). lia.
    + exfalso. pose proof (Hrest x Hxr). pose proof (Hmax b ltac:(right; now left)). lia.
Qed.

Lemma nauseaRule_top_two (cache : Cache) (a b : Injection.t) (tl : list Injection.t) :
  injectionsDesc cache = a :: b :: tl ->
  (nauseaRule cache = [nauseaItem] <-> highNausea a /\ highNausea b).
Proof.
  intros E. unfold nauseaRule. rewrite E.
  rewrite <- !nauseaScore_high.
  destruct (Qle_bool 7 (nauseaScore a)), (Qle_bool 7 (nauseaScore b)); simpl;
    split; try tauto; try discriminate; intros [? ?]; discriminate.
Qed.

(** C8. With two applications or more, the card "recurring high nausea"
    (the only card of severity [danger]) is produced exactly when the two
    most recent applications by timestamp both have a nausea score of 7 or
    more. The other applications do not count: any cache whose two most
    recent applications are the same two, all the others being strictly
    older, gives the same outcome. Scores 8, 9, 3, most recent first,
    produce the card; scores 8, 3, 9 do not. *)
Theorem recurring_high_nausea_rule (now : Date) (cache : Cache) (settings : Settings) :
  (2 <= length (injections cache))%nat ->
  exists (a b : Injection.t) (rest : list Injection.t),
    injectionsDesc cache = a :: b :: rest
    /\ Permutation (injections cache) (a :: b :: rest)
    /\ Injection.dateTimeISO b <= Injection.dateTimeISO a
    /\ Forall (fun r => Injection.dateTimeISO r <= Injection.dateTimeISO b) rest
    /\ (In nauseaItem (buildLocalInsights now cache settings)
        <-> highNausea a /\ highNausea b)
    /\ (forall it, In it (buildLocalInsights now cache settings) ->
                   severity it = sev_danger -> it = nauseaItem)
    /\ (forall now' cache' settings' rest',
          Forall (fun r => Injection.dateTimeISO r < Injection.dateTimeISO b) rest ->
          Permutation (injections cache') (a :: b :: rest') ->
          Forall (fun r => Injection.dateTimeISO r < Injection.dateTimeISO b) rest' ->
          (In nauseaItem (buildLocalInsights now' cache' settings')
           <-> In nauseaItem (buildLocalInsights now cache settings)))
    /\ (forall now' settings',
          In nauseaItem
            (buildLocalInsights now'
               (cacheOfInjections [injectionOn 23 8; injectionOn 16 9; injectionOn 9 3])
               settings')
          /\ ~ In nauseaItem
                 (buildLocalInsights now'
                    (cacheOfInjections [injectionOn 23 8; injectionOn 16 3; injectionOn 9 9])
                    settings')).
Proof.
  intros Hlen.
  pose proof (injectionsDesc_sorted cache) as Hs.
  pose proof (injectionsDesc_perm cache) as Hp.
  destruct (injectionsDesc cache) as [|a [|b rest]] eqn:E.
  - apply Permutation_length in Hp. simpl in Hp. lia.
  - apply Permutation_length in Hp. simpl in Hp. lia.
  - exists a, b, rest.
    apply StronglySorted_inv in Hs as [Hs Ha].
    apply StronglySorted_inv in Hs as [_ Hb].
    pose proof (buildLocalInsights_nausea now cache settings) as [Hiff Hdanger].
    pose proof (nauseaRule_top_two cache a b rest E) as Htop.
    split; [reflexivity|]. split; [now symmetry|].
    split; [exact (Forall_inv Ha)|]. split; [exact Hb|].
    split; [now rewrite Hiff|]. split; [exact Hdanger|]. split.
    + intros now' cache' settings' rest' Hrest Hperm' Hrest'.
      rewrite Hiff, Htop.
      rewrite (proj1 (buildLocalInsights_nausea now' cache' settings')).
      destruct (injectionsDesc_top_two cache' a b rest' Hperm' (Forall_inv Ha) Hrest')
        as (tl & [E'|E']).
      * apply (nauseaRule_top_two cache' a b tl E').
      * rewrite (nauseaRule_top_two cache' b a tl E'). tauto.
    + intros now' settings'.
      rewrite !(proj1 (buildLocalInsights_nausea now' _ settings')).
      split; [reflexivity|discriminate].
Qed.

(** Three applications stored out of order: the two latest, with scores 8
    and 9, decide. *)
Lemma recurring_high_nausea_rule_witness :
  (2 <= length (injections
                  (cacheOfInjections [injectionOn 9 3; injectionOn 23 8; injectionOn 16 9])))%nat
  /\ (In nauseaItem
        (buildLocalInsights 0
           (cacheOfInjections [injectionOn 9 3; injectionOn 23 8; injectionOn 16 9]) DEFAULTS)
      <-> highNausea (injectionOn 23 8) /\ highNausea (injectionOn 16 9)).
Proof.
  assert (Hlen : (2 <= length (injections
                    (cacheOfInjections [injectionOn 9 3; injectionOn 23 8; injectionOn 16 9])))%nat)
    by (simpl; lia).
  split; [exact Hlen|].
  destruct (recurring_high_nausea_rule 0 _ DEFAULTS Hlen)
    as (a & b & rest & E & _ & _ & _ & Hiff & _).
  injection E as <- <- _. exact Hiff.
Defined.

Example nausea_rule_examples :
  buildLocalInsights (24 * msPerDay)
    (cacheOfInjections [injectionOn 23 8; injectionOn 16 9; injectionOn 9 3]) DEFAULTS
  = [{| title := "Rotina de pesagem"; severity := sev_warn |}; nauseaItem]
  /\ buildLocalInsights (24 * msPerDay)
       (cacheOfInjections [injectionOn 23 8; injectionOn 16 3; injectionOn 9 9]) DEFAULTS
     = [{| title := "Rotina de pesagem"; severity := sev_warn |}]
  /\ buildLocalInsights (24 * msPerDay)
       (cacheOfInjections [injectionOn 23 7; injectionOn 16 7]) DEFAULTS
     = [{| title := "Rotina de pesagem"; severity := sev_warn |}; nauseaItem]
  /\ buildLocalInsights (24 * msPerDay) (cacheOfInjections [injectionOn 23 9]) DEFAULTS
     = [{| title := "Rotina de pesagem"; severity := sev_warn |}].
Proof. repeat split; vm_compute; reflexivity. Qed.

(** ** Weekly consistency *)

(** The percentage in integers: [round(100 d / e) = (200 d + e) div (2 e)]. *)
Lemma percentOf_div (d e : Z) : 0 < e -> percentOf d e = (200 * d + e) / (2 * e).
Proof.
  intros He. unfold percentOf, math_round.
  rewrite (proj2 (Z.eqb_neq e 0)) by lia.
  rewrite Zdiv_Qdiv. apply Qfloor_comp.
  rewrite inject_Z_plus, !inject_Z_mult.
  assert (Hne : ~ (inject_Z e == 0)%Q).
  { change 0%Q with (inject_Z 0). intros H. apply inject_Z_eq in H. lia. }
  change (inject_Z 200) with 200%Q. change (inject_Z 2) with 2%Q.
  field. exact Hne.
Qed.

Lemma percentOf_bounds (d e : Z) : 0 <= d <= e -> 0 <= percentOf d e <= 100.
Proof.
  intros Hd. destruct (Z.eq_dec e 0) as [->|Hne].
  - unfold percentOf. simpl. lia.
  - rewrite percentOf_div by lia. split.
    + apply Z.div_pos; lia.
    + assert ((200 * d + e) / (2 * e) < 101); [|lia].
      apply Z.div_lt_upper_bound; lia.
Qed.

Lemma percentOf_zero (d : Z) : percentOf d 0 = 0.
Proof. reflexivity. Qed.

(** Below 200 expected points, 100 % means every point is done. *)
Lemma percentOf_full (d e : Z) :
  0 <= d <= e -> 0 < e < 200 -> (percentOf d e = 100 <-> d = e).
Proof.
  intros Hd He. rewrite percentOf_div by lia. split.
  - intros H.
    assert (Hlow : 100 * (2 * e) <= 200 * d + e).
    { rewrite <- H. rewrite Z.mul_comm. apply Z.mul_div_le. lia. }
    lia.
  - intros ->. replace (200 * e + e) with (e + 100 * (2 * e)) by lia.
    rewrite Z.div_add by lia. rewrite Z.div_small; lia.
Qed.

(** Up to 9 expected points, double-precision arithmetic gives the same
    percentage as exact arithmetic. *)
Lemma percentOfDouble_table :
  forallb (fun e =>
     forallb (fun d =>
        match percentOfDouble d e with
        | Some p => p =? percentOf d e
        | None => false
        end) (seqZ 0 (e + 1))) (seqZ 0 10) = true.
Proof. vm_compute. reflexivity. Qed.

Lemma percentOfDouble_small (d e : Z) :
  0 <= d <= e -> e <= 9 -> percentOfDouble d e = Some (percentOf d e).
Proof.
  intros Hd He.
  pose proof (proj1 (List.forallb_forall _ _) percentOfDouble_table e
                ltac:(apply in_seqZ; lia)) as Hrow.
  cbv beta in Hrow.
  pose proof (proj1 (List.forallb_forall _ _) Hrow d ltac:(apply in_seqZ; lia)) as Hcell.
  cbv beta in Hcell.
  destruct (percentOfDouble d e) as [p|]; [|discriminate Hcell].
  apply Z.eqb_eq in Hcell. now subst p.
Qed.

Lemma filter_length_le {A} (p : A -> bool) (l : list A) :
  (length (List.filter p l) <= length l)%nat.
Proof.
  induction l as [|x l IH]; simpl; [lia|]. destruct (p x); simpl; lia.
Qed.

Lemma filter_length_all {A} (p : A -> bool) (l : list A) :
  length (List.filter p l) = length l <-> (forall x, In x l -> p x = true).
Proof.
  induction l as [|x l IH]; simpl.
  - split; [intros _ x []|reflexivity].
  - pose proof (filter_length_le p l) as Hle.
    destruct (p x) eqn:Hp; simpl.
    + split.
      * intros H y [<-|Hy]; [exact Hp|]. apply IH; [lia|exact Hy].
      * intros H. f_equal. apply IH. intros y Hy. apply H. now right.
    + split; [lia|]. intros H. specialize (H x (or_introl eq_refl)). congruence.
Qed.

Lemma expectedWeighKeysFrom_length (start : Date) (weighDows : gset Z) :
  (length (expectedWeighKeysFrom start weighDows) <= 7)%nat.
Proof.
  unfold expectedWeighKeysFrom. rewrite length_map.
  etransitivity; [apply filter_length_le|].
  rewrite length_map, length_seqZ. reflexivity.
Qed.

Lemma adherence_fold_ordered (weighDows weightKeys injKeys : gset Z) (injDow : Q)
    (days : list Date) (acc : Z * Z * Z * Z) :
  countersOrdered acc ->
  countersOrdered (fold_left (adherenceStep weighDows weightKeys injKeys injDow) days acc).
Proof.
  revert acc. induction days as [|d days IH]; intros acc Hacc; simpl.
  - exact Hacc.
  - apply IH. destruct acc as [[[eW dW] eI] dI].
    unfold adherenceStep, countersOrdered in *.
    repeat match goal with
           | |- context [if ?b then _ else _] => destruct b
           end; lia.
Qed.

Lemma range_adherence_counts (now : Date) (rangeDays : Z) (settings : option Settings)
    (data : RangeData) :
  let r := computeScheduleAdherenceForRange now rangeDays settings data in
  0 <= doneWeights r <= expectedWeights r
  /\ 0 <= doneInj r <= expectedInj r
  /\ expectedPoints r = expectedWeights r * 1 + expectedInj r * 2
  /\ donePoints r = doneWeights r * 1 + doneInj r * 2
  /\ pct r = percentOfDouble (donePoints r) (expectedPoints r).
Proof.
  unfold computeScheduleAdherenceForRange.
  match goal with
  | |- context [fold_left ?f ?l ?a] =>
      pose proof (adherence_fold_ordered _ _ _ _ l a
                    ltac:(unfold countersOrdered; lia) : countersOrdered (fold_left f l a))
        as Hf;
      destruct (fold_left f l a) as [[[eW dW] eI] dI]
  end.
  unfold countersOrdered in Hf. simpl. repeat split; lia.
Qed.

(** In double precision, up to 232 expected points: the percentage is an
    integer from 0 to 100, within 1 of the exact rounding, and below 200
    expected points it is 100 only when every point is done. *)
Lemma percentOfDouble_checked :
  forallb (fun e => forallb (fun d => roundedPercentOk d e) (seqZ 0 (e + 1))) (seqZ 0 233)
  = true.
Proof. vm_compute. reflexivity. Qed.

Lemma percentOfDouble_range (d e : Z) :
  0 <= d <= e -> e <= 232 ->
  exists p, percentOfDouble d e = Some p
            /\ 0 <= p <= 100
            /\ Z.abs (p - percentOf d e) <= 1
            /\ (0 < e < 200 -> (p = 100 <-> d = e)).
Proof.
  intros Hd He.
  pose proof (proj1 (List.forallb_forall _ _) percentOfDouble_checked e
                ltac:(apply in_seqZ; lia)) as Hrow.
  cbv beta in Hrow.
  pose proof (proj1 (List.forallb_forall _ _) Hrow d ltac:(apply in_seqZ; lia)) as Hcell.
  cbv beta in Hcell. unfold roundedPercentOk in Hcell.
  destruct (percentOfDouble d e) as [p|]; [|discriminate Hcell].
  exists p. split; [reflexivity|].
  apply andb_true_iff in Hcell as (Hcell & Hfull).
  apply andb_true_iff in Hcell as (Hcell & Hnear).
  apply andb_true_iff in Hcell as (H0 & H100).
  apply Z.leb_le in H0, H100, Hnear.
  split; [lia|]. split; [exact Hnear|].
  intros Hlt.
  rewrite (proj2 (Z.ltb_lt 0 e)) in Hfull by lia.
  rewrite (proj2 (Z.ltb_lt e 200)) in Hfull by lia.
  cbn [andb] in Hfull. apply Bool.eqb_prop in Hfull.
  rewrite <- Z.eqb_eq, Hfull. apply Z.eqb_eq.
Qed.

Lemma weekly_counts (now : Date) (cache : Cache) (settings : Settings) (weekOffset : jsval) :
  let r := renderWeeklyConsistency now cache settings weekOffset in
  0 <= wc_doneWeights r <= wc_expectedWeights r
  /\ wc_expectedWeights r <= 7
  /\ 0 <= wc_doneInj r <= wc_expectedInj r
  /\ wc_expectedInj r <= 1
  /\ (wc_doneWeights r = wc_expectedWeights r <->
      forall k, In k (wc_expectedWeighKeys r) -> k ∈ weightKeys cache)
  /\ (wc_doneInj r = wc_expectedInj r <->
      forall k, wc_injKey r = Some k -> k ∈ injectionKeys cache).
Proof.
  unfold renderWeeklyConsistency.
  cbn [wc_doneWeights wc_expectedWeights wc_doneInj wc_expectedInj
       wc_expectedWeighKeys wc_injKey].
  set (keys := expectedWeighKeysFrom _ _).
  set (injKey := option_map getLocalDateKey _).
  pose proof (filter_length_le (fun k => bool_decide (k ∈ weightKeys cache)) keys) as Hle.
  pose proof (expectedWeighKeysFrom_length
                (addDays (startOfWeekMonday now) (-7 * weekOffsetOf weekOffset))
                (list_to_set (weighDaysOrDefault settings))) as H7.
  fold keys in H7.
  split; [lia|]. split; [lia|].
  split; [destruct injKey; [destruct (bool_decide _)|]; lia|].
  split; [destruct injKey; lia|]. split.
  - split.
    + intros H k Hk.
      pose proof (proj1 (filter_length_all
                           (fun k => bool_decide (k ∈ weightKeys cache)) keys)
                    ltac:(lia) k Hk) as Hb.
      cbv beta in Hb. now apply bool_decide_eq_true in Hb.
    + intros H. f_equal. apply filter_length_all.
      intros k Hk. apply bool_decide_eq_true. now apply H.
  - destruct injKey as [k|].
    + destruct (bool_decide (k ∈ injectionKeys cache)) eqn:E.
      * apply bool_decide_eq_true in E. split; [|reflexivity].
        now intros _ k' [= <-].
      * apply bool_decide_eq_false in E. split; [lia|].
        intros H. exfalso. now apply E, H.
    + split; [discriminate|reflexivity].
Qed.

(** Nothing is expected of the week of 1970-01-05 under settings without
    weigh days and with the stored weekday 2.5: the percentage is 0 although
    no expected item is missing. Under the default weigh days and the same
    stored weekday, the three weights logged give 100 % while the week has
    no application day and no application. *)
Lemma weekly_percent_nothing_expected :
  (wc_expectedPoints
     (renderWeeklyConsistency (10 * msPerDay) fullWeekCache noScheduleSettings JUndefined) = 0
   /\ wc_pct
        (renderWeeklyConsistency (10 * msPerDay) fullWeekCache noScheduleSettings JUndefined)
      = 0
   /\ allExpectedDone fullWeekCache
        (renderWeeklyConsistency (10 * msPerDay) fullWeekCache noScheduleSettings JUndefined)
   /\ ~ (wc_pct
           (renderWeeklyConsistency (10 * msPerDay) fullWeekCache noScheduleSettings
              JUndefined) = 100
         <-> allExpectedDone fullWeekCache
               (renderWeeklyConsistency (10 * msPerDay) fullWeekCache noScheduleSettings
                  JUndefined)))
  /\ (wc_pct
        (renderWeeklyConsistency (10 * msPerDay) weighedWeekCache halfDaySettings JUndefined)
      = 100
      /\ wc_injKey
           (renderWeeklyConsistency (10 * msPerDay) weighedWeekCache halfDaySettings
              JUndefined) = None
      /\ wc_doneInj
           (renderWeeklyConsistency (10 * msPerDay) weighedWeekCache halfDaySettings
              JUndefined) = 0).
Proof.
  assert (Hall : allExpectedDone fullWeekCache
            (renderWeeklyConsistency (10 * msPerDay) fullWeekCache noScheduleSettings
               JUndefined)).
  { split; intros k Hk; vm_compute in Hk.
    - destruct Hk.
    - discriminate Hk. }
  split.
  - split; [reflexivity|]. split; [reflexivity|]. split; [exact Hall|].
    intros [_ H]. specialize (H Hall). vm_compute in H. discriminate H.
  - repeat split; vm_compute; reflexivity.
Qed.


(** ** Streaks *)

Section StreakLoop.
Variable W : gset Z.

Lemma streak_loop_acc (K : gset Z) (n : nat) (d : Date) (s : Z) :
  countStreakWeights_loop W K n d s = s + countStreakWeights_loop W K n d 0.
Proof.
  revert d s. induction n as [|n IH]; intros d s; simpl.
  - lia.
  - destruct (bool_decide (getDay d ∈ W)).
    + destruct (bool_decide (getLocalDateKey d ∈ K)); [|lia].
      rewrite IH, (IH _ (0 + 1)). lia.
    + apply IH.
Qed.

Lemma streak_loop_nonneg (K : gset Z) (n : nat) (d : Date) :
  0 <= countStreakWeights_loop W K n d 0.
Proof.
  revert d. induction n as [|n IH]; intros d; simpl.
  - lia.
  - destruct (bool_decide (getDay d ∈ W)).
    + destruct (bool_decide (getLocalDateKey d ∈ K)); [|lia].
      rewrite streak_loop_acc. specialize (IH (addDays d (-1))). lia.
    + apply IH.
Qed.

Lemma lookback_length (d : Date) (n : nat) : length (lookback d n) = n.
Proof. revert d. induction n as [|n IH]; intros d; simpl; auto. Qed.

(** Days of a lookback are older and older. *)
Lemma lookback_older (d : Date) (n : nat) (x : Date) :
  In x (lookback d n) -> dayNumber x <= dayNumber d.
Proof.
  revert d. induction n as [|n IH]; intros d; simpl.
  - intros [].
  - intros [<-|Hin]; [lia|].
    apply IH in Hin. rewrite dayNumber_addDays in Hin. lia.
Qed.

(** A key that is the key of no day visited does not change the count. *)
Lemma streak_loop_other_key (K : gset Z) (k : DateKey) (n : nat) (d : Date) (s : Z) :
  (forall x, In x (lookback d n) -> getLocalDateKey x <> k) ->
  countStreakWeights_loop W ({[k]} ∪ K) n d s = countStreakWeights_loop W K n d s.
Proof.
  revert d s. induction n as [|n IH]; intros d s Hk; simpl.
  - reflexivity.
  - assert (Hd : bool_decide (getLocalDateKey d ∈ {[k]} ∪ K)
                 = bool_decide (getLocalDateKey d ∈ K)).
    { apply bool_decide_ext. specialize (Hk d (or_introl eq_refl)).
      rewrite elem_of_union, elem_of_singleton. tauto. }
    rewrite Hd.
    assert (Hrest : forall x, In x (lookback (addDays d (-1)) n) -> getLocalDateKey x <> k)
      by (intros x Hx; apply Hk; now right).
    now rewrite !(IH _ _ Hrest).
Qed.

(** The first weigh day met has no weight: the count stays where it was. *)
Lemma streak_loop_stopped (K : gset Z) (pre post : list Date) (m : Date) (n : nat)
    (d : Date) (s : Z) :
  lookback d n = pre ++ m :: post ->
  getDay m ∈ W -> Forall (fun x => getDay x ∉ W) pre -> getLocalDateKey m ∉ K ->
  countStreakWeights_loop W K n d s = s.
Proof.
  revert d n s. induction pre as [|x pre IH]; intros d n s Hl Hm Hpre HK;
    destruct n as [|n]; try discriminate Hl; simpl in Hl; injection Hl as Hd Hl;
    subst d.
  - simpl. now rewrite bool_decide_eq_true_2, bool_decide_eq_false_2.
  - simpl. rewrite bool_decide_eq_false_2 by exact (Forall_inv Hpre).
    apply (IH _ _ _ Hl Hm (Forall_inv_tail Hpre) HK).
Qed.

(** Logging the day at which the scan stopped: the count goes on from the
    day before it. *)
Lemma streak_loop_extended (K : gset Z) (pre post : list Date) (g : Date) (n : nat)
    (d : Date) (s : Z) :
  lookback d n = pre ++ g :: post ->
  getDay g ∈ W -> getLocalDateKey g ∉ K ->
  Forall (fun x => getDay x ∈ W -> getLocalDateKey x ∈ K) pre ->
  countStreakWeights_loop W ({[getLocalDateKey g]} ∪ K) n d s
  = countStreakWeights_loop W K n d s + 1
    + countStreakWeights_loop W K (length post) (addDays g (-1)) 0.
Proof.
  revert d n s. induction pre as [|x pre IH]; intros d n s Hl Hg HK Hpre;
    destruct n as [|n]; try discriminate Hl; simpl in Hl; injection Hl as Hd Hl;
    subst d.
  - subst post. simpl.
    rewrite bool_decide_eq_true_2 by exact Hg.
    rewrite bool_decide_eq_true_2 by set_solver.
    rewrite bool_decide_eq_false_2 by exact HK.
    rewrite streak_loop_other_key.
    + rewrite streak_loop_acc, lookback_length. lia.
    + intros x Hx. apply lookback_older in Hx.
      rewrite dayNumber_addDays in Hx. unfold getLocalDateKey. lia.
  - simpl. destruct (bool_decide (getDay x ∈ W)) eqn:Hs.
    + apply bool_decide_eq_true in Hs.
      pose proof (Forall_inv Hpre Hs) as Hx.
      rewrite bool_decide_eq_true_2 by set_solver.
      rewrite bool_decide_eq_true_2 by exact Hx.
      apply (IH _ _ _ Hl Hg HK (Forall_inv_tail Hpre)).
    + apply (IH _ _ _ Hl Hg HK (Forall_inv_tail Hpre)).
Qed.

End StreakLoop.

(** The count is the number of weigh days among the days scanned. *)
Lemma streak_loop_scanned (settings : Settings) (cache : Cache) (n : nat) (d : Date) :
  countStreakWeights_loop (list_to_set (weighDaysOrDefault settings)) (weightKeys cache) n d 0
  = Z.of_nat (length (List.filter (isWeighDay settings)
                        (scanned settings cache (lookback d n)))).
Proof.
  revert d. induction n as [|n IH]; intros d.
  - reflexivity.
  - cbn [countStreakWeights_loop lookback scanned].
    change (bool_decide (getDay d ∈ list_to_set (weighDaysOrDefault settings)))
      with (isWeighDay settings d).
    change (bool_decide (getLocalDateKey d ∈ weightKeys cache)) with (isWeighed cache d).
    destruct (isWeighDay settings d) eqn:Hs, (isWeighed cache d) eqn:Hw;
      cbn [andb negb List.filter]; rewrite ?Hs; cbn [length].
    + rewrite streak_loop_acc, IH. lia.
    + reflexivity.
    + apply IH.
    + apply IH.
Qed.


Lemma lookback_tail (pre post : list Date) (g : Date) (n : nat) (d : Date) :
  lookback d n = pre ++ g :: post -> post = lookback (addDays g (-1)) (length post).
Proof.
  revert d n. induction pre as [|x pre IH]; intros d n Hl;
    destruct n as [|n]; try discriminate Hl; simpl in Hl; injection Hl as Hd Hl.
  - subst d post. now rewrite lookback_length.
  - exact (IH _ _ Hl).
Qed.

(** No weigh day among the days visited: nothing is counted. *)
Lemma streak_loop_idle (W K : gset Z) (n : nat) (d : Date) (s : Z) :
  Forall (fun x => getDay x ∉ W) (lookback d n) ->
  countStreakWeights_loop W K n d s = s.
Proof.
  revert d s. induction n as [|n IH]; intros d s Hidle; simpl.
  - reflexivity.
  - simpl in Hidle. rewrite bool_decide_eq_false_2 by exact (Forall_inv Hidle).
    apply IH. exact (Forall_inv_tail Hidle).
Qed.

Lemma weightKeys_addWeight (rec : Weight.t) (w : World) :
  weightKeys (cacheOf (addWeight rec w))
  = {[getLocalDateKey (Weight.dateTimeISO rec)]} ∪ weightKeys (cacheOf w).
Proof. reflexivity. Qed.

Lemma weightKeys_removeWeightsOn (k : DateKey) (w : World) :
  k ∉ weightKeys (cacheOf (removeWeightsOn k w)).
Proof.
  unfold cacheOf, removeWeightsOn, buildChecklistCache, bind, getAllWeights; simpl.
  rewrite elem_of_list_to_set, list_elem_of_In, List.in_map_iff.
  intros (r & Hk & Hin). apply List.filter_In in Hin as [_ Hne].
  apply negb_true_iff, Z.eqb_neq in Hne. contradiction.
Qed.

Lemma isWeighDay_spec (settings : Settings) (d : Date) :
  isWeighDay settings d = true <-> getDay d ∈ (list_to_set (weighDaysOrDefault settings) : gset Z).
Proof. apply bool_decide_eq_true. Qed.

Lemma isWeighDay_false (settings : Settings) (d : Date) :
  isWeighDay settings d = false <-> getDay d ∉ (list_to_set (weighDaysOrDefault settings) : gset Z).
Proof. apply bool_decide_eq_false. Qed.

(** The Wednesday is the weigh day at which the scan of [gapWorld] stops;
    logging it joins the Friday to the Monday already logged, and the
    streak goes from 1 to 3. *)
Lemma weigh_streak_gap_fill_adds_two :
  weighStreak gapWorld 120 = 1
  /\ scanned (settingsOf gapWorld) (cacheOf gapWorld)
       (lookback (startOfDay (clock gapWorld)) 120)
     = [8 * msPerDay; 7 * msPerDay]
  /\ isWeighDay (settingsOf gapWorld) (6 * msPerDay) = true
  /\ isWeighed (cacheOf gapWorld) (6 * msPerDay) = false
  /\ getLocalDateKey (Weight.dateTimeISO wednesdayWeight) = getLocalDateKey (6 * msPerDay)
  /\ weighStreak (addWeight wednesdayWeight gapWorld) 120 = 3
  /\ weighStreak (addWeight wednesdayWeight gapWorld) 120 <> weighStreak gapWorld 120 + 1.
Proof.
  repeat split; try (vm_compute; reflexivity).
  vm_compute. discriminate.
Qed.

(** C3 (amended). The weigh-in streak is the number of weigh days among
    the days a backward, day-by-day scan from today passes before it stops
    at the first weigh day without a weight: days that are not weigh days
    are passed without breaking the streak. The streak is 0 once the weight
    records of the most recent weigh day are removed. Adding a weight
    record on the weigh day at which the scan stopped raises the streak by
    1 plus what the scan then counts from the day before that day: by at
    least 1, and by exactly 1 when the next weigh day further back has no
    weight or the window has no further weigh day. *)
Theorem weigh_streak_scan (w : World) (n : nat) :
  weighStreak w n
  = Z.of_nat (length (List.filter (isWeighDay (settingsOf w))
                        (scanned (settingsOf w) (cacheOf w)
                           (lookback (startOfDay (clock w)) n))))
  /\ (forall pre m post,
        lookback (startOfDay (clock w)) n = pre ++ m :: post ->
        isWeighDay (settingsOf w) m = true ->
        Forall (fun x => isWeighDay (settingsOf w) x = false) pre ->
        weighStreak (removeWeightsOn (getLocalDateKey m) w) n = 0)
  /\ (forall pre g post rec,
        lookback (startOfDay (clock w)) n = pre ++ g :: post ->
        isWeighDay (settingsOf w) g = true ->
        isWeighed (cacheOf w) g = false ->
        Forall (fun x => isWeighDay (settingsOf w) x = true -> isWeighed (cacheOf w) x = true)
          pre ->
        getLocalDateKey (Weight.dateTimeISO rec) = getLocalDateKey g ->
        weighStreak (addWeight rec w) n
        = weighStreak w n + 1 + weighStreakFrom w (addDays g (-1)) (length post)
        /\ weighStreak w n + 1 <= weighStreak (addWeight rec w) n
        /\ (forall pre' m' post',
              post = pre' ++ m' :: post' ->
              isWeighDay (settingsOf w) m' = true ->
              isWeighed (cacheOf w) m' = false ->
              Forall (fun x => isWeighDay (settingsOf w) x = false) pre' ->
              weighStreak (addWeight rec w) n = weighStreak w n + 1)
        /\ (Forall (fun x => isWeighDay (settingsOf w) x = false) post ->
            weighStreak (addWeight rec w) n = weighStreak w n + 1)).
Proof.
  split; [apply streak_loop_scanned|]. split.
  - intros pre m post Hl Hm Hpre.
    unfold weighStreak, countStreakWeights.
    apply (streak_loop_stopped _ _ pre post m n _ 0 Hl).
    + now apply isWeighDay_spec.
    + eapply List.Forall_impl; [|exact Hpre]. intros x Hx. now apply isWeighDay_false.
    + apply weightKeys_removeWeightsOn.
  - intros pre g post rec Hl Hg Hnot Hpre Hkey.
    assert (Hgw : getLocalDateKey g ∉ weightKeys (cacheOf w))
      by (now apply bool_decide_eq_false in Hnot).
    assert (Hext : weighStreak (addWeight rec w) n
                   = weighStreak w n + 1 + weighStreakFrom w (addDays g (-1)) (length post)).
    { unfold weighStreak, weighStreakFrom, countStreakWeights.
      rewrite weightKeys_addWeight, Hkey.
      apply (streak_loop_extended _ _ pre post g n _ 0 Hl).
      - now apply isWeighDay_spec.
      - exact Hgw.
      - eapply List.Forall_impl; [|exact Hpre]. intros x Hx Hs.
        apply isWeighDay_spec in Hs. apply Hx in Hs.
        now apply bool_decide_eq_true in Hs. }
    pose proof (streak_loop_nonneg (list_to_set (weighDaysOrDefault (settingsOf w)))
                  (weightKeys (cacheOf w)) (length post) (addDays g (-1))) as Hpos.
    fold (weighStreakFrom w (addDays g (-1)) (length post)) in Hpos.
    pose proof (lookback_tail pre post g n _ Hl) as Hpost.
    split; [exact Hext|]. split; [lia|]. split.
    + intros pre' m' post' Hsplit Hm' Hnot' Hpre'.
      rewrite Hext. unfold weighStreakFrom.
      rewrite (streak_loop_stopped _ _ pre' post' m' (length post) (addDays g (-1)) 0).
      * lia.
      * now rewrite <- Hpost.
      * now apply isWeighDay_spec.
      * eapply List.Forall_impl; [|exact Hpre']. intros x Hx. now apply isWeighDay_false.
      * now apply bool_decide_eq_false in Hnot'.
    + intros Hidle. rewrite Hext. unfold weighStreakFrom.
      rewrite streak_loop_idle; [lia|].
      rewrite <- Hpost. eapply List.Forall_impl; [|exact Hidle].
      intros x Hx. now apply isWeighDay_false.
Qed.

(** In [gapWorld] the scan stops at the Wednesday; logging it, or removing
    the weight of the Friday, changes the streak as stated. *)
Lemma weigh_streak_scan_witness :
  (lookback (startOfDay (clock gapWorld)) 120
   = [8 * msPerDay; 7 * msPerDay] ++ 6 * msPerDay :: lookback (5 * msPerDay) 117
   /\ isWeighDay (settingsOf gapWorld) (6 * msPerDay) = true
   /\ isWeighed (cacheOf gapWorld) (6 * msPerDay) = false)
  /\ weighStreak (addWeight wednesdayWeight gapWorld) 120
     = weighStreak gapWorld 120 + 1
       + weighStreakFrom gapWorld (addDays (6 * msPerDay) (-1))
           (length (lookback (5 * msPerDay) 117))
  /\ weighStreak (removeWeightsOn (getLocalDateKey (8 * msPerDay)) gapWorld) 120 = 0.
Proof.
  assert (Hl : lookback (startOfDay (clock gapWorld)) 120
               = [8 * msPerDay; 7 * msPerDay] ++ 6 * msPerDay :: lookback (5 * msPerDay) 117)
    by reflexivity.
  assert (Hg : isWeighDay (settingsOf gapWorld) (6 * msPerDay) = true) by reflexivity.
  assert (Hn : isWeighed (cacheOf gapWorld) (6 * msPerDay) = false) by reflexivity.
  pose proof (weigh_streak_scan gapWorld 120) as (_ & Hrem & Hadd).
  split; [repeat split; assumption|]. split.
  - refine (proj1 (Hadd _ _ _ wednesdayWeight Hl Hg Hn _ eq_refl)).
    constructor; [intros _; reflexivity|].
    constructor; [intros H; vm_compute in H; discriminate H|constructor].
  - refine (Hrem [] (8 * msPerDay) (lookback (7 * msPerDay) 119) eq_refl eq_refl _).
    constructor.
Defined.

(** * Further properties of the code *)

(** ** Weeks *)

Lemma dayNumber_startOfWeekMonday (t : Date) :
  dayNumber (startOfWeekMonday t) = dayNumber t - (dayNumber t + 3) mod 7.
Proof.
  unfold startOfWeekMonday. rewrite dayNumber_addDays, dayNumber_startOfDay.
  unfold getDay. rewrite dayNumber_startOfDay.
  pose proof (Z.mod_pos_bound (dayNumber t + 4) 7 ltac:(lia)).
  pose proof (Z.mod_pos_bound (dayNumber t + 3) 7 ltac:(lia)).
  pose proof (Z.div_mod (dayNumber t + 4) 7 ltac:(lia)).
  pose proof (Z.div_mod (dayNumber t + 3) 7 ltac:(lia)).
  pose proof (Z.mod_pos_bound ((dayNumber t + 4) mod 7 + 6) 7 ltac:(lia)).
  pose proof (Z.div_mod ((dayNumber t + 4) mod 7 + 6) 7 ltac:(lia)).
  lia.
Qed.

Lemma getDay_startOfDay (t : Date) : getDay (startOfDay t) = getDay t.
Proof. unfold getDay. now rewrite dayNumber_startOfDay. Qed.

Lemma startOfWeekMonday_midnight (t : Date) :
  startOfWeekMonday t = dayNumber (startOfWeekMonday t) * msPerDay.
Proof.
  rewrite dayNumber_startOfWeekMonday.
  unfold startOfWeekMonday. rewrite getDay_startOfDay.
  unfold addDays, startOfDay, atTimeOfDay, getDay.
  assert (E : ((dayNumber t + 4) mod 7 + 6) mod 7 = (dayNumber t + 3) mod 7).
  { pose proof (Z.mod_pos_bound (dayNumber t + 4) 7 ltac:(lia)).
    pose proof (Z.mod_pos_bound (dayNumber t + 3) 7 ltac:(lia)).
    pose proof (Z.div_mod (dayNumber t + 4) 7 ltac:(lia)).
    pose proof (Z.div_mod (dayNumber t + 3) 7 ltac:(lia)).
    pose proof (Z.mod_pos_bound ((dayNumber t + 4) mod 7 + 6) 7 ltac:(lia)).
    pose proof (Z.div_mod ((dayNumber t + 4) mod 7 + 6) 7 ltac:(lia)).
    lia. }
  rewrite E. lia.
Qed.

Lemma startOfWeekMonday_iff (s t : Date) :
  startOfWeekMonday t = s
  <-> getDay s = 1 /\ s mod msPerDay = 0 /\ s <= t < s + 7 * msPerDay.
Proof.
  pose proof msPerDay_pos as Hp.
  pose proof (startOfWeekMonday_midnight t) as Hm.
  pose proof (dayNumber_startOfWeekMonday t) as Hd.
  pose proof (Z.mod_pos_bound (dayNumber t + 3) 7 ltac:(lia)) as Hb.
  pose proof (Z.div_mod (dayNumber t + 3) 7 ltac:(lia)) as Hq.
  pose proof (Z.div_mod t msPerDay ltac:(lia)) as Ht.
  pose proof (Z.mod_pos_bound t msPerDay Hp) as Htb.
  fold (dayNumber t) in Ht.
  split.
  - intros <-. repeat split.
    + unfold getDay. rewrite Hd.
      pose proof (Z.mod_pos_bound (dayNumber t - (dayNumber t + 3) mod 7 + 4) 7 ltac:(lia)).
      pose proof (Z.div_mod (dayNumber t - (dayNumber t + 3) mod 7 + 4) 7 ltac:(lia)).
      lia.
    + rewrite Hm. apply Z.mod_mul. lia.
    + rewrite Hm, Hd. nia.
    + rewrite Hm, Hd. nia.
  - intros (Hg & Hs & Hle & Hlt).
    pose proof (Z.div_mod s msPerDay ltac:(lia)) as Hsd.
    fold (dayNumber s) in Hsd. rewrite Hs, Z.add_0_r in Hsd.
    unfold getDay in Hg.
    pose proof (Z.div_mod (dayNumber s + 4) 7 ltac:(lia)) as Hs7.
    rewrite Hg in Hs7.
    assert (Hds : dayNumber s <= dayNumber t < dayNumber s + 7) by nia.
    assert (He : dayNumber t - (dayNumber t + 3) mod 7 = dayNumber s) by lia.
    rewrite Hm, Hd, He. lia.
Qed.

(** X1. [startOfWeekMonday] gives the midnight that opens the Monday-first
    week of its argument: the result falls on a Monday, at 00:00:00.000,
    is at or before the argument and less than seven days before it; and
    the function changes nothing on its own results. *)
Theorem startOfWeekMonday_opens_week (t : Date) :
  getDay (startOfWeekMonday t) = 1
  /\ startOfWeekMonday t mod msPerDay = 0
  /\ startOfWeekMonday t <= t < startOfWeekMonday t + 7 * msPerDay
  /\ startOfWeekMonday (startOfWeekMonday t) = startOfWeekMonday t
  /\ (forall u, startOfWeekMonday t <= u <= t -> startOfWeekMonday u = startOfWeekMonday t).
Proof.
  destruct (proj1 (startOfWeekMonday_iff (startOfWeekMonday t) t) eq_refl) as (Hg & Hm & Hr).
  repeat split; try assumption; try lia.
  - apply startOfWeekMonday_iff. repeat split; try assumption; lia.
  - intros u Hu. apply startOfWeekMonday_iff. repeat split; try assumption; lia.
Qed.

Lemma endOfWeekSunday_last_ms (s : Date) :
  s mod msPerDay = 0 -> endOfWeekSunday s = s + 7 * msPerDay - 1.
Proof.
  intros Hs. unfold endOfWeekSunday. rewrite dayNumber_addDays.
  pose proof (Z.div_mod s msPerDay ltac:(discriminate)) as Hsd.
  fold (dayNumber s) in Hsd. rewrite Hs, Z.add_0_r in Hsd.
  unfold msPerDay in *. lia.
Qed.

(** X2. [endOfWeekSunday] closes the week that [startOfWeekMonday] opens:
    given a week start, it is the last millisecond of the Sunday six days
    later, one millisecond before the next week start, and an instant lies
    between the two bounds exactly when its own week starts at the same
    Monday. *)
Theorem endOfWeekSunday_closes_week (t0 t : Date) :
  let start := startOfWeekMonday t0 in
  getDay (endOfWeekSunday start) = 0
  /\ endOfWeekSunday start = start + 7 * msPerDay - 1
  /\ startOfWeekMonday (endOfWeekSunday start + 1) = endOfWeekSunday start + 1
  /\ (start <= t <= endOfWeekSunday start <-> startOfWeekMonday t = start).
Proof.
  intros start.
  destruct (proj1 (startOfWeekMonday_iff start t0) eq_refl) as (Hg & Hm & Hr).
  pose proof (endOfWeekSunday_last_ms start Hm) as He.
  pose proof msPerDay_pos as Hp.
  pose proof (Z.div_mod start msPerDay ltac:(lia)) as Hsd.
  fold (dayNumber start) in Hsd. rewrite Hm, Z.add_0_r in Hsd.
  assert (Hdn : dayNumber (start + 7 * msPerDay) = dayNumber start + 7).
  { change (start + 7 * msPerDay) with (addDays start 7). apply dayNumber_addDays. }
  split; [|split; [exact He|split]].
  - unfold getDay in *. rewrite He.
    assert (Hd : dayNumber (start + 7 * msPerDay - 1) = dayNumber start + 6).
    { unfold dayNumber at 1. symmetry. apply (Z.div_unique _ _ _ (msPerDay - 1)); lia. }
    rewrite Hd.
    pose proof (Z.div_mod (dayNumber start + 4) 7 ltac:(lia)).
    pose proof (Z.div_mod (dayNumber start + 6 + 4) 7 ltac:(lia)).
    pose proof (Z.mod_pos_bound (dayNumber start + 6 + 4) 7 ltac:(lia)).
    lia.
  - rewrite He. apply startOfWeekMonday_iff. repeat split; try lia.
    + replace (start + 7 * msPerDay - 1 + 1) with (start + 7 * msPerDay) by lia.
      unfold getDay in *. rewrite Hdn.
      pose proof (Z.div_mod (dayNumber start + 4) 7 ltac:(lia)).
      pose proof (Z.div_mod (dayNumber start + 7 + 4) 7 ltac:(lia)).
      pose proof (Z.mod_pos_bound (dayNumber start + 7 + 4) 7 ltac:(lia)).
      lia.
    + replace (start + 7 * msPerDay - 1 + 1) with (start + 7 * msPerDay) by lia.
      rewrite Z.mod_add by lia. exact Hm.
  - rewrite He. rewrite startOfWeekMonday_iff. intuition lia.
Qed.

(** ** [clampNumber] *)

Lemma clampNumber_num (q lo hi : Q) :
  clampNumber (JNum (Num q)) lo hi = Qmin hi (Qmax lo q).
Proof. reflexivity. Qed.

Lemma clamp_cases (q lo hi : Q) :
  (lo <= hi)%Q ->
  ((q <= lo)%Q /\ (Qmin hi (Qmax lo q) == lo)%Q)
  \/ ((lo <= q <= hi)%Q /\ (Qmin hi (Qmax lo q) == q)%Q)
  \/ ((hi <= q)%Q /\ (Qmin hi (Qmax lo q) == hi)%Q).
Proof.
  intros Hlh.
  destruct (Q.max_spec lo q) as [[H1 E1]|[H1 E1]];
    destruct (Q.min_spec hi (Qmax lo q)) as [[H2 E2]|[H2 E2]];
    rewrite E1 in *; rewrite E2.
  - right; right. split; [lra|reflexivity].
  - right; left. split; [lra|reflexivity].
  - right; right. split; [lra|reflexivity].
  - left. split; [lra|reflexivity].
Qed.

(** X3. [clampNumber] is a projection onto the interval: with
    [min <= max] a number already inside comes back unchanged, clamping
    twice is clamping once, and the order of two numbers is kept; with
    the bounds the wrong way round every number comes back as [max]. *)
Theorem clampNumber_projection (lo hi : Q) :
  ((lo <= hi)%Q ->
     (forall q, (lo <= q <= hi)%Q -> (clampNumber (JNum (Num q)) lo hi == q)%Q)
     /\ (forall v, (clampNumber (JNum (Num (clampNumber v lo hi))) lo hi
                    == clampNumber v lo hi)%Q)
     /\ (forall q1 q2, (q1 <= q2)%Q ->
           (clampNumber (JNum (Num q1)) lo hi <= clampNumber (JNum (Num q2)) lo hi)%Q))
  /\ ((hi < lo)%Q -> forall q, (clampNumber (JNum (Num q)) lo hi == hi)%Q).
Proof.
  split.
  - intros Hlh. split; [|split].
    + intros q Hq. rewrite clampNumber_num.
      destruct (clamp_cases q lo hi Hlh) as [[H E]|[[H E]|[H E]]]; rewrite E; lra.
    + intros v. rewrite clampNumber_num.
      pose proof (clampNumber_range v lo hi Hlh) as Hr.
      destruct (clamp_cases (clampNumber v lo hi) lo hi Hlh) as [[H E]|[[H E]|[H E]]];
        rewrite E; lra.
    + intros q1 q2 Hq. rewrite !clampNumber_num.
      destruct (clamp_cases q1 lo hi Hlh) as [[H1 E1]|[[H1 E1]|[H1 E1]]];
        destruct (clamp_cases q2 lo hi Hlh) as [[H2 E2]|[[H2 E2]|[H2 E2]]];
        rewrite E1, E2; lra.
  - intros Hlt q. rewrite clampNumber_num.
    destruct (Q.max_spec lo q) as [[H1 E1]|[H1 E1]];
      destruct (Q.min_spec hi (Qmax lo q)) as [[H2 E2]|[H2 E2]];
      rewrite E1 in *; rewrite E2; lra.
Qed.

Lemma clampNumber_projection_witness :
  (0 <= 6)%Q /\ (clampNumber (JNum (Num (5 # 2))) 0 6 == 5 # 2)%Q
  /\ (6 < 7)%Q /\ (clampNumber (JNum (Num 100)) 7 6 == 6)%Q.
Proof.
  assert (H06 : (0 <= 6)%Q) by (unfold Qle; simpl; lia).
  assert (H67 : (6 < 7)%Q) by reflexivity.
  split; [exact H06|]. split.
  - apply (proj1 (proj1 (clampNumber_projection 0 6) H06)).
    split; unfold Qle; simpl; lia.
  - split; [exact H67|]. apply (proj2 (clampNumber_projection 7 6) H67).
Defined.

(** ** Rotation of the application site *)

(** The first element of a list sorted latest first is the record that is
    strictly later than every other one. *)
Lemma sort_desc_head {A} (key : A -> Z) (l : list A) (x : A) :
  In x l -> (forall y, In y l -> y = x \/ key y < key x) ->
  head (sort (fun a b => key b - key a) l) = Some x.
Proof.
  intros Hx Hmax.
  pose proof (sort_sorted (fun a b => key b - key a) ltac:(intros; lia) l) as Hs.
  apply Sorted_StronglySorted in Hs; [|intros a b c; lia].
  pose proof (proj2 (sort_in (fun a b => key b - key a) l x) Hx) as Hin.
  destruct (sort (fun a b => key b - key a) l) as [|h tl] eqn:E; [destruct Hin|].
  simpl. f_equal.
  assert (Hh : In h l) by (apply (sort_in (fun a b => key b - key a)); rewrite E; now left).
  destruct (Hmax h Hh) as [->|Hlt]; [reflexivity|].
  destruct Hin as [->|Hin]; [reflexivity|].
  inversion Hs as [|? ? _ Hall]; subst.
  rewrite List.Forall_forall in Hall. specialize (Hall x Hin). simpl in Hall. lia.
Qed.

Lemma indexOf_cons (x : string) (rest : list string) (s : string) :
  indexOf (x :: rest) s
  = if String.eqb x s then Some O else option_map S (indexOf rest s).
Proof. reflexivity. Qed.

(** What [getNextInjectionSite] returns, read off the site of the first
    record after sorting. *)
Lemma getNextInjectionSite_table (injections : list Application.t) (flag : jsval) :
  getNextInjectionSite injections flag
  = Some match head (sort (fun a b => sortByDateTimeDesc (Application.dateTimeISO a)
                                        (Application.dateTimeISO b)) injections) with
         | None => "abdomen_right"%string
         | Some last => siteAfter (truthy flag) (Application.site last)
         end.
Proof.
  unfold getNextInjectionSite, getRotationSites, ROTATION_SITES_DEFAULT.
  destruct (head _) as [last|]; [|now destruct (truthy flag)].
  cbv zeta. unfold siteAfter.
  destruct (String.eqb_spec (Application.site last) "") as [->|_].
  { now destruct (truthy flag). }
  destruct (truthy flag).
  - rewrite !indexOf_cons.
    destruct (String.eqb "abdomen_right" _); [reflexivity|].
    destruct (String.eqb "abdomen_left" _); [reflexivity|].
    destruct (String.eqb "thigh_right" _); [reflexivity|].
    destruct (String.eqb "thigh_left" _); [reflexivity|].
    destruct (String.eqb "arm_right" _); [reflexivity|].
    destruct (String.eqb "arm_left" _); reflexivity.
  - change (take 4 _) with ["abdomen_right"; "abdomen_left"; "thigh_right"; "thigh_left"]%string.
    rewrite !indexOf_cons.
    destruct (String.eqb "abdomen_right" _); [reflexivity|].
    destruct (String.eqb "abdomen_left" _); [reflexivity|].
    destruct (String.eqb "thigh_right" _); [reflexivity|].
    destruct (String.eqb "thigh_left" _); [reflexivity|].
    destruct (String.eqb "arm_right" _); reflexivity.
Qed.

Lemma siteAfter_in_rotation (flag : jsval) (s : string) :
  In (siteAfter (truthy flag) s) (getRotationSites flag).
Proof.
  unfold siteAfter, getRotationSites, ROTATION_SITES_DEFAULT.
  destruct (truthy flag);
    [|change (take 4 _) with ["abdomen_right"; "abdomen_left"; "thigh_right"; "thigh_left"]%string];
    repeat (match goal with |- context [String.eqb ?a s] => destruct (String.eqb a s) end);
    simpl; tauto.
Qed.

Lemma siteAfter_moves (b : bool) (s : string) : siteAfter b s <> s.
Proof.
  unfold siteAfter.
  repeat (match goal with
          | |- context [String.eqb ?a s] => destruct (String.eqb_spec a s); [subst s|]
          end);
    try (destruct b; discriminate).
  congruence.
Qed.

Lemma latestTime_bound (injections : list Application.t) (r : Application.t) :
  In r injections -> Application.dateTimeISO r <= latestTime injections.
Proof.
  unfold latestTime. induction injections as [|a l IH]; [intros []|].
  intros [->|Hr]; simpl; [lia|]. specialize (IH Hr). lia.
Qed.

Lemma getNextInjectionSite_latest (injections : list Application.t) (flag : jsval)
    (last : Application.t) :
  In last injections ->
  (forall r, In r injections ->
             r = last \/ Application.dateTimeISO r < Application.dateTimeISO last) ->
  getNextInjectionSite injections flag
  = Some (siteAfter (truthy flag) (Application.site last)).
Proof.
  intros Hin Hmax. rewrite getNextInjectionSite_table.
  unfold sortByDateTimeDesc.
  now rewrite (sort_desc_head Application.dateTimeISO injections last Hin Hmax).
Qed.

Lemma getNextInjectionSite_logSuggested (injections : list Application.t) (flag : jsval)
    (s : string) :
  getNextInjectionSite injections flag = Some s ->
  getNextInjectionSite (logSuggested flag injections) flag
  = Some (siteAfter (truthy flag) s).
Proof.
  intros Hs. unfold logSuggested. rewrite Hs.
  set (rec := {| Application.dateTimeISO := latestTime injections + 1;
                 Application.site := s |}).
  rewrite (getNextInjectionSite_latest _ flag rec); [reflexivity| |].
  - apply in_or_app. right. now left.
  - intros r Hr. apply in_app_or in Hr. destruct Hr as [Hr|[<-|[]]]; [|now left].
    right. pose proof (latestTime_bound injections r Hr). simpl. lia.
Qed.

Lemma suggestion_iter (injections : list Application.t) (flag : jsval) (s0 : string) (k : nat) :
  getNextInjectionSite injections flag = Some s0 ->
  getNextInjectionSite (Nat.iter k (logSuggested flag) injections) flag
  = Some (Nat.iter k (siteAfter (truthy flag)) s0).
Proof.
  intros H0. induction k as [|k IH]; [exact H0|].
  simpl. now apply getNextInjectionSite_logSuggested.
Qed.

(** X4. The suggested site follows the site of the latest application in
    the rotation: when one record is strictly later than all the others,
    the suggestion is the table entry after its site, whatever the order
    of the list; it is a site of the rotation, so never an arm site while
    arm sites are disabled, and never the site of that latest application.
    Without any application the first site is suggested. *)
Theorem getNextInjectionSite_follows_latest (injections : list Application.t)
    (flag : jsval) (last : Application.t) :
  In last injections ->
  (forall r, In r injections ->
             r = last \/ Application.dateTimeISO r < Application.dateTimeISO last) ->
  getNextInjectionSite injections flag
  = Some (siteAfter (truthy flag) (Application.site last))
  /\ In (siteAfter (truthy flag) (Application.site last)) (getRotationSites flag)
  /\ siteAfter (truthy flag) (Application.site last) <> Application.site last
  /\ (truthy flag = false ->
      siteAfter (truthy flag) (Application.site last) <> "arm_right"%string
      /\ siteAfter (truthy flag) (Application.site last) <> "arm_left"%string)
  /\ getNextInjectionSite [] flag = Some "abdomen_right"%string.
Proof.
  intros Hin Hmax. split; [now apply getNextInjectionSite_latest|].
  split; [apply siteAfter_in_rotation|]. split; [apply siteAfter_moves|]. split.
  - intros Hf. pose proof (siteAfter_in_rotation flag (Application.site last)) as H.
    unfold getRotationSites, ROTATION_SITES_DEFAULT in H. rewrite Hf in *.
    change (take 4 _) with ["abdomen_right"; "abdomen_left"; "thigh_right"; "thigh_left"]%string
      in H.
    simpl in H. split; intros E; rewrite E in H;
      repeat (destruct H as [H|H]; [discriminate H|]); exact H.
  - now rewrite getNextInjectionSite_table.
Qed.

Lemma getNextInjectionSite_follows_latest_witness :
  getNextInjectionSite twoApplications (JBool false) = Some "abdomen_right"%string
  /\ getNextInjectionSite twoApplications (JBool true) = Some "arm_right"%string.
Proof.
  assert (Hin : In {| Application.dateTimeISO := 691200000;
                      Application.site := "thigh_left" |} twoApplications)
    by (right; left; reflexivity).
  assert (Hmax : forall r, In r twoApplications ->
            r = {| Application.dateTimeISO := 691200000; Application.site := "thigh_left" |}
            \/ Application.dateTimeISO r < 691200000).
  { intros r [<-|[<-|[]]]; [right; reflexivity|left; reflexivity]. }
  split.
  - exact (proj1 (getNextInjectionSite_follows_latest twoApplications (JBool false) _ Hin Hmax)).
  - exact (proj1 (getNextInjectionSite_follows_latest twoApplications (JBool true) _ Hin Hmax)).
Defined.

(** X5. Following the suggestion goes round the rotation: starting from
    any list of applications, if each suggested site is logged later than
    everything before it, then the next suggestions, as many as the
    rotation has sites, are the sites of the rotation, each once, and the
    suggestions repeat with that period. *)
Theorem rotation_visits_every_site (injections : list Application.t) (flag : jsval) :
  let rotation := getRotationSites flag in
  let suggestion k :=
    getNextInjectionSite (Nat.iter k (logSuggested flag) injections) flag in
  Permutation (map suggestion (seq 0 (length rotation))) (map Some rotation)
  /\ forall k, suggestion (k + length rotation)%nat = suggestion k.
Proof.
  intros rotation suggestion.
  pose proof (getNextInjectionSite_table injections flag) as H0.
  set (s0 := match head _ with None => _ | Some _ => _ end) in H0.
  assert (Hs0 : In s0 rotation).
  { subst s0 rotation. destruct (head _).
    - apply siteAfter_in_rotation.
    - unfold getRotationSites, ROTATION_SITES_DEFAULT. destruct (truthy flag); now left. }
  assert (Hk : forall k, suggestion k = Some (Nat.iter k (siteAfter (truthy flag)) s0)).
  { intros k. now apply suggestion_iter. }
  clearbody s0. clear H0.
  split.
  - rewrite (map_ext _ _ Hk).
    subst rotation. unfold getRotationSites, ROTATION_SITES_DEFAULT in *.
    destruct (truthy flag).
    + simpl in Hs0.
      destruct Hs0 as [<-|[<-|[<-|[<-|[<-|[<-|[]]]]]]]; vm_compute map.
      * reflexivity.
      * apply (Permutation_app_comm [_; _; _; _; _] [_]).
      * apply (Permutation_app_comm [_; _; _; _] [_; _]).
      * apply (Permutation_app_comm [_; _; _] [_; _; _]).
      * apply (Permutation_app_comm [_; _] [_; _; _; _]).
      * apply (Permutation_app_comm [_] [_; _; _; _; _]).
    + change (take 4 _) with ["abdomen_right"; "abdomen_left"; "thigh_right"; "thigh_left"]%string
        in *.
      simpl in Hs0.
      destruct Hs0 as [<-|[<-|[<-|[<-|[]]]]]; vm_compute map.
      * reflexivity.
      * apply (Permutation_app_comm [_; _; _] [_]).
      * apply (Permutation_app_comm [_; _] [_; _]).
      * apply (Permutation_app_comm [_] [_; _; _]).
  - intros k. rewrite !Hk. f_equal. rewrite Nat.iter_add. f_equal.
    subst rotation. unfold getRotationSites, ROTATION_SITES_DEFAULT in *.
    destruct (truthy flag).
    + simpl in Hs0.
      destruct Hs0 as [<-|[<-|[<-|[<-|[<-|[<-|[]]]]]]]; reflexivity.
    + change (take 4 _) with ["abdomen_right"; "abdomen_left"; "thigh_right"; "thigh_left"]%string
        in *.
      simpl in Hs0.
      destruct Hs0 as [<-|[<-|[<-|[<-|[]]]]]; reflexivity.
Qed.

(** ** The weekly reminder *)

Lemma isInteger_integral (q : Q) (k : Z) : (q == inject_Z k)%Q -> isInteger q = true.
Proof.
  intros Hq. unfold isInteger. apply Qeq_bool_iff.
  rewrite (Qfloor_comp _ _ Hq), Qfloor_Z. exact Hq.
Qed.

Lemma isInteger_floor (q : Q) : isInteger q = true -> (q == inject_Z (Qfloor q))%Q.
Proof. unfold isInteger. apply Qeq_bool_iff. Qed.

Lemma computeNextReminderDate_weekday (s : ReminderSettings) (wd : Z) (from : Date) :
  reminderWeekday s wd ->
  computeNextReminderDate s from
  = Some (nextWeeklyOccurrence wd (hours (reminderTimeOrDefault s))
            (minutes (reminderTimeOrDefault s)) from).
Proof.
  intros (v & q & Hv & Hn & Hu & Hq & Hk & Hwd).
  unfold computeNextReminderDate, nextWeeklyOccurrence. rewrite Hv.
  assert (Hgo : forall X : option Date,
            match v with
            | JNull | JUndefined => None
            | _ => X
            end = X) by (intros X; destruct v; congruence).
  transitivity
    (match to_number v with
     | NaN => None
     | Num dow =>
         if negb (isInteger dow) || negb (Qle_bool 0 dow) || negb (Qle_bool dow 6)
         then None
         else
           let time := reminderTimeOrDefault s in
           let delta := rem (dow - inject_Z (getDay from) + 7)%Q 7 in
           let candidate := atTimeOfDay from (hours time) (minutes time) in
           let delta :=
             if Qeq_bool delta 0 && (candidate <=? from) then 7%Q else delta in
           Some (addDays candidate (trunc delta))
     end).
  { destruct v; try congruence; reflexivity. }
  clear Hgo. rewrite Hq.
  rewrite (isInteger_integral q wd Hk).
  assert (H0 : Qle_bool 0 q = true).
  { apply Qle_bool_iff. rewrite Hk. change 0%Q with (inject_Z 0). rewrite <- Zle_Qle. lia. }
  assert (H6 : Qle_bool q 6 = true).
  { apply Qle_bool_iff. rewrite Hk. change 6%Q with (inject_Z 6). rewrite <- Zle_Qle. lia. }
  rewrite H0, H6. cbn [negb orb].
  set (time := reminderTimeOrDefault s).
  assert (Hrem : (rem (q - inject_Z (getDay from) + 7) 7
                  == inject_Z ((wd - getDay from + 7) mod 7))%Q).
  { rewrite <- (weekday_delta wd (getDay from) Hwd (getDay_range from)).
    apply rem_comp; [|reflexivity].
    apply Qplus_comp; [|reflexivity]. apply Qplus_comp; [exact Hk|reflexivity]. }
  set (r := rem (q - inject_Z (getDay from) + 7) 7) in *.
  set (delta := (wd - getDay from + 7) mod 7) in *.
  assert (Hz : Qeq_bool r 0 = (delta =? 0)).
  { rewrite (Qeqb_comp _ _ Hrem 0%Q 0%Q (Qeq_refl 0)).
    change 0%Q with (inject_Z 0). unfold Qeq_bool, inject_Z; simpl.
    now rewrite Z.mul_1_r. }
  cbv zeta. rewrite Hz.
  destruct ((delta =? 0) && (atTimeOfDay from (hours time) (minutes time) <=? from)).
  - reflexivity.
  - now rewrite (trunc_comp _ _ Hrem), trunc_inject_Z.
Qed.

Lemma computeNextReminderDate_some (s : ReminderSettings) (from next : Date) :
  computeNextReminderDate s from = Some next -> exists wd, reminderWeekday s wd.
Proof.
  unfold computeNextReminderDate, reminderWeekday.
  destruct (reminderDow s) as [|v] eqn:Hv; [discriminate|].
  intros H.
  destruct v as [| |b|n]; try discriminate H;
    (destruct (to_number _) as [|q] eqn:Hq; [discriminate H|];
     destruct (isInteger q) eqn:Hi; [|discriminate H];
     destruct (Qle_bool 0 q) eqn:H0; [|discriminate H];
     destruct (Qle_bool q 6) eqn:H6; [|discriminate H];
     apply isInteger_floor in Hi; apply Qle_bool_iff in H0, H6;
     eexists (Qfloor q), _, q;
     repeat (split; [first [reflexivity | discriminate | eassumption]|]);
     rewrite Hi in H0, H6;
     change 0%Q with (inject_Z 0) in H0; change 6%Q with (inject_Z 6) in H6;
     rewrite <- Zle_Qle in H0, H6; lia).
Qed.

(** X6. [computeNextReminderDate] gives no date exactly when the reminder
    weekday is unset or is not an integer from 0 to 6. Otherwise it gives
    the next occurrence of that weekday at the reminder time (19:00 when
    none is stored): an instant strictly after [fromDate] on that weekday
    and at that time, and the earliest such instant; and it is the instant
    [computeNextScheduledDateTime] gives for a schedule with the same
    weekday and time. *)
Theorem computeNextReminderDate_next_slot (s : ReminderSettings) (from : Date) :
  (computeNextReminderDate s from = None <-> ~ exists wd, reminderWeekday s wd)
  /\ forall wd, reminderWeekday s wd ->
       let hh := hours (reminderTimeOrDefault s) in
       let mm := minutes (reminderTimeOrDefault s) in
       exists next,
         computeNextReminderDate s from = Some next
         /\ next = nextWeeklyOccurrence wd hh mm from
         /\ next = computeNextScheduledDateTime
                     (Some (scheduleLike wd (reminderTimeOrDefault s))) from
         /\ (validTime (reminderTimeOrDefault s) ->
             from < next /\ matchesSlot wd hh mm next
             /\ forall t, from < t -> matchesSlot wd hh mm t -> next <= t).
Proof.
  split.
  - split.
    + intros Hnone (wd & Hwd).
      rewrite (computeNextReminderDate_weekday s wd from Hwd) in Hnone. discriminate.
    + intros Hno. destruct (computeNextReminderDate s from) as [next|] eqn:E; [|reflexivity].
      exfalso. apply Hno. exact (computeNextReminderDate_some s from next E).
  - intros wd Hwd hh mm. eexists. split; [exact (computeNextReminderDate_weekday s wd from Hwd)|].
    split; [reflexivity|].
    assert (Hr : 0 <= wd <= 6) by (destruct Hwd as (? & ? & ? & ? & ? & ? & ? & ?); assumption).
    split.
    + symmetry. apply computeNextScheduledDateTime_integral; [|exact Hr].
      now rewrite (clampedInjectionDow_weekday _ wd).
    + intros (Hh & Hm). now apply nextWeeklyOccurrence_correct.
Qed.

Lemma computeNextReminderDate_next_slot_witness :
  reminderWeekday wednesdayReminder 3
  /\ computeNextReminderDate wednesdayReminder (1000 * msPerDay)
     = Some (1000 * msPerDay + 19 * 3600000)
  /\ computeNextReminderDate {| reminderDow := RdEmpty; reminderTime := None |} 0 = None.
Proof.
  assert (Hw : reminderWeekday wednesdayReminder 3).
  { exists (JNum (Num 3)), 3%Q. repeat split; try discriminate; try reflexivity; lia. }
  split; [exact Hw|]. split.
  - destruct (proj2 (computeNextReminderDate_next_slot wednesdayReminder (1000 * msPerDay))
                3 Hw) as (next & Hn & He & _).
    rewrite Hn, He. reflexivity.
  - apply (proj1 (computeNextReminderDate_next_slot
                    {| reminderDow := RdEmpty; reminderTime := None |} 0)).
    intros (wd & v & q & Hv & _). discriminate Hv.
Defined.

Lemma describeDueBanner_kind (next n : Date) :
  describeDueBanner next n
  = if next <? n then due_overdue
    else if next - n <=? msPerDay then due_soon else due_future.
Proof.
  unfold describeDueBanner. cbv zeta.
  destruct (Z.ltb_spec (next - n) 0) as [Hlt|Hge];
    destruct (Z.ltb_spec next n) as [Hlt'|Hge']; try lia; [reflexivity|].
  assert (E : Qle_bool (inject_Z (next - n) / inject_Z (1000 * 60 * 60)) 24
              = (next - n <=? msPerDay)).
  { apply eq_true_iff_eq. rewrite Qle_bool_iff, Z.leb_le.
    unfold Qle, Qdiv, Qmult, Qinv, inject_Z, msPerDay. simpl. lia. }
  now rewrite E.
Qed.

(** X7. The reminder banner is shown exactly during the 24 hours that
    lead to the reminder: with a valid reminder time it is never in its
    overdue wording, and it is visible if and only if a reminder weekday
    is set and an instant on that weekday at the reminder time lies after
    the clock reading and at most 24 hours ahead of it. *)
Theorem renderReminderBanner_shown_before_slot (s : ReminderSettings) (n : Date) :
  validTime (reminderTimeOrDefault s) ->
  banner_kind (renderReminderBanner s n) <> Some due_overdue
  /\ (banner_hidden (renderReminderBanner s n) = false
      <-> exists wd t,
            reminderWeekday s wd
            /\ matchesSlot wd (hours (reminderTimeOrDefault s))
                 (minutes (reminderTimeOrDefault s)) t
            /\ n < t <= n + msPerDay).
Proof.
  intros (Hh & Hm). unfold renderReminderBanner.
  destruct (computeNextReminderDate s n) as [next|] eqn:E.
  - destruct (computeNextReminderDate_some s n next E) as (wd & Hwd).
    rewrite (computeNextReminderDate_weekday s wd n Hwd) in E.
    injection E as E.
    assert (Hr : 0 <= wd <= 6) by (destruct Hwd as (? & ? & ? & ? & ? & ? & ? & ?); assumption).
    destruct (nextWeeklyOccurrence_correct wd _ _ n Hr Hh Hm) as (Hlt & Hslot & Hmin).
    rewrite E in Hlt, Hslot, Hmin.
    rewrite describeDueBanner_kind.
    destruct (Z.ltb_spec next n) as [Hbad|_]; [lia|].
    destruct (Z.leb_spec (next - n) msPerDay) as [Hsoon|Hfar]; simpl.
    + split; [discriminate|]. split; [|reflexivity].
      intros _. exists wd, next. split; [exact Hwd|]. split; [exact Hslot|]. lia.
    + split; [discriminate|]. split; [discriminate|].
      intros (wd' & t & Hwd' & Hslot' & Ht).
      assert (Hr' : 0 <= wd' <= 6)
        by (destruct Hwd' as (? & ? & ? & ? & ? & ? & ? & ?); assumption).
      destruct (nextWeeklyOccurrence_correct wd' _ _ n Hr' Hh Hm) as (_ & _ & Hmin').
      pose proof (computeNextReminderDate_weekday s wd' n Hwd') as E'.
      rewrite (computeNextReminderDate_weekday s wd n Hwd), E in E'.
      injection E' as E'. rewrite <- E' in Hmin'.
      specialize (Hmin' t ltac:(lia) Hslot'). lia.
  - simpl. split; [discriminate|]. split; [discriminate|].
    intros (wd & t & Hwd & _).
    rewrite (computeNextReminderDate_weekday s wd n Hwd) in E. discriminate.
Qed.

Lemma renderReminderBanner_shown_before_slot_witness :
  validTime (reminderTimeOrDefault wednesdayReminder)
  /\ banner_hidden (renderReminderBanner wednesdayReminder (1000 * msPerDay)) = false
  /\ banner_kind (renderReminderBanner wednesdayReminder (1000 * msPerDay)) <> Some due_overdue
  /\ banner_hidden (renderReminderBanner wednesdayReminder (1001 * msPerDay)) = true.
Proof.
  assert (Hv : validTime (reminderTimeOrDefault wednesdayReminder))
    by (split; simpl; lia).
  split; [exact Hv|]. split; [reflexivity|]. split; [|reflexivity].
  exact (proj1 (renderReminderBanner_shown_before_slot wednesdayReminder (1000 * msPerDay) Hv)).
Defined.

(** ** Clamping twice *)

Lemma clamp_twice (lo hi n : Q) :
  Qmin hi (Qmax lo (Qmin hi (Qmax lo n))) = Qmin hi (Qmax lo n).
Proof.
  assert (Hrefl : forall x : Q, (x ?= x)%Q = Eq) by (intros x; apply Qeq_alt; reflexivity).
  unfold Qmin, Qmax, GenericMinMax.gmin, GenericMinMax.gmax.
  pose proof (Qcompare_antisym lo hi) as Hanti.
  destruct (lo ?= n)%Q eqn:E1; destruct (hi ?= n)%Q eqn:E2;
    destruct (hi ?= lo)%Q eqn:E3; destruct (lo ?= hi)%Q eqn:E4;
    simpl in Hanti; try discriminate Hanti;
    rewrite ?E1, ?E2, ?E3, ?E4, ?Hrefl, ?E1, ?E2, ?E3, ?E4, ?Hrefl; reflexivity.
Qed.

Lemma clampNumber_twice (v : jsval) (lo hi : Q) :
  (lo < hi)%Q -> clampNumber (JNum (Num (clampNumber v lo hi))) lo hi = clampNumber v lo hi.
Proof.
  intros Hlh. rewrite clampNumber_num. unfold clampNumber.
  destruct (to_number v) as [|n]; [|apply clamp_twice].
  unfold Qmin, Qmax, GenericMinMax.gmin, GenericMinMax.gmax.
  assert (Hrefl : (lo ?= lo)%Q = Eq) by (apply Qeq_alt; reflexivity).
  assert (Hgt : (hi ?= lo)%Q = Gt) by (apply Qgt_alt; exact Hlh).
  now rewrite Hrefl, Hgt.
Qed.

(** ** The checklist of a day *)

Lemma buildChecklistForDate_items (date : Date) (cache : option Cache)
    (settings : option Settings) (nowDate : Date) (w : World) :
  fst (buildChecklistForDate date cache settings nowDate w)
  = map (setStatus nowDate)
      (itemsBeforeStatus (match cache with Some c => c | None => cacheOf w end)
         (match settings with Some s => s | None => settingsOf w end) date nowDate).
Proof.
  unfold buildChecklistForDate, bind, itemsBeforeStatus, hasWeighItem, hasInjectionItem,
    hasMeasuresItem.
  destruct settings as [s|], cache as [c|]; cbn [getSettings ret fst snd];
    rewrite ?getSettings_reads, ?buildChecklistCache_reads; cbn [ret fst snd];
    repeat match goal with
           | |- context [if ?b then _ else _] => destruct b
           end;
    reflexivity.
Qed.

Lemma in_itemsBeforeStatus (c : Cache) (s : Settings) (date nowDate : Date)
    (it : ChecklistItem) :
  In it (itemsBeforeStatus c s date nowDate)
  <-> (hasWeighItem s date = true
       /\ it = requiredItem weight (isWeightLoggedOn (getLocalDateKey date) c) date nowDate)
      \/ (hasInjectionItem s date = true
          /\ it = requiredItem injection (isInjectionLoggedOn (getLocalDateKey date) c)
                    date nowDate)
      \/ (hasMeasuresItem c s date nowDate = true /\ it = measuresItem c date).
Proof.
  unfold itemsBeforeStatus.
  destruct (hasWeighItem s date), (hasInjectionItem s date), (hasMeasuresItem c s date nowDate);
    simpl; intuition congruence.
Qed.

Lemma weightKeys_logged (w : World) (key : DateKey) :
  key ∈ weightKeys (cacheOf w) <-> loggedOn w weight key.
Proof.
  unfold cacheOf, buildChecklistCache, bind, getAllWeights; simpl.
  rewrite elem_of_list_to_set, list_elem_of_In, List.in_map_iff.
  split; intros (r & H1 & H2); exists r; split; assumption.
Qed.

Lemma injectionKeys_logged (w : World) (key : DateKey) :
  key ∈ injectionKeys (cacheOf w) <-> loggedOn w injection key.
Proof.
  unfold cacheOf, buildChecklistCache, bind, getAllInjections; simpl.
  rewrite elem_of_list_to_set, list_elem_of_In, List.in_map_iff.
  split; intros (r & H1 & H2); exists r; split; assumption.
Qed.

Lemma measuresKeys_logged (w : World) (key : DateKey) :
  key ∈ measuresKeys (cacheOf w) <-> loggedOn w measures_ key.
Proof.
  unfold cacheOf, buildChecklistCache, bind, getAllMeasures; simpl.
  rewrite elem_of_list_to_set, list_elem_of_In, List.in_map_iff.
  split; intros (r & H1 & H2); exists r; split; assumption.
Qed.

Lemma isAfterCutoff (nowDate : Date) :
  isAfterTimeHHmm nowDate CHECKLIST_CUTOFF_TIME = (12 * 3600000 <=? nowDate mod msPerDay).
Proof.
  unfold isAfterTimeHHmm, atTimeOfDay, CHECKLIST_CUTOFF_TIME, dayNumber. cbn [hours minutes].
  pose proof (Z.div_mod nowDate msPerDay ltac:(discriminate)) as Hd.
  apply eq_true_iff_eq. rewrite !Z.leb_le. lia.
Qed.

Lemma item_logged (w : World) (c : Cache) (s : Settings) (date nowDate : Date)
    (it : ChecklistItem) :
  c = cacheOf w ->
  In it (itemsBeforeStatus c s date nowDate) ->
  (done it = true <-> loggedOn w (kind it) (dateKey it)).
Proof.
  intros -> Hin. apply in_itemsBeforeStatus in Hin.
  destruct Hin as [(_ & ->)|[(_ & ->)|(_ & ->)]]; simpl;
    unfold isWeightLoggedOn, isInjectionLoggedOn, isMeasuresLoggedOn;
    rewrite bool_decide_eq_true.
  - apply weightKeys_logged.
  - apply injectionKeys_logged.
  - apply measuresKeys_logged.
Qed.

(** X10. Every item of a day's checklist carries the state the store
    gives it: it is done exactly when a record of its kind is stored for
    that day; its status is done, or else late for a day before today and
    pending otherwise; the cutoff warning is on exactly for a required
    item of today that is not done once the clock has passed 12:00; and
    only the measures item is not required. *)
Theorem buildChecklistForDate_status (date nowDate : Date) (settings : option Settings)
    (w : World) (it : ChecklistItem) :
  In it (fst (buildChecklistForDate date None settings nowDate w)) ->
  dateKey it = getLocalDateKey date
  /\ (done it = true <-> loggedOn w (kind it) (dateKey it))
  /\ status it
     = Some (if done it then st_done
             else if getLocalDateKey date <? getLocalDateKey nowDate then st_late
                  else st_pending)
  /\ (warnAfterCutoff it = Some true
      <-> required it = true /\ done it = false
          /\ getLocalDateKey date = getLocalDateKey nowDate
          /\ 12 * 3600000 <= nowDate mod msPerDay)
  /\ (required it = true <-> kind it <> measures_).
Proof.
  intros Hin. rewrite buildChecklistForDate_items in Hin.
  apply List.in_map_iff in Hin as (it0 & <- & Hin).
  pose proof (item_logged w _ _ _ _ it0 eq_refl Hin) as Hlog.
  apply in_itemsBeforeStatus in Hin.
  assert (Hst : forall it1, dateKey it1 = getLocalDateKey date ->
            status (setStatus nowDate it1)
            = Some (if done it1 then st_done
                    else if getLocalDateKey date <? getLocalDateKey nowDate then st_late
                         else st_pending)).
  { intros it1 Hk. unfold setStatus, getStatus. cbn [status].
    now rewrite Hk, compareDateKeys_lt. }
  assert (Hwarn : forall k d,
            warnAfterCutoff (setStatus nowDate (requiredItem k d date nowDate)) = Some true
            <-> true = true /\ d = false
                /\ getLocalDateKey date = getLocalDateKey nowDate
                /\ 12 * 3600000 <= nowDate mod msPerDay).
  { intros k d. cbn [setStatus requiredItem warnAfterCutoff].
    rewrite compareDateKeys_eq, isAfterCutoff.
    destruct (Z.eqb_spec (getLocalDateKey date) (getLocalDateKey nowDate)) as [He|Hne];
      destruct (Z.leb_spec (12 * 3600000) (nowDate mod msPerDay)); destruct d; simpl;
      split; try discriminate; try (intros (_ & Hd & Hk & Ht); first [discriminate|lia]).
    - intros _. repeat split; assumption.
    - reflexivity. }
  destruct Hin as [(_ & ->)|[(_ & ->)|(_ & ->)]].
  - split; [reflexivity|]. split; [exact Hlog|].
    split; [exact (Hst (requiredItem weight (isWeightLoggedOn (getLocalDateKey date) (cacheOf w)) date nowDate) eq_refl)|].
    split; [apply Hwarn|]. simpl. split; [discriminate|reflexivity].
  - split; [reflexivity|]. split; [exact Hlog|].
    split; [exact (Hst (requiredItem injection (isInjectionLoggedOn (getLocalDateKey date) (cacheOf w)) date nowDate) eq_refl)|].
    split; [apply Hwarn|]. simpl. split; [discriminate|reflexivity].
  - split; [reflexivity|]. split; [exact Hlog|].
    split; [exact (Hst (measuresItem (cacheOf w) date) eq_refl)|].
    simpl. split; [split; [discriminate|intros (H & _); discriminate H]|].
    split; [discriminate|intros H; now elim H].
Qed.

Lemma buildChecklistForDate_status_witness :
  In mondayWeighItem
    (fst (buildChecklistForDate (clock sampleWorld - msPerDay) None None
            (clock sampleWorld - msPerDay) sampleWorld))
  /\ (done mondayWeighItem = true <-> loggedOn sampleWorld weight 102)
  /\ status mondayWeighItem = Some st_pending.
Proof.
  assert (Hin : In mondayWeighItem
                  (fst (buildChecklistForDate (clock sampleWorld - msPerDay) None None
                          (clock sampleWorld - msPerDay) sampleWorld)))
    by (left; reflexivity).
  split; [exact Hin|].
  destruct (buildChecklistForDate_status _ _ _ _ _ Hin) as (_ & Hd & Hs & _).
  split; [exact Hd|exact Hs].
Defined.

(** ** The cache and the store *)

Lemma compareDateKeys_le (a b : DateKey) : compareDateKeys a b <= 0 <-> a <= b.
Proof.
  unfold compareDateKeys.
  destruct (Z.eqb_spec a b); [lia|]. destruct (Z.ltb_spec a b); lia.
Qed.

Lemma head_sort_latest (l : list Measures.t) :
  match head (sort sortByDateDesc l) with
  | None => l = []
  | Some m => In m l /\ forall m', In m' l -> Measures.dateISO m' <= Measures.dateISO m
  end.
Proof.
  assert (Htot : forall x y, sortByDateDesc x y <= 0 \/ sortByDateDesc y x <= 0).
  { intros x y. unfold sortByDateDesc.
    pose proof (compareDateKeys_le (Measures.dateISO y) (Measures.dateISO x)).
    pose proof (compareDateKeys_le (Measures.dateISO x) (Measures.dateISO y)). lia. }
  pose proof (sort_sorted sortByDateDesc Htot l) as Hs.
  apply Sorted_StronglySorted in Hs.
  2:{ intros a b c. unfold sortByDateDesc.
      pose proof (compareDateKeys_le (Measures.dateISO b) (Measures.dateISO a)).
      pose proof (compareDateKeys_le (Measures.dateISO c) (Measures.dateISO b)).
      pose proof (compareDateKeys_le (Measures.dateISO c) (Measures.dateISO a)). lia. }
  pose proof (sort_in sortByDateDesc l) as Hin.
  pose proof (sort_length sortByDateDesc l) as Hlen.
  destruct (sort sortByDateDesc l) as [|m tl]; simpl.
  - destruct l; [reflexivity|discriminate].
  - split; [apply (proj1 (Hin m)); left; reflexivity|].
    intros m' Hm'. apply (proj2 (Hin m')) in Hm'. destruct Hm' as [<-|Hm']; [lia|].
    inversion Hs as [|? ? _ Hall]; subst. rewrite List.Forall_forall in Hall.
    specialize (Hall m' Hm'). unfold sortByDateDesc in Hall.
    exact (proj1 (compareDateKeys_le _ _) Hall).
Qed.

Lemma lastMeasures_latest (w : World) :
  match lastMeasures (cacheOf w) with
  | None => db_measures w = []
  | Some m =>
      In m (db_measures w)
      /\ forall m', In m' (db_measures w) -> Measures.dateISO m' <= Measures.dateISO m
  end.
Proof. exact (head_sort_latest (db_measures w)). Qed.

(** X11. [buildChecklistCache] only reads: it hands back the three lists
    of records as stored, its three sets hold exactly the day keys that
    have a record of the kind, and [lastMeasures] is null when there are
    no measures and otherwise a stored measures record that no other one
    is later than. *)
Theorem buildChecklistCache_summary (w : World) :
  snd (buildChecklistCache w) = w
  /\ weights (cacheOf w) = db_weights w
  /\ injections (cacheOf w) = db_injections w
  /\ measures (cacheOf w) = db_measures w
  /\ (forall key, key ∈ weightKeys (cacheOf w) <-> loggedOn w weight key)
  /\ (forall key, key ∈ injectionKeys (cacheOf w) <-> loggedOn w injection key)
  /\ (forall key, key ∈ measuresKeys (cacheOf w) <-> loggedOn w measures_ key)
  /\ match lastMeasures (cacheOf w) with
     | None => db_measures w = []
     | Some m =>
         In m (db_measures w)
         /\ forall m', In m' (db_measures w) -> Measures.dateISO m' <= Measures.dateISO m
     end.
Proof.
  repeat split; try reflexivity;
    try apply weightKeys_logged; try apply injectionKeys_logged;
    try apply measuresKeys_logged.
  apply lastMeasures_latest.
Qed.

(** X12. The three [is...LoggedOn] lookups give the same answer with the
    cache of [buildChecklistCache] as without a cache, when they read the
    store themselves: true exactly when a record of the kind is stored
    for the day; and they leave the store as it is. *)
Theorem isLoggedOn_cache_agrees_with_store (key : DateKey) (w : World) :
  (isWeightLoggedOnM key (Some (cacheOf w)) w = isWeightLoggedOnM key None w
   /\ snd (isWeightLoggedOnM key None w) = w
   /\ (fst (isWeightLoggedOnM key None w) = true <-> loggedOn w weight key))
  /\ (isInjectionLoggedOnM key (Some (cacheOf w)) w = isInjectionLoggedOnM key None w
      /\ snd (isInjectionLoggedOnM key None w) = w
      /\ (fst (isInjectionLoggedOnM key None w) = true <-> loggedOn w injection key))
  /\ (isMeasuresLoggedOnM key (Some (cacheOf w)) w = isMeasuresLoggedOnM key None w
      /\ snd (isMeasuresLoggedOnM key None w) = w
      /\ (fst (isMeasuresLoggedOnM key None w) = true <-> loggedOn w measures_ key)).
Proof.
  assert (Hw : fst (isWeightLoggedOnM key None w) = true <-> loggedOn w weight key).
  { unfold isWeightLoggedOnM, bind, getAllWeights, ret. cbn [fst].
    rewrite existsb_exists. simpl.
    split; intros (r & H1 & H2); exists r; split; try assumption; now apply Z.eqb_eq. }
  assert (Hi : fst (isInjectionLoggedOnM key None w) = true <-> loggedOn w injection key).
  { unfold isInjectionLoggedOnM, bind, getAllInjections, ret. cbn [fst].
    rewrite existsb_exists. simpl.
    split; intros (r & H1 & H2); exists r; split; try assumption; now apply Z.eqb_eq. }
  assert (Hm : fst (isMeasuresLoggedOnM key None w) = true <-> loggedOn w measures_ key).
  { unfold isMeasuresLoggedOnM, bind, getAllMeasures, ret. cbn [fst].
    rewrite existsb_exists. simpl.
    split; intros (r & H1 & H2); exists r; split; try assumption; now apply Z.eqb_eq. }
  split; [|split].
  - split; [|split; [reflexivity|exact Hw]].
    unfold isWeightLoggedOnM at 1. unfold ret.
    rewrite (surjective_pairing (isWeightLoggedOnM key None w)). f_equal.
    apply eq_true_iff_eq. rewrite bool_decide_eq_true, weightKeys_logged. symmetry. exact Hw.
  - split; [|split; [reflexivity|exact Hi]].
    unfold isInjectionLoggedOnM at 1. unfold ret.
    rewrite (surjective_pairing (isInjectionLoggedOnM key None w)). f_equal.
    apply eq_true_iff_eq. rewrite bool_decide_eq_true, injectionKeys_logged. symmetry. exact Hi.
  - split; [|split; [reflexivity|exact Hm]].
    unfold isMeasuresLoggedOnM at 1. unfold ret.
    rewrite (surjective_pairing (isMeasuresLoggedOnM key None w)). f_equal.
    apply eq_true_iff_eq. rewrite bool_decide_eq_true, measuresKeys_logged. symmetry. exact Hm.
Qed.

(** ** The measures reminder *)





(** ** The upcoming days *)

Lemma upcomingLoop_spec (w : World) (indices : list Z) (entries : list UpcomingDay) :
  upcomingLoop (settingsOf w) (cacheOf w) (startOfDay (clock w)) indices entries w
  = (entries ++ flat_map (upcomingEntry w) indices, w).
Proof.
  revert entries. induction indices as [|i rest IH]; intros entries.
  - simpl. now rewrite app_nil_r.
  - cbn [upcomingLoop flat_map]. unfold bind at 1. unfold now_ at 1.
    unfold bind at 1. rewrite buildChecklistForDate_cached.
    pose proof (buildChecklistForDate_reads
                  (addDays (startOfDay (clock w)) i) None None (clock w) w) as Hw.
    unfold upcomingEntry. fold (checklistDaysAhead w i).
    unfold checklistDaysAhead at 1.
    destruct (buildChecklistForDate _ None None (clock w) w) as [items w'] eqn:E.
    simpl in Hw. subst w'. cbn [fst].
    rewrite IH. destruct items; [reflexivity|].
    now rewrite <- app_assoc.
Qed.

Lemma buildUpcomingChecklist_spec (days : Z) (w : World) :
  buildUpcomingChecklist days w = (flat_map (upcomingEntry w) (seqZ 1 days), w).
Proof.
  unfold buildUpcomingChecklist.
  unfold bind at 1. rewrite getSettings_reads.
  unfold bind at 1. rewrite buildChecklistCache_reads.
  unfold bind at 1. unfold now_ at 1.
  now rewrite upcomingLoop_spec.
Qed.

Lemma in_upcomingEntry (w : World) (i : Z) (e : UpcomingDay) :
  In e (upcomingEntry w i)
  <-> checklistDaysAhead w i <> []
      /\ e = {| up_dateKey := getLocalDateKey (clock w) + i;
                up_dow := (getDay (clock w) + i) mod 7;
                up_items := checklistDaysAhead w i |}.
Proof.
  unfold upcomingEntry.
  assert (Hk : getLocalDateKey (addDays (startOfDay (clock w)) i)
               = getLocalDateKey (clock w) + i).
  { unfold getLocalDateKey. now rewrite dayNumber_addDays, dayNumber_startOfDay. }
  assert (Hd : getDay (addDays (startOfDay (clock w)) i) = (getDay (clock w) + i) mod 7).
  { now rewrite getDay_addDays, getDay_startOfDay. }
  rewrite Hk, Hd.
  destruct (checklistDaysAhead w i) as [|it items]; simpl.
  - split; [intros []|intros (H & _); now elim H].
  - split.
    + intros [<-|[]]. split; [discriminate|reflexivity].
    + intros (_ & ->). now left.
Qed.

Lemma upcoming_sorted (w : World) (n : nat) (m : Z) :
  let l := flat_map (upcomingEntry w) (seqZ m (Z.of_nat n)) in
  StronglySorted (fun a b => up_dateKey a < up_dateKey b) l
  /\ Forall (fun e => getLocalDateKey (clock w) + m <= up_dateKey e) l.
Proof.
  revert m. induction n as [|n IH]; intros m l; subst l.
  - rewrite seqZ_nil by lia. simpl. split; constructor.
  - rewrite seqZ_cons by lia.
    replace (Z.pred (Z.of_nat (S n))) with (Z.of_nat n) by lia.
    cbn [flat_map]. destruct (IH (Z.succ m)) as [Hs Hb].
    set (later := flat_map _ (seqZ (Z.succ m) (Z.of_nat n))) in *. clearbody later.
    pose proof (in_upcomingEntry w m) as Hin.
    destruct (upcomingEntry w m) as [|e [|e' tl]] eqn:E.
    + simpl. split; [exact Hs|].
      eapply List.Forall_impl; [|exact Hb]. simpl. intros; lia.
    + destruct (proj1 (Hin e) ltac:(now left)) as (_ & He).
      assert (Hk : up_dateKey e = getLocalDateKey (clock w) + m) by (now rewrite He).
      simpl. split.
      * constructor; [exact Hs|].
        eapply List.Forall_impl; [|exact Hb]. simpl. intros; lia.
      * constructor; [lia|].
        eapply List.Forall_impl; [|exact Hb]. simpl. intros; lia.
    + exfalso. unfold upcomingEntry in E. destruct (checklistDaysAhead w m); discriminate.
Qed.

(** X14. [buildUpcomingChecklist(days)] lists the days from tomorrow to
    [days] days ahead that have something on their checklist, earliest
    first and each once, with the weekday and the checklist of the day;
    no item in it is late or carries the cutoff warning, and the store is
    left as it is. *)
Theorem buildUpcomingChecklist_days (days : Z) (w : World) :
  snd (buildUpcomingChecklist days w) = w
  /\ (forall e, In e (fst (buildUpcomingChecklist days w))
                <-> exists i, 1 <= i <= days
                              /\ checklistDaysAhead w i <> []
                              /\ e = {| up_dateKey := getLocalDateKey (clock w) + i;
                                        up_dow := (getDay (clock w) + i) mod 7;
                                        up_items := checklistDaysAhead w i |})
  /\ StronglySorted (fun a b => up_dateKey a < up_dateKey b)
       (fst (buildUpcomingChecklist days w))
  /\ Forall (fun e =>
               Forall (fun it => dateKey it = up_dateKey e
                                 /\ status it <> Some st_late
                                 /\ warnAfterCutoff it <> Some true)
                 (up_items e))
       (fst (buildUpcomingChecklist days w)).
Proof.
  rewrite buildUpcomingChecklist_spec. cbn [fst snd].
  assert (Hin : forall e, In e (flat_map (upcomingEntry w) (seqZ 1 days))
                <-> exists i, 1 <= i <= days
                              /\ checklistDaysAhead w i <> []
                              /\ e = {| up_dateKey := getLocalDateKey (clock w) + i;
                                        up_dow := (getDay (clock w) + i) mod 7;
                                        up_items := checklistDaysAhead w i |}).
  { intros e. rewrite List.in_flat_map. split.
    - intros (i & Hi & He). apply in_seqZ in Hi. apply in_upcomingEntry in He.
      exists i. split; [lia|exact He].
    - intros (i & Hi & He). exists i. split; [apply in_seqZ; lia|].
      now apply in_upcomingEntry. }
  split; [reflexivity|]. split; [exact Hin|]. split.
  - destruct (Z.le_gt_cases days 0) as [Hle|Hgt].
    + rewrite seqZ_nil by lia. constructor.
    + rewrite <- (Z2Nat.id days) by lia.
      apply (upcoming_sorted w (Z.to_nat days) 1).
  - apply List.Forall_forall. intros e He. apply Hin in He.
    destruct He as (i & Hi & _ & ->). cbn [up_items up_dateKey].
    apply List.Forall_forall. intros it Hit. unfold checklistDaysAhead in Hit.
    rewrite buildChecklistForDate_items in Hit.
    apply List.in_map_iff in Hit as (it0 & <- & Hit).
    assert (Hkey : getLocalDateKey (addDays (startOfDay (clock w)) i)
                   = getLocalDateKey (clock w) + i).
    { unfold getLocalDateKey. now rewrite dayNumber_addDays, dayNumber_startOfDay. }
    apply in_itemsBeforeStatus in Hit.
    destruct Hit as [(_ & ->)|[(_ & ->)|(_ & ->)]];
      unfold setStatus, getStatus, requiredItem, measuresItem;
      cbn [dateKey status warnAfterCutoff done];
      rewrite ?compareDateKeys_lt, ?compareDateKeys_eq, Hkey;
      (split; [reflexivity|]);
      destruct (Z.ltb_spec (getLocalDateKey (clock w) + i) (getLocalDateKey (clock w)));
      try lia;
      destruct (Z.eqb_spec (getLocalDateKey (clock w) + i) (getLocalDateKey (clock w)));
      try lia;
      repeat match goal with |- context [if ?b then _ else _] => destruct b end;
      split; discriminate.
Qed.

(** ** Bounds of the overdue list *)

Lemma requiredNotDone_length (c : Cache) (s : Settings) (date nowDate : Date) :
  (length (requiredNotDone (map (setStatus nowDate) (itemsBeforeStatus c s date nowDate)))
   <= 2)%nat.
Proof.
  unfold itemsBeforeStatus, requiredNotDone.
  destruct (hasWeighItem s date), (hasInjectionItem s date), (hasMeasuresItem c s date nowDate);
    cbn [app map List.filter setStatus requiredItem measuresItem required done andb negb];
    repeat match goal with
           | |- context [if ?b then _ else _] => destruct b
           end;
    simpl; lia.
Qed.

Lemma overdue_of_day_length (w : World) (i : Z) :
  (length (map markLate (requiredNotDone (checklistDaysAgo w i))) <= 2)%nat.
Proof.
  rewrite length_map. unfold checklistDaysAgo. rewrite buildChecklistForDate_items.
  apply requiredNotDone_length.
Qed.

Lemma flat_map_length_bound {A} (f : Z -> list A) (l : list Z) (b : nat) :
  (forall i, (length (f i) <= b)%nat) ->
  (length (flat_map f l) <= b * length l)%nat.
Proof.
  intros Hb. induction l as [|i l IH]; simpl; [lia|].
  rewrite length_app, Nat.mul_succ_r. specialize (Hb i). lia.
Qed.

(** X15. The overdue list is bounded by its window: it is empty when
    [daysBack] is not positive, it has at most two items per day of the
    window, every item is dated from [daysBack] days ago to yesterday, and
    widening the window by a day only appends the items of the added day
    after the ones already there. *)
Theorem buildOverdueChecklist_window (daysBack : Z) (w : World) :
  (daysBack <= 0 -> fst (buildOverdueChecklist daysBack w) = [])
  /\ (0 <= daysBack ->
      Z.of_nat (length (fst (buildOverdueChecklist daysBack w))) <= 2 * daysBack)
  /\ Forall (fun it => getLocalDateKey (clock w) - daysBack <= dateKey it
                       <= getLocalDateKey (clock w) - 1)
       (fst (buildOverdueChecklist daysBack w))
  /\ (0 <= daysBack ->
      fst (buildOverdueChecklist (daysBack + 1) w)
      = fst (buildOverdueChecklist daysBack w)
        ++ map markLate (requiredNotDone (checklistDaysAgo w (daysBack + 1)))).
Proof.
  rewrite !buildOverdueChecklist_spec. cbn [fst].
  split; [|split; [|split]].
  - intros Hle. now rewrite seqZ_nil by lia.
  - intros Hge.
    pose proof (flat_map_length_bound _ (seqZ 1 daysBack) 2 (overdue_of_day_length w)) as Hb.
    rewrite length_seqZ in Hb. lia.
  - apply List.Forall_forall. intros it Hin.
    apply List.in_flat_map in Hin as (i & Hi & Hin).
    apply in_seqZ in Hi. apply in_overdue_of_day in Hin as (Hk & _).
    rewrite Hk. unfold getLocalDateKey. lia.
  - intros Hge.
    replace (daysBack + 1) with (Z.succ daysBack) at 1 by lia.
    rewrite <- (Z2Nat.id daysBack) at 1 2 by lia.
    rewrite <- Nat2Z.inj_succ, seqZ_S, List.flat_map_app. simpl.
    rewrite app_nil_r, Z2Nat.id by lia. now rewrite (Z.add_comm 1 daysBack).
Qed.

Lemma buildOverdueChecklist_window_witness :
  (-3 <= 0 /\ fst (buildOverdueChecklist (-3) sampleWorld) = [])
  /\ (0 <= 7 /\ Z.of_nat (length (fst (buildOverdueChecklist 7 sampleWorld))) <= 2 * 7).
Proof.
  split.
  - split; [lia|].
    apply (proj1 (buildOverdueChecklist_window (-3) sampleWorld)). lia.
  - split; [lia|].
    apply (proj1 (proj2 (buildOverdueChecklist_window 7 sampleWorld))). lia.
Defined.

(** ** The checklist and the weekly consistency *)

Lemma storedWeekday_clamped (s : Settings) (wd : Z) :
  storedWeekday s wd -> (clampedInjectionDow s == inject_Z wd)%Q.
Proof.
  intros (q & Hq & Hk & Hr). unfold clampedInjectionDow. rewrite Hq.
  change 0%Q with (inject_Z 0). change 6%Q with (inject_Z 6).
  rewrite (clampNumber_integral _ q wd 0 6); [|reflexivity|exact Hk].
  replace (Z.min 6 (Z.max 0 wd)) with wd by lia. reflexivity.
Qed.

Lemma storedWeekday_item (s : Settings) (wd : Z) (date : Date) :
  storedWeekday s wd -> hasInjectionItem s date = (wd =? getDay date).
Proof.
  intros (q & Hq & Hk & Hr). unfold hasInjectionItem. rewrite Hq. cbn [to_number].
  now rewrite (eq_int_comp _ _ Hk _ _ eq_refl), eq_int_inject_Z.
Qed.

Lemma injection_item_iff (c : Cache) (s : Settings) (date nowDate : Date) (w : World) :
  (exists it, In it (fst (buildChecklistForDate date (Some c) (Some s) nowDate w))
              /\ kind it = injection)
  <-> hasInjectionItem s date = true.
Proof.
  rewrite buildChecklistForDate_items. split.
  - intros (it & Hin & Hk). apply List.in_map_iff in Hin as (it0 & <- & Hin).
    apply in_itemsBeforeStatus in Hin.
    destruct Hin as [(_ & ->)|[(H & ->)|(_ & ->)]]; try discriminate Hk. exact H.
  - intros H. eexists. split.
    + apply List.in_map. apply in_itemsBeforeStatus. right; left. split; [exact H|reflexivity].
    + reflexivity.
Qed.

(** X16. With a stored application weekday that is a weekday index, the
    checklist and the weekly consistency agree on the application of a
    week: the checklist of a day of the week shown has an application
    item exactly when that day is the one the consistency expects the
    application on, and the item is done exactly when the consistency
    counts the application as done. With a stored weekday of 8 they do
    not agree: the consistency expects an application every week, and no
    day's checklist has an application item. *)
Theorem injection_item_matches_consistency :
  (forall (now date nowDate : Date) (cache : Cache) (s : Settings) (weekOffset : jsval)
          (wd : Z) (w : World),
     storedWeekday s wd ->
     startOfWeekMonday date = wc_start (renderWeeklyConsistency now cache s weekOffset) ->
     ((exists it,
          In it (fst (buildChecklistForDate date (Some cache) (Some s) nowDate w))
          /\ kind it = injection)
      <-> wc_injKey (renderWeeklyConsistency now cache s weekOffset)
          = Some (getLocalDateKey date))
     /\ (forall it,
           In it (fst (buildChecklistForDate date (Some cache) (Some s) nowDate w)) ->
           kind it = injection ->
           (done it = true
            <-> wc_doneInj (renderWeeklyConsistency now cache s weekOffset) = 1)))
  /\ (forall (now date nowDate : Date) (cache : Cache) (weekOffset : jsval) (w : World),
        wc_expectedInj (renderWeeklyConsistency now cache weekdayEightSettings weekOffset) = 1
        /\ forall it,
             In it (fst (buildChecklistForDate date (Some cache) (Some weekdayEightSettings)
                           nowDate w)) ->
             kind it <> injection).
Proof.
  split.
  - intros now date nowDate cache s weekOffset wd w Hwd Hweek.
    pose proof (storedWeekday_clamped s wd Hwd) as Hc.
    assert (Hr : 0 <= wd <= 6) by (destruct Hwd as (? & ? & ? & ?); assumption).
    set (start := addDays (startOfWeekMonday now) (-7 * weekOffsetOf weekOffset)) in *.
    change (wc_start (renderWeeklyConsistency now cache s weekOffset)) with start in Hweek.
    destruct (findInjectionDay_integral start (clampedInjectionDow s) wd Hc Hr)
      as (j & Hj & Hfind & Hday).
    assert (Hkey : wc_injKey (renderWeeklyConsistency now cache s weekOffset)
                   = Some (dayNumber start + j)).
    { unfold renderWeeklyConsistency. cbn [wc_injKey]. fold start. rewrite Hfind.
      cbn [option_map]. unfold getLocalDateKey. now rewrite dayNumber_addDays. }
    assert (Hdone : wc_doneInj (renderWeeklyConsistency now cache s weekOffset)
                    = if bool_decide (dayNumber start + j ∈ injectionKeys cache)
                      then 1 else 0).
    { unfold renderWeeklyConsistency. cbn [wc_doneInj]. fold start. rewrite Hfind.
      cbn [option_map]. unfold getLocalDateKey. now rewrite dayNumber_addDays. }
    apply startOfWeekMonday_iff in Hweek. destruct Hweek as (Hg & Hm & Hle & Hlt).
    rewrite getDay_addDays, Hg in Hday.
    pose proof msPerDay_pos as Hp.
    pose proof (Z.div_mod start msPerDay ltac:(lia)) as Hsd.
    fold (dayNumber start) in Hsd. rewrite Hm, Z.add_0_r in Hsd.
    pose proof (Z.div_mod date msPerDay ltac:(lia)) as Hdd.
    pose proof (Z.mod_pos_bound date msPerDay Hp) as Hdb.
    fold (dayNumber date) in Hdd.
    assert (Hdn : dayNumber start <= dayNumber date < dayNumber start + 7) by nia.
    assert (Hiff : (wd =? getDay date) = true <-> dayNumber date = dayNumber start + j).
    { rewrite Z.eqb_eq. unfold getDay in *.
      pose proof (Z.div_mod (dayNumber start + 4) 7 ltac:(lia)).
      pose proof (Z.div_mod (dayNumber date + 4) 7 ltac:(lia)).
      pose proof (Z.mod_pos_bound (dayNumber date + 4) 7 ltac:(lia)).
      pose proof (Z.div_mod (1 + j) 7 ltac:(lia)).
      pose proof (Z.mod_pos_bound (1 + j) 7 ltac:(lia)).
      lia. }
    split.
    + rewrite injection_item_iff, (storedWeekday_item s wd date Hwd), Hkey, Hiff.
      unfold getLocalDateKey. split; [intros ->; reflexivity|intros [= ->]; reflexivity].
    + intros it Hin Hk.
      assert (Hhas : hasInjectionItem s date = true).
      { apply (injection_item_iff cache s date nowDate w). now exists it. }
      rewrite (storedWeekday_item s wd date Hwd) in Hhas. apply Hiff in Hhas.
      rewrite buildChecklistForDate_items in Hin.
      apply List.in_map_iff in Hin as (it0 & <- & Hin).
      apply in_itemsBeforeStatus in Hin.
      destruct Hin as [(_ & ->)|[(_ & ->)|(_ & ->)]]; try discriminate Hk.
      cbn [setStatus requiredItem done]. rewrite Hdone.
      unfold isInjectionLoggedOn, getLocalDateKey. rewrite Hhas.
      rewrite bool_decide_eq_true. case_bool_decide; split; intros Hx;
        first [reflexivity|assumption|contradiction|discriminate Hx].
  - intros now date nowDate cache weekOffset w. split.
    + assert (Hc : (clampedInjectionDow weekdayEightSettings == inject_Z 6)%Q) by reflexivity.
      destruct (findInjectionDay_integral
                  (addDays (startOfWeekMonday now) (-7 * weekOffsetOf weekOffset))
                  (clampedInjectionDow weekdayEightSettings) 6 Hc ltac:(lia))
        as (j & _ & Hfind & _).
      unfold renderWeeklyConsistency. cbn [wc_expectedInj]. now rewrite Hfind.
    + intros it Hin Hk.
      assert (Hhas : hasInjectionItem weekdayEightSettings date = true).
      { apply (injection_item_iff cache _ date nowDate w). now exists it. }
      assert (E : hasInjectionItem weekdayEightSettings date
                  = eq_int (inject_Z 8) (getDay date)) by reflexivity.
      rewrite E, eq_int_inject_Z in Hhas. apply Z.eqb_eq in Hhas.
      pose proof (getDay_range date). lia.
Qed.

Lemma injection_item_matches_consistency_witness :
  storedWeekday DEFAULTS 6
  /\ startOfWeekMonday (9 * msPerDay)
     = wc_start (renderWeeklyConsistency (10 * msPerDay) fullWeekCache DEFAULTS JUndefined)
  /\ ((exists it,
          In it (fst (buildChecklistForDate (9 * msPerDay) (Some fullWeekCache)
                        (Some DEFAULTS) (10 * msPerDay) sampleWorld))
          /\ kind it = injection)
      <-> wc_injKey (renderWeeklyConsistency (10 * msPerDay) fullWeekCache DEFAULTS JUndefined)
          = Some (getLocalDateKey (9 * msPerDay))).
Proof.
  assert (Hs : storedWeekday DEFAULTS 6).
  { exists 6%Q. repeat split; try reflexivity; lia. }
  assert (Hw : startOfWeekMonday (9 * msPerDay)
               = wc_start (renderWeeklyConsistency (10 * msPerDay) fullWeekCache DEFAULTS
                             JUndefined)) by reflexivity.
  split; [exact Hs|]. split; [exact Hw|].
  exact (proj1 (proj1 injection_item_matches_consistency (10 * msPerDay) (9 * msPerDay)
                  (10 * msPerDay) fullWeekCache DEFAULTS JUndefined 6 sampleWorld Hs Hw)).
Defined.

(** ** The application streak *)

Lemma findInjectionDay_of_week (start : Date) (q : Q) (k : Z) :
  getDay start = 1 -> (q == inject_Z k)%Q -> 0 <= k <= 6 ->
  findInjectionDay start q = Some (addDays start ((k + 6) mod 7)).
Proof.
  intros Hg Hq Hk.
  destruct (findInjectionDay_integral start q k Hq Hk) as (j & Hj & Hfind & Hday).
  rewrite Hfind. do 2 f_equal.
  rewrite getDay_addDays, Hg in Hday.
  pose proof (Z.div_mod (1 + j) 7 ltac:(lia)).
  pose proof (Z.mod_pos_bound (1 + j) 7 ltac:(lia)).
  pose proof (Z.div_mod (k + 6) 7 ltac:(lia)).
  pose proof (Z.mod_pos_bound (k + 6) 7 ltac:(lia)).
  lia.
Qed.

Lemma getDay_weeks_before (start : Date) (i : Z) :
  getDay (addDays start (-7 * i)) = getDay start.
Proof.
  rewrite getDay_addDays. pose proof (getDay_range start) as Hr.
  replace (getDay start + -7 * i) with (getDay start + (- i) * 7) by lia.
  rewrite Z.mod_add by lia. apply Z.mod_small. lia.
Qed.

Lemma countStreakInjections_loop_run (q : Q) (keys : gset Z) (start : Date) (k : Z)
    (remaining : nat) (i streak : Z) :
  getDay start = 1 -> (q == inject_Z k)%Q -> 0 <= k <= 6 ->
  let n := countStreakInjections_loop q keys start remaining i streak - streak in
  0 <= n <= Z.of_nat remaining
  /\ (forall i', i <= i' < i + n -> dayNumber start - 7 * i' + (k + 6) mod 7 ∈ keys)
  /\ (n < Z.of_nat remaining -> dayNumber start - 7 * (i + n) + (k + 6) mod 7 ∉ keys).
Proof.
  intros Hg Hq Hk. revert i streak.
  induction remaining as [|remaining IH]; intros i streak n; subst n.
  - simpl. rewrite Z.sub_diag. split; [lia|]. split; [intros; lia|lia].
  - cbn [countStreakInjections_loop].
    rewrite (findInjectionDay_of_week _ q k); [|now rewrite getDay_weeks_before|exact Hq|exact Hk].
    assert (Hkey : getLocalDateKey (addDays (addDays start (-7 * i)) ((k + 6) mod 7))
                   = dayNumber start - 7 * i + (k + 6) mod 7).
    { unfold getLocalDateKey. rewrite !dayNumber_addDays. lia. }
    rewrite Hkey. case_bool_decide as Hin.
    + destruct (IH (i + 1) (streak + 1)) as (Hb & Hall & Hstop).
      set (r := countStreakInjections_loop q keys start remaining (i + 1) (streak + 1)) in *.
      split; [lia|]. split.
      * intros i' Hi'. destruct (Z.eq_dec i' i) as [->|Hne]; [exact Hin|].
        apply Hall. lia.
      * intros Hlt. replace (i + (r - streak)) with (i + 1 + (r - (streak + 1))) by lia.
        apply Hstop. lia.
    + rewrite Z.sub_diag. split; [lia|]. split; [intros; lia|].
      intros _. now rewrite Z.add_0_r.
Qed.

(** X17. The application streak counts the weeks, from the current one
    backwards, whose application day has an application logged: with an
    application weekday that is a weekday index, the result [n] is at most
    [maxWeeks], each of the [n] latest weeks has a record on that weekday,
    and, unless [n] reached [maxWeeks], the week before them has none. In
    particular the streak is 0 as long as the application day of the
    current week has no record, also when that day is still to come. *)
Theorem countStreakInjections_weeks (now : Date) (cache : Cache) (s : Settings)
    (maxWeeks : nat) (k : Z) :
  (clampedInjectionDow s == inject_Z k)%Q -> 0 <= k <= 6 ->
  let n := countStreakInjections now cache s maxWeeks in
  0 <= n <= Z.of_nat maxWeeks
  /\ (forall i, 0 <= i < n -> weekdayKeyWeeksAgo now k i ∈ injectionKeys cache)
  /\ (n < Z.of_nat maxWeeks -> weekdayKeyWeeksAgo now k n ∉ injectionKeys cache)
  /\ (weekdayKeyWeeksAgo now k 0 ∉ injectionKeys cache -> n = 0).
Proof.
  intros Hq Hk n.
  assert (Hg : getDay (startOfWeekMonday now) = 1).
  { now destruct (proj1 (startOfWeekMonday_iff (startOfWeekMonday now) now) eq_refl). }
  pose proof (countStreakInjections_loop_run (clampedInjectionDow s) (injectionKeys cache)
                (startOfWeekMonday now) k maxWeeks 0 0 Hg Hq Hk) as H.
  cbv zeta in H. rewrite Z.sub_0_r in H.
  change (countStreakInjections_loop (clampedInjectionDow s) (injectionKeys cache)
            (startOfWeekMonday now) maxWeeks 0 0) with n in H.
  destruct H as (Hb & Hall & Hstop). unfold weekdayKeyWeeksAgo.
  split; [exact Hb|]. split; [|split].
  - intros i Hi. apply Hall. lia.
  - intros Hlt. specialize (Hstop Hlt). now rewrite Z.add_0_l in Hstop.
  - intros Hnot. destruct (Z.eq_dec n 0) as [E|Hne]; [exact E|].
    exfalso. apply Hnot. apply Hall. lia.
Qed.

Lemma countStreakInjections_weeks_witness :
  (clampedInjectionDow DEFAULTS == inject_Z 6)%Q
  /\ 0 <= countStreakInjections (10 * msPerDay) fullWeekCache DEFAULTS 52 <= 52
  /\ countStreakInjections (3 * msPerDay) fullWeekCache DEFAULTS 52 = 0.
Proof.
  assert (Hq : (clampedInjectionDow DEFAULTS == inject_Z 6)%Q) by reflexivity.
  split; [exact Hq|]. split.
  - exact (proj1 (countStreakInjections_weeks (10 * msPerDay) fullWeekCache DEFAULTS 52 6
                    Hq ltac:(lia))).
  - apply (proj2 (proj2 (proj2 (countStreakInjections_weeks (3 * msPerDay) fullWeekCache
                                  DEFAULTS 52 6 Hq ltac:(lia))))).
    vm_compute. intros H. discriminate H.
Defined.

(** ** Weight deltas at the three horizons *)

Lemma pick_defined (l : list Weight.t) (t t' : Date) :
  t <= t' ->
  pickWeightClosestAtOrBefore l t <> None -> pickWeightClosestAtOrBefore l t' <> None.
Proof.
  intros Hle. induction l as [|w l IH]; simpl; [tauto|].
  destruct (Z.leb_spec (Weight.dateTimeISO w) t);
    destruct (Z.leb_spec (Weight.dateTimeISO w) t'); try discriminate; try lia.
  exact IH.
Qed.

Lemma pick_same (l : list Weight.t) (t t' : Date) :
  t <= t' -> noWeightBetween l t t' ->
  pickWeightClosestAtOrBefore l t' = pickWeightClosestAtOrBefore l t.
Proof.
  intros Hle Hno. induction l as [|w l IH]; [reflexivity|]. simpl.
  assert (Hw : ~ (t < Weight.dateTimeISO w <= t')) by (apply Hno; now left).
  destruct (Z.leb_spec (Weight.dateTimeISO w) t);
    destruct (Z.leb_spec (Weight.dateTimeISO w) t'); try reflexivity; try lia.
  apply IH. intros x Hx. apply Hno. now right.
Qed.

(** X18. The three deltas of [computeWeightDeltas] are nested: the delta
    over 30 days is defined only if the one over 14 days is, and that one
    only if the one over 7 days is; two neighbouring horizons give the
    same delta when no weight was taken between their two target dates;
    and a single weight gives no delta at all. None of this needs the list
    to be in order. *)
Theorem computeWeightDeltas_horizons (last : Weight.t) (rest : list Weight.t) :
  let r := computeWeightDeltas (last :: rest) in
  let t := Weight.dateTimeISO last in
  (wd_d30 r <> None -> wd_d14 r <> None)
  /\ (wd_d14 r <> None -> wd_d7 r <> None)
  /\ (noWeightBetween (last :: rest) (addDays t (-14)) (addDays t (-7)) ->
      wd_d7 r = wd_d14 r)
  /\ (noWeightBetween (last :: rest) (addDays t (-30)) (addDays t (-14)) ->
      wd_d14 r = wd_d30 r)
  /\ (rest = [] -> wd_d7 r = None /\ wd_d14 r = None /\ wd_d30 r = None).
Proof.
  intros r t. subst r. unfold computeWeightDeltas. cbn [wd_d7 wd_d14 wd_d30]. fold t.
  set (l := last :: rest).
  assert (H1 : addDays t (-30) <= addDays t (-14)) by (unfold addDays, msPerDay; lia).
  assert (H2 : addDays t (-14) <= addDays t (-7)) by (unfold addDays, msPerDay; lia).
  assert (Hmap : forall o : option Weight.t,
            option_map (fun w => (Weight.weightKg last - Weight.weightKg w)%Q) o <> None
            <-> o <> None).
  { intros [w|]; simpl; split; congruence. }
  split; [|split; [|split; [|split]]].
  - rewrite !Hmap. apply pick_defined, H1.
  - rewrite !Hmap. apply pick_defined, H2.
  - intros Hno. now rewrite (pick_same l _ _ H2 Hno).
  - intros Hno. now rewrite (pick_same l _ _ H1 Hno).
  - intros ->. subst l. simpl.
    assert (Hgt : forall d, 0 < d -> (t <=? addDays t (- d)) = false).
    { intros d Hd. apply Z.leb_gt. unfold addDays, msPerDay. lia. }
    change (-7) with (- (7)). change (-14) with (- (14)). change (-30) with (- (30)).
    fold t. rewrite !Hgt by lia. repeat split.
Qed.

Lemma computeWeightDeltas_horizons_witness :
  noWeightBetween sparseWeights (addDays 4000000000 (-14)) (addDays 4000000000 (-7))
  /\ wd_d7 (computeWeightDeltas sparseWeights) = wd_d14 (computeWeightDeltas sparseWeights)
  /\ wd_d14 (computeWeightDeltas sparseWeights) <> None.
Proof.
  assert (Hno : noWeightBetween sparseWeights (addDays 4000000000 (-14))
                  (addDays 4000000000 (-7))).
  { intros w [<-|[<-|[<-|[]]]]; vm_compute; intros [H1 H2]; first [discriminate H1|now apply H2]. }
  split; [exact Hno|]. split.
  - exact (proj1 (proj2 (proj2 (computeWeightDeltas_horizons
                                  (sampleAt 4000000000 0 80)
                                  [sampleAt 4000000000 20 82; sampleAt 4000000000 40 85])))
             Hno).
  - vm_compute. discriminate.
Defined.

(** ** Trend and regularity on two records or more *)

Lemma last_cons_default {A} (l : list A) (a b : A) :
  List.last (b :: l) a = List.last l b.
Proof.
  revert a b. induction l as [|c l IH]; intros a b; [reflexivity|].
  change (List.last (b :: c :: l) a) with (List.last (c :: l) a).
  now rewrite !(IH _ c).
Qed.

Lemma sorted_asc_ends {A} (key : A -> Z) (l : list A) (a : A) :
  StronglySorted (fun x y => key x - key y <= 0) (a :: l) ->
  forall x, In x (a :: l) -> key a <= key x <= key (List.last l a).
Proof.
  revert a. induction l as [|b l IH]; intros a Hs x Hx.
  - destruct Hx as [<-|[]]. simpl. lia.
  - inversion Hs as [|? ? Hs' Hall]; subst.
    rewrite List.Forall_forall in Hall.
    rewrite last_cons_default.
    pose proof (IH b Hs' b ltac:(now left)) as Hb.
    pose proof (Hall b ltac:(now left)) as Hab. simpl in Hab.
    destruct Hx as [<-|Hx]; [lia|].
    pose proof (IH b Hs' x Hx). lia.
Qed.

Lemma last_in {A} (l : list A) (a : A) : In (List.last l a) (a :: l).
Proof.
  revert a. induction l as [|b l IH]; intros a; [now left|].
  rewrite last_cons_default. right. apply IH.
Qed.

Lemma sorted_by_time (ws : list Weight.t) :
  StronglySorted (fun x y => Weight.dateTimeISO x - Weight.dateTimeISO y <= 0)
    (sort (fun a b => Weight.dateTimeISO a - Weight.dateTimeISO b) ws).
Proof.
  apply Sorted_StronglySorted; [intros a b c; lia|].
  apply sort_sorted. intros; lia.
Qed.

(** X19. On two weights or more the trend runs from an earliest to a
    latest record: [start] and [end] are records of the list, no record
    is earlier than [start] or later than [end], the elapsed days are the
    span between them or 1 when the span is shorter than a day, and the
    weekly rate times the elapsed days is seven times the weight
    difference, so the rate has the sign of the difference and is at most
    seven times it in size. *)
Theorem computeWeightTrend_extremes (ws : list Weight.t) :
  (2 <= length ws)%nat ->
  exists (first last : Weight.t) (days perWeek : Q),
    wt_start (computeWeightTrend ws) = Some first
    /\ wt_end (computeWeightTrend ws) = Some last
    /\ In first ws /\ In last ws
    /\ (forall w, In w ws ->
          Weight.dateTimeISO first <= Weight.dateTimeISO w <= Weight.dateTimeISO last)
    /\ wt_days (computeWeightTrend ws) = Some days
    /\ days = Qmax 1 (inject_Z (Weight.dateTimeISO last - Weight.dateTimeISO first)
                      / inject_Z msPerDay)
    /\ wt_perWeekKg (computeWeightTrend ws) = Some (Num perWeek)
    /\ (perWeek * days == 7 * (Weight.weightKg last - Weight.weightKg first))%Q
    /\ (0 < perWeek <-> Weight.weightKg first < Weight.weightKg last)%Q
    /\ (perWeek < 0 <-> Weight.weightKg last < Weight.weightKg first)%Q
    /\ (Qabs perWeek <= 7 * Qabs (Weight.weightKg last - Weight.weightKg first))%Q.
Proof.
  intros Hlen. unfold computeWeightTrend.
  rewrite (proj2 (Nat.ltb_ge _ _) Hlen).
  pose proof (sorted_by_time ws) as Hs.
  pose proof (sort_in (fun a b => Weight.dateTimeISO a - Weight.dateTimeISO b) ws) as Hin.
  pose proof (sort_length (fun a b => Weight.dateTimeISO a - Weight.dateTimeISO b) ws) as Hl.
  destruct (sort (fun a b => Weight.dateTimeISO a - Weight.dateTimeISO b) ws)
    as [|first tl] eqn:E; [simpl in Hl; lia|].
  pose proof (sorted_asc_ends Weight.dateTimeISO tl first Hs) as Hends.
  pose proof (last_in tl first) as Hlast.
  rewrite <- (last_cons_default tl first first) in Hends, Hlast.
  set (last := List.last (first :: tl) first) in *.
  assert (Hspan : Weight.dateTimeISO first <= Weight.dateTimeISO last).
  { apply (Hends last), Hlast. }
  set (days := Qmax 1 (daysBetween (Weight.dateTimeISO last) (Weight.dateTimeISO first))).
  set (delta := (Weight.weightKg last - Weight.weightKg first)%Q).
  assert (Hdays : (1 <= days)%Q) by apply Q.le_max_l.
  assert (Hnz : ~ (days / 7 == 0)%Q).
  { intros H0. assert (days == 0)%Q by (rewrite <- (Qmult_div_r days 7), H0 by discriminate; ring).
    lra. }
  exists first, last, days, (delta / (days / 7))%Q. cbn [wt_start wt_end wt_days wt_perWeekKg].
  fold last. fold days. fold delta.
  assert (Hp : (delta / (days / 7) * days == 7 * delta)%Q) by (field; lra).
  split; [reflexivity|]. split; [reflexivity|].
  split; [apply (proj1 (Hin first)); now left|].
  split; [apply (proj1 (Hin last)), Hlast|].
  split; [intros w Hw; apply Hends, (proj2 (Hin w)), Hw|].
  split; [reflexivity|]. split.
  { subst days. unfold daysBetween. now rewrite Z.abs_eq by lia. }
  split; [now rewrite div_defined|]. split; [exact Hp|].
  set (p := (delta / (days / 7))%Q) in *.
  assert (Hd : (Weight.weightKg first < Weight.weightKg last <-> 0 < delta)%Q)
    by (subst delta; split; intros; lra).
  assert (Hd' : (Weight.weightKg last < Weight.weightKg first <-> delta < 0)%Q)
    by (subst delta; split; intros; lra).
  rewrite Hd, Hd'. clear Hd Hd'. clearbody p delta days.
  split; [split; intros; nra|]. split; [split; intros; nra|].
  destruct (Qlt_le_dec delta 0) as [Hneg|Hpos].
  - assert (p <= 0)%Q by nra.
    rewrite (Qabs_neg p), (Qabs_neg delta) by lra. nra.
  - assert (0 <= p)%Q by nra.
    rewrite (Qabs_pos p), (Qabs_pos delta) by lra. nra.
Qed.

Lemma computeWeightTrend_extremes_witness :
  (2 <= length sparseWeights)%nat
  /\ exists first last : Weight.t,
       wt_start (computeWeightTrend sparseWeights) = Some first
       /\ wt_end (computeWeightTrend sparseWeights) = Some last
       /\ forall w, In w sparseWeights ->
            Weight.dateTimeISO first <= Weight.dateTimeISO w <= Weight.dateTimeISO last.
Proof.
  assert (Hlen : (2 <= length sparseWeights)%nat) by (simpl; lia).
  split; [exact Hlen|].
  destruct (computeWeightTrend_extremes sparseWeights Hlen)
    as (first & last & days & perWeek & Hs & He & _ & _ & Hall & _).
  exists first, last. split; [exact Hs|]. split; [exact He|exact Hall].
Defined.

Lemma sorted_perm_unique (l1 l2 : list Z) :
  StronglySorted (fun a b => a - b <= 0) l1 ->
  StronglySorted (fun a b => a - b <= 0) l2 ->
  Permutation l1 l2 -> l1 = l2.
Proof.
  revert l2. induction l1 as [|a l1 IH]; intros l2 H1 H2 Hp.
  - apply Permutation_nil in Hp. now subst.
  - destruct l2 as [|b l2].
    { apply Permutation_sym, Permutation_nil in Hp. discriminate. }
    inversion H1 as [|? ? H1' Ha]; subst. inversion H2 as [|? ? H2' Hb]; subst.
    rewrite List.Forall_forall in Ha, Hb.
    assert (Hab : a = b).
    { assert (Hina : In a (b :: l2)) by (apply (Permutation_in _ Hp); now left).
      assert (Hinb : In b (a :: l1))
        by (apply (Permutation_in _ (Permutation_sym Hp)); now left).
      destruct Hina as [->|Hina]; [reflexivity|].
      destruct Hinb as [->|Hinb]; [reflexivity|].
      specialize (Ha b Hinb). specialize (Hb a Hina). simpl in *. lia. }
    subst b. f_equal. apply IH; try assumption.
    now apply Permutation_cons_inv in Hp.
Qed.

Lemma sort_times_perm (l l' : list Z) :
  Permutation l l' -> sort (fun a b => a - b) l = sort (fun a b => a - b) l'.
Proof.
  intros Hp. apply sorted_perm_unique.
  - apply Sorted_StronglySorted; [intros a b c; lia|]. apply sort_sorted. intros; lia.
  - apply Sorted_StronglySorted; [intros a b c; lia|]. apply sort_sorted. intros; lia.
  - rewrite !sort_perm. exact Hp.
Qed.

Lemma sumQ_acc (l : list Q) (a : Q) : (fold_left Qplus l a == a + sumQ l)%Q.
Proof.
  unfold sumQ. revert a. induction l as [|x l IH]; intros a; simpl; [ring|].
  rewrite (IH (a + x)%Q), (IH (0 + x)%Q). ring.
Qed.

Lemma sumQ_cons (x : Q) (l : list Q) : (sumQ (x :: l) == x + sumQ l)%Q.
Proof. unfold sumQ at 1. simpl. rewrite sumQ_acc. ring. Qed.

Lemma intervals_telescope (rest : list Z) (t0 : Z) :
  StronglySorted (fun a b => a - b <= 0) (t0 :: rest) ->
  (sumQ (intervalsOf (t0 :: rest)) == inject_Z (List.last rest t0 - t0) / inject_Z msPerDay)%Q.
Proof.
  revert t0. induction rest as [|t1 rest IH]; intros t0 Hs.
  - simpl. rewrite Z.sub_diag. reflexivity.
  - inversion Hs as [|? ? Hs' Hall]; subst. rewrite List.Forall_forall in Hall.
    change (intervalsOf (t0 :: t1 :: rest))
      with (daysBetween t1 t0 :: intervalsOf (t1 :: rest)).
    rewrite sumQ_cons, (IH t1 Hs'), last_cons_default.
    pose proof (Hall t1 ltac:(now left)) as H01. simpl in H01.
    unfold daysBetween. rewrite Z.abs_eq by lia.
    unfold Z.sub. rewrite !inject_Z_plus, !inject_Z_opp.
    field. intros H0. change 0%Q with (inject_Z 0) in H0. apply inject_Z_eq in H0.
    discriminate H0.
Qed.

Lemma on_time_rate_bounds (a b : nat) :
  (a <= b)%nat -> (0 < b)%nat ->
  (0 <= inject_Z (Z.of_nat a) / inject_Z (Z.of_nat b) <= 1)%Q.
Proof.
  intros Hab Hb.
  assert (Hpos : (0 < inject_Z (Z.of_nat b))%Q).
  { change 0%Q with (inject_Z 0). rewrite <- Zlt_Qlt. lia. }
  split.
  - apply Qle_shift_div_l; [exact Hpos|]. rewrite Qmult_0_l.
    change 0%Q with (inject_Z 0). rewrite <- Zle_Qle. lia.
  - apply Qle_shift_div_r; [exact Hpos|]. rewrite Qmult_1_l. rewrite <- Zle_Qle. lia.
Qed.

(** X20. On two applications or more the regularity depends on the
    instants only, not on the order of the records. The mean interval is
    the span from the earliest to the latest application, in days,
    divided by the number of gaps, which is one less than the number of
    applications; and the on-schedule rate lies between 0 and 1. *)
Theorem computeInjectionRegularity_spread (l : list Injection.t) :
  (2 <= length l)%nat ->
  exists mean rate : Q,
    ir_meanDays (computeInjectionRegularity l) = Some (Num mean)
    /\ ir_onTimeRate (computeInjectionRegularity l) = Some (Num rate)
    /\ (forall first last,
          In first l -> In last l ->
          (forall i, In i l ->
             Injection.dateTimeISO first <= Injection.dateTimeISO i
             <= Injection.dateTimeISO last) ->
          (mean * inject_Z (Z.of_nat (length l - 1))
           == inject_Z (Injection.dateTimeISO last - Injection.dateTimeISO first)
              / inject_Z msPerDay)%Q)
    /\ (0 <= rate <= 1)%Q
    /\ (forall l', Permutation (instantsOf l) (instantsOf l') ->
          computeInjectionRegularity l' = computeInjectionRegularity l).
Proof.
  intros Hlen. unfold computeInjectionRegularity at 1 2.
  rewrite (proj2 (Nat.ltb_ge _ _) Hlen). cbn [ir_meanDays ir_onTimeRate].
  set (times := sort (fun a b => a - b) (map Injection.dateTimeISO l)).
  assert (Hlt : @length Date times = length l).
  { subst times. now rewrite sort_length, length_map. }
  assert (Hli : length (intervalsOf times) = (length l - 1)%nat).
  { now rewrite intervalsOf_length, Hlt. }
  assert (Hnz : ~ (inject_Z (Z.of_nat (length (intervalsOf times))) == 0)%Q).
  { apply inject_Z_of_nat_nonzero. lia. }
  rewrite (div_defined _ _ Hnz). unfold safeRatio.
  destruct (Qeq_bool (inject_Z (Z.of_nat (length (intervalsOf times)))) 0) eqn:E.
  { apply Qeq_bool_iff in E. contradiction. }
  rewrite (div_defined _ _ Hnz).
  eexists _, _. split; [reflexivity|]. split; [reflexivity|].
  split; [|split].
  - intros first last Hf Hl Hall.
    assert (Hs : StronglySorted (fun a b => a - b <= 0) times).
    { subst times. apply Sorted_StronglySorted; [intros a b c; lia|].
      apply sort_sorted. intros; lia. }
    assert (Hin : forall t, In t times <-> exists i, In i l /\ Injection.dateTimeISO i = t).
    { intros t. subst times. rewrite sort_in, List.in_map_iff.
      split; intros (i & H1 & H2); exists i; tauto. }
    destruct times as [|t0 rest] eqn:Et; [simpl in Hlt; lia|].
    pose proof (sorted_asc_ends (fun t : Z => t) rest t0 Hs) as Hends.
    pose proof (last_in rest t0) as Hlast.
    assert (H0 : t0 = Injection.dateTimeISO first).
    { destruct (proj1 (Hin t0) ltac:(now left)) as (i0 & Hi0 & <-).
      pose proof (Hall i0 Hi0).
      pose proof (Hends (Injection.dateTimeISO first)
                    (proj2 (Hin _) (ex_intro _ first (conj Hf eq_refl)))) as He.
      cbv beta in He. lia. }
    assert (H1 : List.last rest t0 = Injection.dateTimeISO last).
    { destruct (proj1 (Hin _) Hlast) as (i1 & Hi1 & Hi1').
      pose proof (Hall i1 Hi1).
      pose proof (Hends (Injection.dateTimeISO last)
                    (proj2 (Hin _) (ex_intro _ last (conj Hl eq_refl)))) as He.
      cbv beta in He. lia. }
    rewrite <- Hli, <- H0, <- H1, <- (intervals_telescope rest t0 Hs).
    field. exact Hnz.
  - apply on_time_rate_bounds; [apply filter_length_le|lia].
  - intros l' Hp. unfold instantsOf in Hp.
    assert (Hlen' : length l' = length l).
    { apply Permutation_length in Hp. rewrite !length_map in Hp. lia. }
    unfold computeInjectionRegularity. rewrite Hlen'.
    rewrite (proj2 (Nat.ltb_ge _ _) Hlen).
    now rewrite (sort_times_perm _ _ (Permutation_sym Hp)).
Qed.

Lemma computeInjectionRegularity_spread_witness :
  (2 <= length weeklyInjections)%nat
  /\ exists mean rate : Q,
       ir_meanDays (computeInjectionRegularity weeklyInjections) = Some (Num mean)
       /\ ir_onTimeRate (computeInjectionRegularity weeklyInjections) = Some (Num rate)
       /\ (0 <= rate <= 1)%Q.
Proof.
  assert (Hlen : (2 <= length weeklyInjections)%nat) by (simpl; lia).
  split; [exact Hlen|].
  destruct (computeInjectionRegularity_spread weeklyInjections Hlen)
    as (mean & rate & Hm & Hr & _ & Hb & _).
  exists mean, rate. split; [exact Hm|]. split; [exact Hr|exact Hb].
Defined.

(** ** The adherence of a range and the consistency of a week *)

Lemma adherence_fold_counts (W K I : gset Z) (q : Q) (days : list Date)
    (eW dW eI dI : Z) :
  fold_left (adherenceStep W K I q) days (eW, dW, eI, dI)
  = (eW + Z.of_nat (length (List.filter (fun d => bool_decide (getDay d ∈ W)) days)),
     dW + Z.of_nat (length (List.filter
                              (fun d => bool_decide (getDay d ∈ W)
                                        && bool_decide (getLocalDateKey d ∈ K)) days)),
     eI + Z.of_nat (length (List.filter (fun d => eq_int q (getDay d)) days)),
     dI + Z.of_nat (length (List.filter
                              (fun d => eq_int q (getDay d)
                                        && bool_decide (getLocalDateKey d ∈ I)) days))).
Proof.
  revert eW dW eI dI. induction days as [|d days IH]; intros eW dW eI dI.
  - simpl. now rewrite !Z.add_0_r.
  - cbn [fold_left List.filter]. unfold adherenceStep at 2.
    destruct (bool_decide (getDay d ∈ W)); destruct (eq_int q (getDay d));
      destruct (bool_decide (getLocalDateKey d ∈ K));
      destruct (bool_decide (getLocalDateKey d ∈ I));
      cbn [andb]; rewrite IH; cbn [length]; rewrite ?Nat2Z.inj_succ;
      (apply f_equal2; [apply f_equal2; [apply f_equal2|]|]); lia.
Qed.

Lemma filter_map_length {A B} (f : A -> B) (p : B -> bool) (l : list A) :
  length (List.filter p (map f l)) = length (List.filter (fun x => p (f x)) l).
Proof.
  induction l as [|a l IH]; [reflexivity|]. simpl.
  destruct (p (f a)); simpl; now rewrite IH.
Qed.

Lemma filter_filter_length {A} (p q : A -> bool) (l : list A) :
  length (List.filter q (List.filter p l)) = length (List.filter (fun x => p x && q x) l).
Proof.
  induction l as [|a l IH]; [reflexivity|]. simpl.
  destruct (p a); simpl; [destruct (q a); simpl; now rewrite IH|exact IH].
Qed.

Lemma filter_no_other_day (q : Q) (g : Z) (l : list Date) :
  eq_int q g = true -> ~ In g (map getDay l) ->
  List.filter (fun d => eq_int q (getDay d)) l = [].
Proof.
  intros Eg Hg. induction l as [|b l IH]; [reflexivity|]. simpl.
  destruct (eq_int q (getDay b)) eqn:Eb.
  - exfalso. apply Hg. left.
    unfold eq_int in Eg, Eb. apply Qeq_bool_iff in Eg, Eb.
    rewrite Eg in Eb. symmetry. now apply inject_Z_eq in Eb.
  - apply IH. intros Hin. apply Hg. now right.
Qed.

(** Among days with distinct weekdays at most one is the application
    day. *)
Lemma filter_injection_day (q : Q) (l : list Date) :
  List.NoDup (map getDay l) ->
  List.filter (fun d => eq_int q (getDay d)) l
  = match List.find (fun d => eq_int q (getDay d)) l with
    | Some d => [d]
    | None => []
    end.
Proof.
  induction l as [|a l IH]; intros Hnd; [reflexivity|].
  inversion Hnd as [|? ? Ha Hnd']; subst. simpl.
  destruct (eq_int q (getDay a)) eqn:Ea; [|now apply IH].
  f_equal. now apply (filter_no_other_day q (getDay a)).
Qed.

Lemma week_days_distinct (start : Date) :
  List.NoDup (map getDay (map (addDays start) (seqZ 0 7))).
Proof.
  rewrite map_map.
  rewrite (map_ext _ (fun i => (getDay start + i) mod 7)) by (intros; apply getDay_addDays).
  pose proof (getDay_range start) as Hr.
  assert (Hg : getDay start = 0 \/ getDay start = 1 \/ getDay start = 2 \/ getDay start = 3
               \/ getDay start = 4 \/ getDay start = 5 \/ getDay start = 6) by lia.
  destruct Hg as [->|[->|[->|[->|[->|[->| ->]]]]]];
    match goal with
    | |- List.NoDup ?l => let l' := eval vm_compute in l in change (List.NoDup l')
    end;
    repeat (constructor; [simpl; intuition discriminate|]); constructor.
Qed.

Lemma startOfWeekMonday_sunday (now : Date) :
  getDay now = 0 -> startOfWeekMonday now = addDays (startOfDay now) (-6).
Proof.
  intros Hg. unfold startOfWeekMonday. now rewrite getDay_startOfDay, Hg.
Qed.

(** X21. On a Sunday the adherence of the last seven days is the
    consistency of the week that ends: read from the same store and with
    the same settings, [computeScheduleAdherenceForRange(7, ...)] and
    [renderWeeklyConsistency] count the same expected and done weigh-ins
    and applications and give the same points and percentage. *)
Theorem adherence_of_sunday_week (w : World) (s : Settings) :
  getDay (clock w) = 0 ->
  let a := computeScheduleAdherenceForRange (clock w) 7 (Some s) (rangeDataOf w) in
  let r := renderWeeklyConsistency (clock w) (cacheOf w) s JUndefined in
  expectedWeights a = wc_expectedWeights r
  /\ doneWeights a = wc_doneWeights r
  /\ expectedInj a = wc_expectedInj r
  /\ doneInj a = wc_doneInj r
  /\ expectedPoints a = wc_expectedPoints r
  /\ donePoints a = wc_donePoints r
  /\ pct a = Some (wc_pct r).
Proof.
  intros Hsun a r.
  set (start := addDays (startOfDay (clock w)) (-6)).
  set (days := map (addDays start) (seqZ 0 7)).
  set (W := list_to_set (weighDaysOrDefault s) : gset Z).
  set (q := clampedInjectionDow s).
  assert (HK : uniqueDateKeysFromDateTimeISO (map Weight.dateTimeISO (db_weights w))
               = weightKeys (cacheOf w)).
  { unfold uniqueDateKeysFromDateTimeISO. now rewrite map_map. }
  assert (HI : uniqueDateKeysFromDateTimeISO (map Injection.dateTimeISO (db_injections w))
               = injectionKeys (cacheOf w)).
  { unfold uniqueDateKeysFromDateTimeISO. now rewrite map_map. }
  set (K := weightKeys (cacheOf w)) in *. set (I := injectionKeys (cacheOf w)) in *.
  assert (Ha : a = let eW := Z.of_nat (length (List.filter
                                 (fun d => bool_decide (getDay d ∈ W)) days)) in
                   let dW := Z.of_nat (length (List.filter
                                 (fun d => bool_decide (getDay d ∈ W)
                                           && bool_decide (getLocalDateKey d ∈ K)) days)) in
                   let eI := Z.of_nat (length (List.filter
                                 (fun d => eq_int q (getDay d)) days)) in
                   let dI := Z.of_nat (length (List.filter
                                 (fun d => eq_int q (getDay d)
                                           && bool_decide (getLocalDateKey d ∈ I)) days)) in
                   {| expectedWeights := eW; doneWeights := dW; expectedInj := eI;
                      doneInj := dI; expectedPoints := eW + eI * 2;
                      donePoints := dW + dI * 2;
                      pct := percentOfDouble (dW + dI * 2) (eW + eI * 2) |}).
  { subst a. unfold computeScheduleAdherenceForRange, rangeDataOf. cbn [rd_weights rd_injections].
    rewrite HK, HI. change (Z.max 1 7 - 1) with 6. fold start. fold days. fold W. fold q.
    fold K. fold I. now rewrite adherence_fold_counts. }
  assert (Hstart : addDays (startOfWeekMonday (clock w)) (-7 * weekOffsetOf JUndefined) = start).
  { rewrite (startOfWeekMonday_sunday _ Hsun). subst start.
    change (weekOffsetOf JUndefined) with 0. unfold addDays. lia. }
  assert (HeW : wc_expectedWeights r
                = Z.of_nat (length (List.filter (fun d => bool_decide (getDay d ∈ W)) days))).
  { subst r. unfold renderWeeklyConsistency. cbn [wc_expectedWeights]. rewrite Hstart.
    unfold expectedWeighKeysFrom. fold days. fold W. now rewrite length_map. }
  assert (HdW : wc_doneWeights r
                = Z.of_nat (length (List.filter
                                      (fun d => bool_decide (getDay d ∈ W)
                                                && bool_decide (getLocalDateKey d ∈ K)) days))).
  { subst r. unfold renderWeeklyConsistency. cbn [wc_doneWeights]. rewrite Hstart.
    unfold expectedWeighKeysFrom. fold days. fold W. fold K.
    now rewrite filter_map_length, filter_filter_length. }
  pose proof (filter_injection_day q days (week_days_distinct start)) as Hone.
  assert (HeI : wc_expectedInj r
                = Z.of_nat (length (List.filter (fun d => eq_int q (getDay d)) days))).
  { subst r. unfold renderWeeklyConsistency. cbn [wc_expectedInj]. rewrite Hstart.
    unfold findInjectionDay. fold days. fold q. rewrite Hone.
    now destruct (List.find _ days). }
  assert (HdI : wc_doneInj r
                = Z.of_nat (length (List.filter
                                      (fun d => eq_int q (getDay d)
                                                && bool_decide (getLocalDateKey d ∈ I)) days))).
  { subst r. unfold renderWeeklyConsistency. cbn [wc_doneInj]. rewrite Hstart.
    unfold findInjectionDay. fold days. fold q. fold I.
    rewrite <- filter_filter_length, Hone.
    destruct (List.find _ days) as [d|]; [|reflexivity]. simpl.
    now destruct (bool_decide (getLocalDateKey d ∈ I)). }
  assert (HeI1 : 0 <= wc_expectedInj r <= 1).
  { rewrite HeI, Hone. destruct (List.find _ days); simpl; lia. }
  assert (HdI1 : 0 <= wc_doneInj r <= 1).
  { rewrite HdI, <- filter_filter_length, Hone.
    destruct (List.find _ days) as [d|]; simpl; [|lia].
    destruct (bool_decide (getLocalDateKey d ∈ I)); simpl; lia. }
  assert (HeP : wc_expectedPoints r = wc_expectedWeights r + wc_expectedInj r * 2).
  { subst r. unfold renderWeeklyConsistency in *.
    cbn [wc_expectedPoints wc_expectedWeights wc_expectedInj] in *.
    destruct (option_map getLocalDateKey _); reflexivity. }
  assert (HdP : wc_donePoints r = wc_doneWeights r + wc_doneInj r * 2).
  { subst r. unfold renderWeeklyConsistency in *.
    cbn [wc_donePoints wc_doneWeights wc_doneInj] in *.
    destruct (option_map getLocalDateKey _) as [k|]; [|reflexivity].
    destruct (bool_decide (k ∈ injectionKeys (cacheOf w))); reflexivity. }
  assert (Hpct : wc_pct r = percentOf (wc_donePoints r) (wc_expectedPoints r)) by reflexivity.
  assert (Hdbl : percentOfDouble (wc_donePoints r) (wc_expectedPoints r) = Some (wc_pct r)).
  { rewrite Hpct. apply percentOfDouble_small.
    - rewrite HdP, HeP, HdW, HeW.
      pose proof (filter_length_le (fun d => bool_decide (getLocalDateKey d ∈ K))
                    (List.filter (fun d => bool_decide (getDay d ∈ W)) days)) as Hle.
      rewrite filter_filter_length in Hle.
      assert (wc_doneInj r <= wc_expectedInj r).
      { rewrite HdI, HeI.
        pose proof (filter_length_le (fun d => bool_decide (getLocalDateKey d ∈ I))
                      (List.filter (fun d => eq_int q (getDay d)) days)) as Hle'.
        rewrite filter_filter_length in Hle'. lia. }
      lia.
    - rewrite HeP, HeW.
      pose proof (filter_length_le (fun d => bool_decide (getDay d ∈ W)) days) as Hle.
      subst days. rewrite length_map, length_seqZ in Hle. lia. }
  rewrite Ha. cbn [expectedWeights doneWeights expectedInj doneInj expectedPoints donePoints pct].
  rewrite <- Hdbl, HeP, HdP, HeW, HdW, HeI, HdI. repeat split.
Qed.

Lemma adherence_of_sunday_week_witness :
  getDay (clock gapWorldOnSunday) = 0
  /\ pct (computeScheduleAdherenceForRange (clock gapWorldOnSunday) 7 (Some DEFAULTS)
            (rangeDataOf gapWorldOnSunday))
     = Some (wc_pct (renderWeeklyConsistency (clock gapWorldOnSunday)
                       (cacheOf gapWorldOnSunday) DEFAULTS JUndefined))
  /\ wc_pct (renderWeeklyConsistency (clock gapWorldOnSunday) (cacheOf gapWorldOnSunday)
               DEFAULTS JUndefined) = 80.
Proof.
  assert (Hsun : getDay (clock gapWorldOnSunday) = 0) by reflexivity.
  split; [exact Hsun|]. split; [|reflexivity].
  exact (proj2 (proj2 (proj2 (proj2 (proj2 (proj2
           (adherence_of_sunday_week gapWorldOnSunday DEFAULTS Hsun))))))).
Defined.

(** ** The consistency badge *)

Lemma weekly_points (now : Date) (cache : Cache) (s : Settings) (weekOffset : jsval) :
  let r := renderWeeklyConsistency now cache s weekOffset in
  0 <= wc_donePoints r <= wc_expectedPoints r /\ wc_expectedPoints r <= 9
  /\ wc_pct r = percentOf (wc_donePoints r) (wc_expectedPoints r).
Proof.
  intros r.
  destruct (weekly_counts now cache s weekOffset) as (Hw & H7 & Hi & H1 & _).
  fold r in Hw, H7, Hi, H1.
  assert (HeP : wc_expectedPoints r
                = wc_expectedWeights r + (if wc_expectedInj r =? 0 then 0 else 2))
    by reflexivity.
  assert (HdP : wc_donePoints r
                = wc_doneWeights r + (if wc_doneInj r =? 0 then 0 else 2))
    by reflexivity.
  split; [|split; [|reflexivity]]; rewrite HeP, ?HdP;
    destruct (Z.eqb_spec (wc_expectedInj r) 0); destruct (Z.eqb_spec (wc_doneInj r) 0); lia.
Qed.

(** X22. The badge of the weekly consistency says [Excelente] only for a
    full week: [renderWeeklyConsistency] hands its percentage to
    [statusBadgeFromPercent], and because a week has at most nine points
    the percentage reaches 90 exactly when something was expected and all
    of it was done; with a single point missing the badge is at best
    [Boa], and with nothing expected it is [Ajustar]. *)
Theorem weekly_badge_excellent (now : Date) (cache : Cache) (s : Settings)
    (weekOffset : jsval) :
  let r := renderWeeklyConsistency now cache s weekOffset in
  let badge := statusBadgeFromPercent (wc_pct r) in
  (badge_label badge = "Excelente"%string
   <-> 0 < wc_expectedPoints r /\ wc_donePoints r = wc_expectedPoints r)
  /\ (badge_label badge = "Excelente"%string <-> wc_pct r = 100)
  /\ (wc_expectedPoints r = 0 -> badge_label badge = "Ajustar"%string)
  /\ (badge_cls badge = "chip chip--ok"%string <-> badge_label badge = "Excelente"%string).
Proof.
  intros r badge.
  destruct (weekly_points now cache s weekOffset) as (Hd & H9 & Hpct). fold r in Hd, H9, Hpct.
  assert (Hlabel : badge_label badge = "Excelente"%string <-> 90 <= wc_pct r).
  { subst badge. unfold statusBadgeFromPercent.
    destruct (Z.leb_spec 90 (wc_pct r)); [tauto|].
    destruct (70 <=? wc_pct r); split; try discriminate; lia. }
  assert (Hcls : badge_cls badge = "chip chip--ok"%string <-> 90 <= wc_pct r).
  { subst badge. unfold statusBadgeFromPercent.
    destruct (Z.leb_spec 90 (wc_pct r)); [tauto|].
    destruct (70 <=? wc_pct r); split; try discriminate; lia. }
  assert (Hfull : 90 <= wc_pct r
                  <-> 0 < wc_expectedPoints r /\ wc_donePoints r = wc_expectedPoints r).
  { rewrite Hpct. destruct (Z.eq_dec (wc_expectedPoints r) 0) as [E|Hne].
    - rewrite E, percentOf_zero. lia.
    - rewrite percentOf_div by lia. split.
      + intros H90. split; [lia|].
        destruct (Z.eq_dec (wc_donePoints r) (wc_expectedPoints r)) as [E|Hlt]; [exact E|].
        exfalso.
        assert (Hub : (200 * wc_donePoints r + wc_expectedPoints r)
                      / (2 * wc_expectedPoints r) < 90).
        { apply Z.div_lt_upper_bound; lia. }
        lia.
      + intros (_ & ->). apply Z.div_le_lower_bound; lia. }
  assert (H100 : wc_pct r = 100
                 <-> 0 < wc_expectedPoints r /\ wc_donePoints r = wc_expectedPoints r).
  { rewrite Hpct. destruct (Z.eq_dec (wc_expectedPoints r) 0) as [E|Hne].
    - rewrite E, percentOf_zero. lia.
    - rewrite (percentOf_full _ _ Hd) by lia. lia. }
  split; [now rewrite Hlabel|]. split; [rewrite Hlabel, H100; exact Hfull|].
  split; [|now rewrite Hcls, Hlabel].
  intros E. subst badge. rewrite Hpct, E, percentOf_zero. reflexivity.
Qed.

Lemma weekly_badge_excellent_witness :
  wc_expectedPoints
    (renderWeeklyConsistency (10 * msPerDay) fullWeekCache noScheduleSettings JUndefined) = 0
  /\ badge_label
       (statusBadgeFromPercent
          (wc_pct (renderWeeklyConsistency (10 * msPerDay) fullWeekCache noScheduleSettings
                     JUndefined)))
     = "Ajustar"%string.
Proof.
  assert (H0 : wc_expectedPoints
                 (renderWeeklyConsistency (10 * msPerDay) fullWeekCache noScheduleSettings
                    JUndefined) = 0) by reflexivity.
  split; [exact H0|].
  exact (proj1 (proj2 (proj2 (weekly_badge_excellent (10 * msPerDay) fullWeekCache
                                noScheduleSettings JUndefined))) H0).
Defined.

(** ** The cards of the local insights *)

Lemma plateauRule_cases (nowMs : Date) (ws : list Weight.t) :
  plateauRule nowMs ws = [] \/ plateauRule nowMs ws = [plateauCard].
Proof.
  unfold plateauRule. cbv zeta.
  destruct (6 <=? length _)%nat; [|now left].
  destruct (map Weight.weightKg _); [now left|].
  destruct (negb _); [now right|now left].
Qed.

Lemma reboundRule_cases (wAsc : list Weight.t) :
  reboundRule wAsc = [] \/ reboundRule wAsc = [reboundCard].
Proof.
  induction wAsc as [|a l IH]; [now left|].
  destruct l as [|b [|c l']]; [now left|now left|].
  cbn [reboundRule]. cbv zeta.
  destruct (_ <? _); [exact IH|].
  destruct (Qle_bool _ 1); [exact IH|].
  destruct (_ <? _); [exact IH|].
  destruct (Qle_bool _ _); [now right|exact IH].
Qed.

Lemma addDays_0 (d : Date) : addDays d 0 = d.
Proof. unfold addDays. lia. Qed.

Lemma weighRoutineRule_weekly (now : Date) (cache : Cache) (s : Settings) :
  let r := renderWeeklyConsistency now cache s JUndefined in
  weighRoutineRule now cache s
  = if 2 <=? wc_expectedWeights r - wc_doneWeights r then [routineCard] else [].
Proof.
  unfold weighRoutineRule, renderWeeklyConsistency.
  cbn [wc_expectedWeights wc_doneWeights].
  change (weekOffsetOf JUndefined) with 0. change (-7 * 0) with 0.
  now rewrite addDays_0.
Qed.

Lemma scheduleRule_cases (cache : Cache) (s : Settings) :
  scheduleRule cache s
  = match head (injectionsDesc cache) with
    | Some lastInj =>
        if eq_int (clampedInjectionDow s) (getDay (Injection.dateTimeISO lastInj))
        then [] else [scheduleCard]
    | None => []
    end.
Proof.
  unfold scheduleRule. destruct (head _); [|reflexivity].
  cbv zeta. now destruct (eq_int _ _).
Qed.

(** X23. The local insights hold at most one card per rule, in the order
    of the rules, with distinct titles, and are never empty: the card
    that says there is no alert is there exactly when no rule fired, and
    then it is alone. The weigh-in routine card is there exactly when the
    consistency of the current week misses two expected weigh-ins or
    more, and the schedule card exactly when the latest application was
    not made on the application weekday. *)
Theorem buildLocalInsights_cards (now : Date) (cache : Cache) (s : Settings) :
  let cards := buildLocalInsights now cache s in
  let r := renderWeeklyConsistency now cache s JUndefined in
  cards <> []
  /\ (length cards <= 5)%nat
  /\ List.NoDup (map title cards)
  /\ (exists keep : list bool,
        cards = [noAlertCard]
        \/ cards = map snd (List.filter fst
                              (combine keep [plateauCard; reboundCard; routineCard;
                                             scheduleCard; nauseaItem])))
  /\ (forall it, In it cards -> severity it = sev_ok -> cards = [noAlertCard])
  /\ (In routineCard cards <-> 2 <= wc_expectedWeights r - wc_doneWeights r)
  /\ (In scheduleCard cards
      <-> exists lastInj,
            head (injectionsDesc cache) = Some lastInj
            /\ eq_int (clampedInjectionDow s) (getDay (Injection.dateTimeISO lastInj))
               = false).
Proof.
  intros cards r. subst cards. unfold buildLocalInsights. cbv zeta.
  rewrite (weighRoutineRule_weekly now cache s). fold r. cbv zeta.
  rewrite scheduleRule_cases.
  assert (Hsched : forall P : Prop,
            (match head (injectionsDesc cache) with
             | Some lastInj =>
                 if eq_int (clampedInjectionDow s) (getDay (Injection.dateTimeISO lastInj))
                 then [] else [scheduleCard]
             | None => []
             end = [] -> ~ (exists lastInj,
                              head (injectionsDesc cache) = Some lastInj
                              /\ eq_int (clampedInjectionDow s)
                                   (getDay (Injection.dateTimeISO lastInj)) = false))
            /\ (match head (injectionsDesc cache) with
                | Some lastInj =>
                    if eq_int (clampedInjectionDow s) (getDay (Injection.dateTimeISO lastInj))
                    then [] else [scheduleCard]
                | None => []
                end = [scheduleCard]
                -> exists lastInj,
                     head (injectionsDesc cache) = Some lastInj
                     /\ eq_int (clampedInjectionDow s)
                          (getDay (Injection.dateTimeISO lastInj)) = false)).
  { intros _. destruct (head (injectionsDesc cache)) as [lastInj|].
    - destruct (eq_int _ _) eqn:E.
      + split; [|discriminate]. intros _ (x & [= <-] & Hx). congruence.
      + split; [discriminate|]. intros _. now exists lastInj.
    - split; [|discriminate]. intros _ (x & Hx & _). discriminate. }
  destruct (Hsched True) as (Hs0 & Hs1). clear Hsched.
  set (sched := match head (injectionsDesc cache) with
                | Some lastInj => _
                | None => []
                end) in *.
  assert (Hsc : sched = [] \/ sched = [scheduleCard]).
  { subst sched. destruct (head _); [destruct (eq_int _ _)|]; auto. }
  clearbody sched.
  destruct (Z.leb_spec 2 (wc_expectedWeights r - wc_doneWeights r)) as [Hr|Hr];
    destruct (plateauRule_cases now (weights cache)) as [-> | ->];
    destruct (reboundRule_cases
                (sort (fun a b => Weight.dateTimeISO a - Weight.dateTimeISO b) (weights cache)))
      as [-> | ->];
    destruct Hsc as [-> | ->];
    destruct (nauseaRule_cases cache) as [-> | ->];
    cbn [app];
    (split; [discriminate|]);
    (split; [simpl; lia|]);
    (split; [repeat (constructor; [simpl; intuition discriminate|]); constructor|]);
    (split;
     [first [ exists []; left; reflexivity
            | exists [true; true; true; true; true]; right; reflexivity
            | exists [true; true; true; true; false]; right; reflexivity
            | exists [true; true; true; false; true]; right; reflexivity
            | exists [true; true; true; false; false]; right; reflexivity
            | exists [true; true; false; true; true]; right; reflexivity
            | exists [true; true; false; true; false]; right; reflexivity
            | exists [true; true; false; false; true]; right; reflexivity
            | exists [true; true; false; false; false]; right; reflexivity
            | exists [true; false; true; true; true]; right; reflexivity
            | exists [true; false; true; true; false]; right; reflexivity
            | exists [true; false; true; false; true]; right; reflexivity
            | exists [true; false; true; false; false]; right; reflexivity
            | exists [true; false; false; true; true]; right; reflexivity
            | exists [true; false; false; true; false]; right; reflexivity
            | exists [true; false; false; false; true]; right; reflexivity
            | exists [true; false; false; false; false]; right; reflexivity
            | exists [false; true; true; true; true]; right; reflexivity
            | exists [false; true; true; true; false]; right; reflexivity
            | exists [false; true; true; false; true]; right; reflexivity
            | exists [false; true; true; false; false]; right; reflexivity
            | exists [false; true; false; true; true]; right; reflexivity
            | exists [false; true; false; true; false]; right; reflexivity
            | exists [false; true; false; false; true]; right; reflexivity
            | exists [false; true; false; false; false]; right; reflexivity
            | exists [false; false; true; true; true]; right; reflexivity
            | exists [false; false; true; true; false]; right; reflexivity
            | exists [false; false; true; false; true]; right; reflexivity
            | exists [false; false; true; false; false]; right; reflexivity
            | exists [false; false; false; true; true]; right; reflexivity
            | exists [false; false; false; true; false]; right; reflexivity
            | exists [false; false; false; false; true]; right; reflexivity ]|]);
    (split;
     [intros it Hin Hok; simpl in Hin;
      repeat (destruct Hin as [<-|Hin]; [first [discriminate Hok|reflexivity]|]);
      destruct Hin|]);
    (split;
     [split;
      [intros Hin; simpl in Hin;
       repeat (destruct Hin as [Hin|Hin]; [first [discriminate Hin|lia]|]);
       destruct Hin
      |intros Hge; first [lia|simpl; tauto]]|]);
    (split;
     [intros Hin; simpl in Hin;
      first [ apply Hs1; reflexivity
            | exfalso;
              repeat (destruct Hin as [Hin|Hin]; [discriminate Hin|]); destruct Hin ]
     |intros Hex; first [exfalso; apply (Hs0 eq_refl); exact Hex|simpl; tauto]]).
Qed.

(** ** The dose history *)

Lemma doseLoop_spec (l : list Dose.t) (last : option Q) (items : list DoseItem) :
  doseLoop l last items = items ++ doseChanges l last.
Proof.
  revert last items. induction l as [|inj rest IH]; intros last items; simpl.
  - now rewrite app_nil_r.
  - destruct (Dose.doseMg inj) as [|dose]; [apply IH|].
    destruct last as [kept|].
    + destruct (Qle_bool _ _); [|apply IH]. now rewrite IH, <- app_assoc.
    + now rewrite IH, <- app_assoc.
Qed.

Lemma doseChanges_entries (l : list Dose.t) (last : option Q) (it : DoseItem) :
  In it (doseChanges l last) -> exists r, In r l /\ entryOf r it.
Proof.
  revert last. induction l as [|inj rest IH]; intros last; simpl; [intros []|].
  destruct (Dose.doseMg inj) as [|dose] eqn:E.
  - intros Hin. destruct (IH _ Hin) as (r & Hr & He). exists r. split; [now right|exact He].
  - assert (Hhere : forall last',
              In it ({| di_dateTimeISO := Dose.dateTimeISO inj; di_doseMg := dose |}
                       :: doseChanges rest last') ->
              exists r, In r (inj :: rest) /\ entryOf r it).
    { intros last' [<-|Hin].
      - exists inj. split; [now left|]. split; [reflexivity|exact E].
      - destruct (IH _ Hin) as (r & Hr & He). exists r. split; [now right|exact He]. }
    destruct last as [kept|]; [destruct (Qle_bool _ _)|]; try apply Hhere.
    intros Hin. destruct (IH _ Hin) as (r & Hr & He). exists r. split; [now right|exact He].
Qed.

Lemma doseChanges_steps (l : list Dose.t) (last : option Q) :
  Sorted doseStep (doseChanges l last)
  /\ (forall kept, last = Some kept ->
        HdRel doseStep {| di_dateTimeISO := 0; di_doseMg := kept |} (doseChanges l last)).
Proof.
  revert last. induction l as [|inj rest IH]; intros last; cbn [doseChanges]; cbv zeta.
  - split; [constructor|]. intros; constructor.
  - destruct (Dose.doseMg inj) as [|dose]; [apply IH|].
    destruct last as [kept|].
    + destruct (Qle_bool (1 # 10000) (Qabs (dose - kept))) eqn:E.
      * destruct (IH (Some dose)) as (Hs & Hh). split.
        -- constructor; [exact Hs|].
           specialize (Hh dose eq_refl).
           destruct (doseChanges rest (Some dose)); constructor.
           inversion Hh; subst. assumption.
        -- intros kept' [= <-]. constructor. unfold doseStep. simpl.
           now apply Qle_bool_iff.
      * apply IH.
    + destruct (IH (Some dose)) as (Hs & Hh). split; [|discriminate].
      constructor; [exact Hs|].
      specialize (Hh dose eq_refl).
      destruct (doseChanges rest (Some dose)); constructor.
      inversion Hh; subst. assumption.
Qed.

Lemma doseChanges_none (l : list Dose.t) :
  doseChanges l None = [] <-> Forall (fun r => Dose.doseMg r = NaN) l.
Proof.
  induction l as [|inj rest IH]; simpl.
  - split; [constructor|reflexivity].
  - destruct (Dose.doseMg inj) as [|dose] eqn:E.
    + rewrite IH. split.
      * intros H. now constructor.
      * intros H. now inversion H.
    + split; [discriminate|]. intros H. inversion H; subst. congruence.
Qed.

Lemma doseChanges_length (l : list Dose.t) (last : option Q) :
  (length (doseChanges l last) <= length l)%nat.
Proof.
  revert last. induction l as [|inj rest IH]; intros last; simpl; [lia|].
  destruct (Dose.doseMg inj) as [|dose].
  - specialize (IH last). lia.
  - destruct last as [kept|]; [destruct (Qle_bool _ _)|]; simpl;
      first [specialize (IH (Some dose)); lia|specialize (IH (Some kept)); lia].
Qed.

(** X24. The dose history lists the changes of dose: it is empty exactly
    when no record has a finite dose; every entry carries the date and
    the dose of a record; when it has two entries or more they are the
    first finite dose followed by each dose that differs by 0.0001 mg or
    more from the one kept before it, so neighbours always differ by that
    much; and when only one dose was kept the single entry is the last
    record, if its dose is finite, and not the first. *)
Theorem computeDoseHistory_changes (l : list Dose.t) :
  let h := computeDoseHistory l in
  (h = [] <-> Forall (fun r => Dose.doseMg r = NaN) l)
  /\ (forall it, In it h -> exists r, In r l /\ entryOf r it)
  /\ (length h <= length l)%nat
  /\ ((2 <= length h)%nat -> h = doseChanges l None /\ Sorted doseStep h)
  /\ (forall only first rest lastDose,
        doseChanges l None = [only] -> l = first :: rest ->
        Dose.doseMg (List.last l first) = Num lastDose ->
        h = [{| di_dateTimeISO := Dose.dateTimeISO (List.last l first);
                di_doseMg := lastDose |}]).
Proof.
  intros h. subst h. unfold computeDoseHistory.
  destruct l as [|first rest].
  { split; [split; [constructor|reflexivity]|].
    split; [intros it []|]. split; [simpl; lia|]. split; [simpl; lia|].
    intros; discriminate. }
  rewrite doseLoop_spec. cbn [app].
  set (l := first :: rest).
  pose proof (doseChanges_none l) as Hnone.
  pose proof (doseChanges_length l None) as Hlen.
  pose proof (proj1 (doseChanges_steps l None)) as Hsteps.
  pose proof (doseChanges_entries l None) as Hent.
  destruct (doseChanges l None) as [|a [|b tl]] eqn:E.
  - split; [exact Hnone|]. split; [intros it []|]. split; [simpl; lia|].
    split; [simpl; lia|]. intros; discriminate.
  - destruct (Dose.doseMg (List.last l first)) as [|dose] eqn:El.
    + split.
      { split; [discriminate|]. intros H. apply Hnone in H. discriminate. }
      split; [exact Hent|]. split; [exact Hlen|]. split; [simpl; lia|].
      intros only first' rest' lastDose _ Hl Hd. subst l. injection Hl as <- <-.
      rewrite El in Hd. discriminate Hd.
    + split.
      { split; [discriminate|]. intros H. apply Hnone in H. discriminate. }
      split.
      { intros it [<-|[]]. exists (List.last l first). split.
        - subst l. rewrite last_cons_default. apply (last_in rest first).
        - split; [reflexivity|exact El]. }
      split; [exact Hlen|]. split; [simpl; lia|].
      intros only first' rest' lastDose _ Hl Hd. subst l. injection Hl as <- <-.
      rewrite El in Hd. injection Hd as <-. reflexivity.
  - split.
    { split; [discriminate|]. intros H. apply Hnone in H. discriminate. }
    split; [exact Hent|]. split; [exact Hlen|].
    split; [intros _; split; [reflexivity|exact Hsteps]|].
    intros; discriminate.
Qed.

Lemma computeDoseHistory_changes_witness :
  (2 <= length (computeDoseHistory steppedDoses))%nat
  /\ Sorted doseStep (computeDoseHistory steppedDoses)
  /\ computeDoseHistory steadyDoses
     = [{| di_dateTimeISO := 15 * msPerDay; di_doseMg := 5 # 2 |}].
Proof.
  assert (H2 : (2 <= length (computeDoseHistory steppedDoses))%nat) by (simpl; lia).
  split; [exact H2|]. split.
  - exact (proj2 (proj1 (proj2 (proj2 (proj2 (computeDoseHistory_changes steppedDoses)))) H2)).
  - exact (proj2 (proj2 (proj2 (proj2 (computeDoseHistory_changes steadyDoses))))
             _ _ _ _ eq_refl eq_refl eq_refl).
Defined.

(** ** The common symptoms *)

Lemma signOf_le (q : Q) : signOf q <= 0 <-> (q <= 0)%Q.
Proof.
  unfold signOf. destruct (Qcompare_spec q 0) as [H|H|H]; split; intros; try lia; try lra.
Qed.

Lemma sumQ_bounds (l : list Q) (lo hi : Q) :
  Forall (fun x => lo <= x <= hi)%Q l ->
  (inject_Z (Z.of_nat (length l)) * lo <= sumQ l
   <= inject_Z (Z.of_nat (length l)) * hi)%Q.
Proof.
  induction 1 as [|x l Hx Hl IH].
  - unfold sumQ. cbn [length fold_left]. change (inject_Z (Z.of_nat 0)) with 0%Q. lra.
  - rewrite sumQ_cons. cbn [length]. rewrite Nat2Z.inj_succ. unfold Z.succ.
    rewrite inject_Z_plus. change (inject_Z 1) with 1%Q.
    set (N := inject_Z (Z.of_nat (length l))) in *. clearbody N. nra.
Qed.

Lemma average_bounds (l : list Q) :
  l <> [] -> Forall (fun x => 0 <= x <= 10)%Q l ->
  (0 <= sumQ l / inject_Z (Z.of_nat (length l)) <= 10)%Q.
Proof.
  intros Hne Hall. pose proof (sumQ_bounds l 0 10 Hall) as Hb.
  assert (Hpos : (0 < inject_Z (Z.of_nat (length l)))%Q).
  { change 0%Q with (inject_Z 0). rewrite <- Zlt_Qlt. destruct l; [contradiction|simpl; lia]. }
  split.
  - apply Qle_shift_div_l; [exact Hpos|]. lra.
  - apply Qle_shift_div_r; [exact Hpos|]. lra.
Qed.

(** X25. On one application or more the common symptoms give the five
    averages in the order of the keys, each between 0 and 10 whatever the
    stored scores are, and the two keys with the largest averages, the
    larger first: no other key has an average above the second of them.
    Without applications both results are empty. *)
Theorem computeCommonSymptoms_top (l : list Symptoms.t) :
  (l <> [] ->
   let r := computeCommonSymptoms l in
   map fst (cs_averages r) = symptomKeys
   /\ Forall (fun ka => 0 <= snd ka <= 10)%Q (cs_averages r)
   /\ exists x1 x2,
        cs_top r = [x1; x2]
        /\ In x1 (cs_averages r) /\ In x2 (cs_averages r)
        /\ fst x1 <> fst x2
        /\ (snd x2 <= snd x1)%Q
        /\ forall y, In y (cs_averages r) -> fst y <> fst x1 -> (snd y <= snd x2)%Q)
  /\ computeCommonSymptoms [] = {| cs_top := []; cs_averages := [] |}.
Proof.
  split; [|reflexivity].
  intros Hne r. subst r. unfold computeCommonSymptoms.
  destruct l as [|i0 l0]; [contradiction|].
  set (l := i0 :: l0) in *. cbv zeta. cbn [cs_top cs_averages].
  set (scores k := map (fun i => clampNumber (nullish (symptomOf i k) (JNum (Num 0))) 0 10) l).
  set (n := inject_Z (Z.of_nat (length l))).
  set (averages := map (fun '(k, s) => (k, (s / n)%Q))
                     (map (fun k => (k, sumQ (scores k))) symptomKeys)).
  assert (Hkeys : map fst averages = symptomKeys) by reflexivity.
  assert (Hrange : Forall (fun ka => 0 <= snd ka <= 10)%Q averages).
  { assert (Hk : forall k, (0 <= sumQ (scores k) / n <= 10)%Q).
    { intros k. subst n.
      replace (length l) with (length (scores k)) by (subst scores; apply length_map).
      apply average_bounds.
      - subst scores l. discriminate.
      - subst scores. cbv beta. apply List.Forall_forall. intros x Hx.
        apply List.in_map_iff in Hx as (i & <- & _). apply clampNumber_range. lra. }
    subst averages. cbn [map symptomKeys]. repeat constructor; apply Hk. }
  split; [exact Hkeys|]. split; [exact Hrange|].
  set (cmp := fun a b : SymptomKey * Q => signOf (snd b - snd a)).
  assert (Hcmp : forall a b, cmp a b <= 0 <-> (snd b <= snd a)%Q).
  { intros a b. subst cmp. cbv beta. rewrite signOf_le. split; intros; lra. }
  assert (Hs : StronglySorted (fun a b => cmp a b <= 0) (sort cmp averages)).
  { apply Sorted_StronglySorted.
    - intros a b c Hab Hbc. apply Hcmp. apply Hcmp in Hab, Hbc. lra.
    - apply sort_sorted. intros x y.
      destruct (Qlt_le_dec (snd x) (snd y)); [right|left]; apply Hcmp; lra. }
  pose proof (sort_perm cmp averages) as Hperm.
  pose proof (sort_length cmp averages) as Hlen.
  assert (Hnd : List.NoDup (map fst (sort cmp averages))).
  { apply (Permutation_NoDup (l := map fst averages)).
    - apply Permutation_map, Permutation_sym, Hperm.
    - rewrite Hkeys. unfold symptomKeys.
      repeat (constructor; [simpl; intuition discriminate|]). constructor. }
  change (exists x1 x2,
            take 2 (sort cmp averages) = [x1; x2]
            /\ In x1 averages /\ In x2 averages
            /\ fst x1 <> fst x2
            /\ (snd x2 <= snd x1)%Q
            /\ forall y, In y averages -> fst y <> fst x1 -> (snd y <= snd x2)%Q).
  destruct (sort cmp averages) as [|x1 [|x2 rest]] eqn:E;
    [discriminate Hlen|discriminate Hlen|].
  exists x1, x2. cbn [take].
  inversion Hs as [|? ? Hs' H1]; subst. inversion Hs' as [|? ? Hs'' H2]; subst.
  rewrite List.Forall_forall in H1, H2.
  inversion Hnd as [|? ? Hn1 Hnd']; subst.
  split; [reflexivity|].
  split; [apply (Permutation_in _ Hperm); now left|].
  split; [apply (Permutation_in _ Hperm); right; now left|].
  split; [intros Heq; apply Hn1; left; now symmetry|].
  split; [apply Hcmp, H1; now left|].
  intros y Hy Hne1.
  apply (Permutation_in _ (Permutation_sym Hperm)) in Hy.
  destruct Hy as [<-|[<-|Hy]]; [contradiction|lra|].
  apply Hcmp, H2, Hy.
Qed.

Lemma computeCommonSymptoms_top_witness :
  twoSymptomReports <> []
  /\ map fst (cs_top (computeCommonSymptoms twoSymptomReports)) = [sk_nausea; sk_energy]
  /\ map fst (cs_averages (computeCommonSymptoms twoSymptomReports)) = symptomKeys.
Proof.
  assert (Hne : twoSymptomReports <> []) by discriminate.
  split; [exact Hne|]. split; [reflexivity|].
  exact (proj1 (proj1 (computeCommonSymptoms_top twoSymptomReports) Hne)).
Defined.

(** ** The change of the measures *)

Lemma in_deltasOf (fields : list ((BodyMeasures.t -> option Q) * string))
    (start end_ : BodyMeasures.t) (label : string) (d : Q) :
  In (label, d) (deltasOf fields start end_)
  <-> exists k a b, In (k, label) fields /\ k start = Some a /\ k end_ = Some b
                    /\ d = (b - a)%Q.
Proof.
  induction fields as [|[k0 label0] rest IH]; simpl.
  - split; [intros []|intros (k & a & b & [] & _)].
  - assert (Hrest : In (label, d) (deltasOf rest start end_)
                    -> exists k a b, ((k0, label0) = (k, label) \/ In (k, label) rest)
                                     /\ k start = Some a /\ k end_ = Some b
                                     /\ d = (b - a)%Q).
    { intros Hin. apply IH in Hin as (k & a & b & Hk & Ha & Hb & Hd).
      exists k, a, b. tauto. }
    destruct (k0 start) as [a0|] eqn:Ea; [destruct (k0 end_) as [b0|] eqn:Eb|].
    + split.
      * intros [[= <- <-]|Hin]; [|now apply Hrest].
        exists k0, a0, b0. tauto.
      * intros (k & a & b & [[= <- <-]|Hk] & Ha & Hb & ->).
        -- left. congruence.
        -- right. apply IH. now exists k, a, b.
    + split; [exact Hrest|].
      intros (k & a & b & [[= <- <-]|Hk] & Ha & Hb & ->); [congruence|].
      apply IH. now exists k, a, b.
    + split; [exact Hrest|].
      intros (k & a & b & [[= <- <-]|Hk] & Ha & Hb & ->); [congruence|].
      apply IH. now exists k, a, b.
Qed.

Lemma deltasOf_labels (fields : list ((BodyMeasures.t -> option Q) * string))
    (start end_ : BodyMeasures.t) :
  List.NoDup (map snd fields) ->
  List.NoDup (map fst (deltasOf fields start end_))
  /\ (forall label, In label (map fst (deltasOf fields start end_)) ->
                    In label (map snd fields))
  /\ (length (deltasOf fields start end_) <= length fields)%nat.
Proof.
  induction fields as [|[k0 label0] rest IH]; intros Hnd; simpl.
  - split; [constructor|]. split; [tauto|lia].
  - inversion Hnd as [|? ? Hn Hnd']; subst.
    destruct (IH Hnd') as (IH1 & IH2 & IH3).
    destruct (k0 start); [destruct (k0 end_)|]; simpl.
    + split; [constructor; [intros Hin; apply Hn, IH2, Hin|exact IH1]|].
      split; [intros label [<-|Hin]; [now left|right; now apply IH2]|lia].
    + split; [exact IH1|]. split; [intros label Hin; right; now apply IH2|lia].
    + split; [exact IH1|]. split; [intros label Hin; right; now apply IH2|lia].
Qed.

Lemma sorted_by_dateISO (l : list BodyMeasures.t) :
  StronglySorted (fun x y => BodyMeasures.dateISO x - BodyMeasures.dateISO y <= 0)
    (sort (fun a b => compareDateKeys (BodyMeasures.dateISO a) (BodyMeasures.dateISO b)) l).
Proof.
  assert (Hs : Sorted (fun a b => compareDateKeys (BodyMeasures.dateISO a)
                                    (BodyMeasures.dateISO b) <= 0)
                 (sort (fun a b => compareDateKeys (BodyMeasures.dateISO a)
                                     (BodyMeasures.dateISO b)) l)).
  { apply sort_sorted. intros x y.
    pose proof (compareDateKeys_le (BodyMeasures.dateISO x) (BodyMeasures.dateISO y)).
    pose proof (compareDateKeys_le (BodyMeasures.dateISO y) (BodyMeasures.dateISO x)). lia. }
  apply Sorted_StronglySorted; [intros a b c; lia|].
  induction Hs as [|a l' Hs IH Hhd]; constructor; [exact IH|].
  destruct Hhd as [|b l'' Hab]; constructor.
  apply (proj1 (compareDateKeys_le _ _)) in Hab. lia.
Qed.

(** X26. The change of the measures compares an earliest with a latest
    record: with fewer than two records everything is null; otherwise
    [start] and [end] are records of the list, no record is dated before
    [start] or after [end], and [deltas] has one entry, [end] minus
    [start], for each of the eight fields that both records have, under
    the label of the field, and none for the others. *)
Theorem computeMeasuresDelta_ends (l : list BodyMeasures.t) :
  ((length l < 2)%nat ->
     computeMeasuresDelta l = {| md_start := None; md_end := None; md_deltas := None |})
  /\ ((2 <= length l)%nat ->
      exists (first last : BodyMeasures.t) (deltas : list (string * Q)),
        computeMeasuresDelta l
        = {| md_start := Some first; md_end := Some last; md_deltas := Some deltas |}
        /\ In first l /\ In last l
        /\ (forall m, In m l ->
              BodyMeasures.dateISO first <= BodyMeasures.dateISO m
              <= BodyMeasures.dateISO last)
        /\ (forall label d,
              In (label, d) deltas
              <-> exists k a b, In (k, label) measureFields
                                /\ k first = Some a /\ k last = Some b /\ d = (b - a)%Q)
        /\ List.NoDup (map fst deltas)
        /\ (length deltas <= 8)%nat).
Proof.
  split.
  - intros Hlt. unfold computeMeasuresDelta. now rewrite (proj2 (Nat.ltb_lt _ _) Hlt).
  - intros Hlen. unfold computeMeasuresDelta. rewrite (proj2 (Nat.ltb_ge _ _) Hlen).
    pose proof (sorted_by_dateISO l) as Hs.
    pose proof (sort_in (fun a b => compareDateKeys (BodyMeasures.dateISO a)
                                      (BodyMeasures.dateISO b)) l) as Hin.
    pose proof (sort_length (fun a b => compareDateKeys (BodyMeasures.dateISO a)
                                          (BodyMeasures.dateISO b)) l) as Hl.
    destruct (sort (fun a b => compareDateKeys (BodyMeasures.dateISO a)
                                 (BodyMeasures.dateISO b)) l)
      as [|first tl] eqn:E; [simpl in Hl; lia|].
    pose proof (sorted_asc_ends BodyMeasures.dateISO tl first Hs) as Hends.
    pose proof (last_in tl first) as Hlast.
    rewrite <- (last_cons_default tl first first) in Hends, Hlast.
    set (last := List.last (first :: tl) first) in *.
    assert (Hnd : List.NoDup (map snd measureFields)).
    { unfold measureFields. cbn [map snd].
      repeat (constructor; [simpl; intuition discriminate|]). constructor. }
    destruct (deltasOf_labels measureFields first last Hnd) as (H1 & _ & H3).
    exists first, last, (deltasOf measureFields first last).
    split; [reflexivity|].
    split; [apply (proj1 (Hin first)); now left|].
    split; [apply (proj1 (Hin last)), Hlast|].
    split; [intros m Hm; apply Hends, (proj2 (Hin m)), Hm|].
    split; [intros label d; apply in_deltasOf|].
    split; [exact H1|exact H3].
Qed.

Lemma computeMeasuresDelta_ends_witness :
  (2 <= length threeMeasures)%nat
  /\ md_deltas (computeMeasuresDelta threeMeasures) = Some [("Cintura"%string, (92 - 95)%Q)]
  /\ exists first last deltas,
       computeMeasuresDelta threeMeasures
       = {| md_start := Some first; md_end := Some last; md_deltas := Some deltas |}
       /\ In first threeMeasures /\ In last threeMeasures.
Proof.
  assert (Hlen : (2 <= length threeMeasures)%nat) by (simpl; lia).
  split; [exact Hlen|]. split; [reflexivity|].
  destruct (proj2 (computeMeasuresDelta_ends threeMeasures) Hlen)
    as (first & last & deltas & He & Hf & Hl & _).
  exists first, last, deltas. split; [exact He|]. split; [exact Hf|exact Hl].
Defined.

(** ** Fields of the CSV export *)

Lemma string_snoc_inj (a b : string) (c : Ascii.ascii) :
  (a ++ String c EmptyString)%string = (b ++ String c EmptyString)%string -> a = b.
Proof.
  revert b. induction a as [|x a IH]; intros [|y b]; cbn [String.append]; intros H.
  - reflexivity.
  - injection H as _ H. destruct b; discriminate H.
  - injection H as _ H. destruct a; discriminate H.
  - injection H as -> H. f_equal. now apply IH.
Qed.

Lemma string_length_snoc (a : string) (c : Ascii.ascii) :
  String.length (a ++ String c EmptyString) = S (String.length a).
Proof. induction a as [|x a IH]; simpl; [reflexivity|now f_equal]. Qed.

Lemma doubleQuotes_inj (a b : string) : doubleQuotes a = doubleQuotes b -> a = b.
Proof.
  revert b. induction a as [|c a IH]; intros [|d b]; cbn [doubleQuotes].
  - reflexivity.
  - destruct (Ascii.eqb d quoteChar); discriminate.
  - destruct (Ascii.eqb c quoteChar); discriminate.
  - destruct (Ascii.eqb_spec c quoteChar) as [->|Hc];
      destruct (Ascii.eqb_spec d quoteChar) as [->|Hd]; intros H.
    + injection H as H. f_equal. now apply IH.
    + injection H as H1 _. congruence.
    + injection H as H1 _. congruence.
    + injection H as -> H. f_equal. now apply IH.
Qed.

Lemma doubleQuotes_length (s : string) :
  String.length (doubleQuotes s) = (String.length s + countQuotes s)%nat.
Proof.
  induction s as [|c s IH]; [reflexivity|].
  cbn [doubleQuotes countQuotes String.length].
  destruct (Ascii.eqb c quoteChar); cbn [String.length]; rewrite IH; lia.
Qed.

Lemma csvEscape_length (s : string) :
  String.length (csvEscape s)
  = if hasCsvSpecial s then (String.length s + countQuotes s + 2)%nat else String.length s.
Proof.
  unfold csvEscape. destruct (hasCsvSpecial s); [|reflexivity].
  change (S (String.length (doubleQuotes s ++ String quoteChar EmptyString))
          = (String.length s + countQuotes s + 2)%nat).
  rewrite string_length_snoc, doubleQuotes_length. lia.
Qed.

(** X27. [csvEscape] loses nothing: two different texts never give the
    same field. A text without a line break, a comma or a quote is
    written as it is, and only such a text is; any other text is written
    between two quotes with each of its quotes doubled, so its field is
    longer than the text by two characters and one more per quote. *)
Theorem csvEscape_injective :
  (forall a b, csvEscape a = csvEscape b -> a = b)
  /\ (forall s, csvEscape s = s <-> hasCsvSpecial s = false)
  /\ (forall s, hasCsvSpecial s = true ->
        csvEscape s = String quoteChar (doubleQuotes s ++ String quoteChar EmptyString)
        /\ String.length (csvEscape s) = (String.length s + countQuotes s + 2)%nat).
Proof.
  split; [|split].
  - intros a b H.
    assert (Hq : forall x y, hasCsvSpecial x = true -> hasCsvSpecial y = false ->
                   csvEscape x <> csvEscape y).
    { intros x y Hx Hy E. unfold csvEscape in E. rewrite Hx, Hy in E.
      rewrite <- E in Hy. cbn [hasCsvSpecial] in Hy.
      assert (Hs : isCsvSpecial quoteChar = true) by reflexivity.
      rewrite Hs in Hy. discriminate Hy. }
    destruct (hasCsvSpecial a) eqn:Ea; destruct (hasCsvSpecial b) eqn:Eb.
    + unfold csvEscape in H. rewrite Ea, Eb in H. injection H as H.
      apply string_snoc_inj in H. now apply doubleQuotes_inj.
    + exfalso. exact (Hq a b Ea Eb H).
    + exfalso. exact (Hq b a Eb Ea (eq_sym H)).
    + unfold csvEscape in H. now rewrite Ea, Eb in H.
  - intros s. split.
    + intros H. pose proof (csvEscape_length s) as Hl. rewrite H in Hl.
      destruct (hasCsvSpecial s); [lia|reflexivity].
    + intros H. unfold csvEscape. now rewrite H.
  - intros s H. split.
    + unfold csvEscape. now rewrite H.
    + now rewrite csvEscape_length, H.
Qed.

Lemma csvEscape_injective_witness :
  hasCsvSpecial quotedField = true
  /\ String.length (csvEscape quotedField) = 9%nat
  /\ csvEscape "kg"%string = "kg"%string.
Proof.
  assert (Hs : hasCsvSpecial quotedField = true) by reflexivity.
  split; [exact Hs|]. split.
  - rewrite (proj2 (proj2 (proj2 csvEscape_injective) quotedField Hs)). reflexivity.
  - apply (proj1 (proj2 csvEscape_injective)). reflexivity.
Defined.

(** ** Stored symptom scores *)

Lemma symptomOf_normalized (i : Symptoms.t) (k : SymptomKey) :
  symptomOf (normalizeSymptoms i) k
  = JNum (Num (clampNumber (nullish (symptomOf i k) (JNum (Num 0))) 0 10)).
Proof. destruct k; reflexivity. Qed.

Lemma score_of_normalized (i : Symptoms.t) (k : SymptomKey) :
  clampNumber (nullish (symptomOf (normalizeSymptoms i) k) (JNum (Num 0))) 0 10
  = clampNumber (nullish (symptomOf i k) (JNum (Num 0))) 0 10.
Proof.
  rewrite symptomOf_normalized. cbn [nullish]. apply clampNumber_twice. reflexivity.
Qed.

(** X28. The symptoms that [normalizeInjection] stores are scores from 0
    to 10, and normalizing them again changes nothing; so the symptom
    averages computed from stored applications are those of the raw
    inputs: [computeCommonSymptoms] gives the same result before and
    after normalization, and on stored scores its clamping is the
    identity. *)
Theorem normalizeSymptoms_scores (l : list Symptoms.t) (i : Symptoms.t) (k : SymptomKey) :
  (exists q, symptomOf (normalizeSymptoms i) k = JNum (Num q) /\ (0 <= q <= 10)%Q
             /\ clampNumber (JNum (Num q)) 0 10 = q)
  /\ normalizeSymptoms (normalizeSymptoms i) = normalizeSymptoms i
  /\ computeCommonSymptoms (map normalizeSymptoms l) = computeCommonSymptoms l.
Proof.
  split; [|split].
  - eexists. split; [apply symptomOf_normalized|]. split.
    + apply clampNumber_range. lra.
    + apply clampNumber_twice. reflexivity.
  - unfold normalizeSymptoms at 1. cbv zeta.
    pose proof (score_of_normalized i sk_nausea) as H1.
    pose proof (score_of_normalized i sk_reflux) as H2.
    pose proof (score_of_normalized i sk_appetite) as H3.
    pose proof (score_of_normalized i sk_energy) as H4.
    pose proof (score_of_normalized i sk_bowel) as H5.
    cbn [symptomOf] in H1, H2, H3, H4, H5. rewrite H1, H2, H3, H4, H5. reflexivity.
  - destruct l as [|i0 l0]; [reflexivity|].
    unfold computeCommonSymptoms.
    change (map normalizeSymptoms (i0 :: l0))
      with (normalizeSymptoms i0 :: map normalizeSymptoms l0).
    cbv zeta.
    assert (Hlen : length (normalizeSymptoms i0 :: map normalizeSymptoms l0)
                   = length (i0 :: l0)) by (cbn [length]; now rewrite length_map).
    assert (Hscores : forall k',
              map (fun x => clampNumber (nullish (symptomOf x k') (JNum (Num 0))) 0 10)
                (normalizeSymptoms i0 :: map normalizeSymptoms l0)
              = map (fun x => clampNumber (nullish (symptomOf x k') (JNum (Num 0))) 0 10)
                  (i0 :: l0)).
    { intros k'. change (normalizeSymptoms i0 :: map normalizeSymptoms l0)
        with (map normalizeSymptoms (i0 :: l0)).
      rewrite map_map. apply map_ext. intros x. apply score_of_normalized. }
    assert (Hsums :
              map (fun k' =>
                     (k', sumQ (map (fun x => clampNumber
                                                (nullish (symptomOf x k') (JNum (Num 0))) 0 10)
                                  (normalizeSymptoms i0 :: map normalizeSymptoms l0))))
                symptomKeys
              = map (fun k' =>
                       (k', sumQ (map (fun x => clampNumber
                                                  (nullish (symptomOf x k') (JNum (Num 0))) 0 10)
                                    (i0 :: l0))))
                  symptomKeys).
    { apply map_ext. intros k'. now rewrite Hscores. }
    rewrite Hlen, Hsums. reflexivity.
Qed.

(** ** Expected counts over whole weeks *)

Lemma filter_length_perm {A} (p : A -> bool) (l l' : list A) :
  Permutation l l' -> length (List.filter p l) = length (List.filter p l').
Proof.
  induction 1 as [|x l l' _ IH|x y l|l l' l'' _ IH1 _ IH2]; simpl.
  - reflexivity.
  - destruct (p x); simpl; now rewrite IH.
  - destruct (p x), (p y); reflexivity.
  - now rewrite IH1.
Qed.

Lemma week_rotation (g : Z) :
  0 <= g < 7 -> Permutation (map (fun j => (g + j) mod 7) (seqZ 0 7)) (seqZ 0 7).
Proof.
  intros Hg.
  assert (H : g = 0 \/ g = 1 \/ g = 2 \/ g = 3 \/ g = 4 \/ g = 5 \/ g = 6) by lia.
  destruct H as [->|[->|[->|[->|[->|[->| ->]]]]]];
    match goal with
    | |- Permutation ?l ?r =>
        let l' := eval vm_compute in l in
        let r' := eval vm_compute in r in
        change (Permutation l' r')
    end.
  - reflexivity.
  - apply (Permutation_app_comm [_; _; _; _; _; _] [_]).
  - apply (Permutation_app_comm [_; _; _; _; _] [_; _]).
  - apply (Permutation_app_comm [_; _; _; _] [_; _; _]).
  - apply (Permutation_app_comm [_; _; _] [_; _; _; _]).
  - apply (Permutation_app_comm [_; _] [_; _; _; _; _]).
  - apply (Permutation_app_comm [_] [_; _; _; _; _; _]).
Qed.

Lemma seqZ_shift (m n : Z) : seqZ m n = map (Z.add m) (seqZ 0 n).
Proof.
  replace m with (m + 0) at 1 by lia. rewrite <- fmap_add_seqZ.
  generalize (seqZ 0 n). intros l. induction l as [|x l IH]; [reflexivity|].
  cbn. now rewrite IH.
Qed.

Lemma count_whole_weeks (p : Z -> bool) (start : Date) (k : nat) :
  length (List.filter (fun d => p (getDay d))
            (map (addDays start) (seqZ 0 (7 * Z.of_nat k))))
  = (k * length (List.filter p (seqZ 0 7)))%nat.
Proof.
  induction k as [|k IH]; [reflexivity|].
  replace (7 * Z.of_nat (S k)) with (7 * Z.of_nat k + 7) by lia.
  rewrite seqZ_app by lia. rewrite map_app, List.filter_app, length_app, IH.
  assert (Hweek : length (List.filter (fun d => p (getDay d))
                            (map (addDays start) (seqZ (0 + 7 * Z.of_nat k) 7)))
                  = length (List.filter p (seqZ 0 7))).
  { rewrite <- (filter_length_perm p _ _ (week_rotation (getDay start) (getDay_range start))).
    rewrite <- (filter_map_length getDay p).
    f_equal. f_equal. rewrite map_map.
    rewrite (seqZ_shift (0 + 7 * Z.of_nat k) 7).
    rewrite map_map. apply map_ext. intros j.
    rewrite getDay_addDays.
    replace (getDay start + (0 + 7 * Z.of_nat k + j))
      with (getDay start + j + Z.of_nat k * 7) by lia.
    apply Z.mod_add. lia. }
  rewrite Hweek. lia.
Qed.

(** X29. Over whole weeks the expected counts of the adherence do not
    depend on the day the range ends: for a range of [7 k] days the
    expected weigh-ins are [k] times the number of weigh days of the
    week, and the expected applications are [k] when the application
    weekday is a weekday index, and none when it is not an integer. *)
Theorem adherence_whole_weeks (now : Date) (k : Z) (s : Settings) (data : RangeData) :
  0 <= k ->
  let a := computeScheduleAdherenceForRange now (7 * k) (Some s) data in
  expectedWeights a = k * weighDaysPerWeek s
  /\ (forall wd, (clampedInjectionDow s == inject_Z wd)%Q -> 0 <= wd <= 6 ->
        expectedInj a = k /\ expectedPoints a = k * (weighDaysPerWeek s + 2))
  /\ ((forall z, ~ (clampedInjectionDow s == inject_Z z)%Q) ->
        expectedInj a = 0 /\ expectedPoints a = k * weighDaysPerWeek s).
Proof.
  intros Hk a.
  set (start := addDays (startOfDay now) (- (Z.max 1 (7 * k) - 1))).
  set (days := map (addDays start) (seqZ 0 (7 * k))).
  set (W := list_to_set (weighDaysOrDefault s) : gset Z).
  set (q := clampedInjectionDow s).
  assert (HeW : expectedWeights a
                = Z.of_nat (length (List.filter (fun d => bool_decide (getDay d ∈ W)) days))).
  { subst a. unfold computeScheduleAdherenceForRange. fold start. fold days. fold W. fold q.
    rewrite adherence_fold_counts. reflexivity. }
  assert (HeI : expectedInj a
                = Z.of_nat (length (List.filter (fun d => eq_int q (getDay d)) days))).
  { subst a. unfold computeScheduleAdherenceForRange. fold start. fold days. fold W. fold q.
    rewrite adherence_fold_counts. reflexivity. }
  assert (HeP : expectedPoints a = expectedWeights a + expectedInj a * 2).
  { subst a. unfold computeScheduleAdherenceForRange.
    destruct (fold_left _ _ _) as [[[eW dW] eI] dI]. reflexivity. }
  assert (Hcount : forall p : Z -> bool,
            Z.of_nat (length (List.filter (fun d => p (getDay d)) days))
            = k * Z.of_nat (length (List.filter p (seqZ 0 7)))).
  { intros p. subst days. rewrite <- (Z2Nat.id k) at 1 by lia.
    rewrite count_whole_weeks. lia. }
  assert (Hw : expectedWeights a = k * weighDaysPerWeek s).
  { rewrite HeW. exact (Hcount (fun g => bool_decide (g ∈ W))). }
  split; [exact Hw|]. split.
  - intros wd Hq Hwd.
    assert (Hone : expectedInj a = k).
    { rewrite HeI, (Hcount (eq_int q)).
      assert (Heq : forall j, eq_int q j = (wd =? j)).
      { intros j. subst q. now rewrite (eq_int_comp _ _ Hq _ _ eq_refl), eq_int_inject_Z. }
      rewrite (List.filter_ext _ _ Heq).
      assert (H : wd = 0 \/ wd = 1 \/ wd = 2 \/ wd = 3 \/ wd = 4 \/ wd = 5 \/ wd = 6) by lia.
      destruct H as [->|[->|[->|[->|[->|[->| ->]]]]]]; vm_compute length; lia. }
    split; [exact Hone|]. rewrite HeP, Hw, Hone. lia.
  - intros Hfrac.
    assert (Hzero : expectedInj a = 0).
    { rewrite HeI, (Hcount (eq_int q)).
      assert (Heq : forall j, eq_int q j = false).
      { intros j. destruct (eq_int q j) eqn:E; [|reflexivity].
        exfalso. apply (Hfrac j). unfold eq_int in E. now apply Qeq_bool_iff in E. }
      rewrite (List.filter_ext _ (fun _ => false) Heq).
      vm_compute length. lia. }
    split; [exact Hzero|]. rewrite HeP, Hw, Hzero. lia.
Qed.

Lemma adherence_whole_weeks_witness :
  0 <= 4
  /\ expectedWeights (computeScheduleAdherenceForRange (1000 * msPerDay) (7 * 4)
                        (Some DEFAULTS) (rangeDataOf sampleWorld)) = 12
  /\ expectedInj (computeScheduleAdherenceForRange (1000 * msPerDay) (7 * 4)
                    (Some DEFAULTS) (rangeDataOf sampleWorld)) = 4.
Proof.
  assert (Hk : 0 <= 4) by lia.
  split; [exact Hk|].
  destruct (adherence_whole_weeks (1000 * msPerDay) 4 DEFAULTS (rangeDataOf sampleWorld) Hk)
    as (Hw & Hi & _).
  split.
  - rewrite Hw. reflexivity.
  - apply (Hi 6); [reflexivity|lia].
Defined.

(** ** The dashboard checklist *)






(** ** Regularity and trend: null below two records, tied to the records above *)

Lemma sorted_le_of_sub (l : list Z) :
  Sorted (fun a b => a - b <= 0) l -> Sorted Z.le l.
Proof.
  induction 1 as [|a l Hs IH Hhd]; constructor; [exact IH|].
  destruct Hhd; constructor. lia.
Qed.

(** On instants in ascending order the intervals the code computes are the
    gaps between neighbours. *)
Lemma intervalsOf_gaps (rest : list Date) (t0 : Date) :
  StronglySorted (fun a b => a - b <= 0) (t0 :: rest) ->
  intervalsOf (t0 :: rest) = neighbourGaps t0 rest.
Proof.
  revert t0. induction rest as [|t1 rest IH]; intros t0 Hs; [reflexivity|].
  inversion Hs as [|? ? Hs' Hall]; subst. rewrite List.Forall_forall in Hall.
  pose proof (Hall t1 ltac:(left; reflexivity)) as H01. cbv beta in H01.
  change (intervalsOf (t0 :: t1 :: rest))
    with (daysBetween t1 t0 :: intervalsOf (t1 :: rest)).
  cbn [neighbourGaps]. rewrite (IH t1 Hs').
  unfold daysBetween. now rewrite Z.abs_eq by lia.
Qed.

(** C7. With fewer than two records the regularity of applications has a
    null mean interval and a null on-schedule rate, and the weight trend
    has null ends, a null delta and a null weekly rate: null, not zero and
    not a trend through a single point. With two records or more both are
    numbers read off the records. The mean interval times the number of
    gaps is the span, in days, from an earliest to a latest application,
    and the on-schedule rate is the share of the gaps between neighbours
    in time order that are of 6 to 8 days. The trend runs from an earliest
    to a latest weight: its elapsed days are the span between the two, or
    1 when the span is shorter than a day, its delta is the later weight
    minus the earlier, and its weekly rate is the delta divided by the
    elapsed days over 7, a division by a positive number. *)
Theorem trend_and_regularity_defined
    (injections : list Injection.t) (ws : list Weight.t) :
  ((length injections < 2)%nat ->
     ir_meanDays (computeInjectionRegularity injections) = None
     /\ ir_onTimeRate (computeInjectionRegularity injections) = None)
  /\ ((length ws < 2)%nat ->
        wt_start (computeWeightTrend ws) = None
        /\ wt_end (computeWeightTrend ws) = None
        /\ wt_deltaKg (computeWeightTrend ws) = None
        /\ wt_perWeekKg (computeWeightTrend ws) = None)
  /\ ((2 <= length injections)%nat ->
        exists (mean rate : Q) (first last : Injection.t) (times : list Date),
          ir_meanDays (computeInjectionRegularity injections) = Some (Num mean)
          /\ ir_onTimeRate (computeInjectionRegularity injections) = Some (Num rate)
          /\ In first injections /\ In last injections
          /\ (forall i, In i injections ->
                Injection.dateTimeISO first <= Injection.dateTimeISO i
                <= Injection.dateTimeISO last)
          /\ (mean * inject_Z (Z.of_nat (length injections - 1))
              == inject_Z (Injection.dateTimeISO last - Injection.dateTimeISO first)
                 / inject_Z msPerDay)%Q
          /\ Permutation times (map Injection.dateTimeISO injections)
          /\ Sorted Z.le times
          /\ length (gapsInDays times) = (length injections - 1)%nat
          /\ (rate == inject_Z (countOf onSchedule (gapsInDays times))
                      / inject_Z (Z.of_nat (length injections - 1)))%Q
          /\ (0 <= rate <= 1)%Q)
  /\ ((2 <= length ws)%nat ->
        exists (first last : Weight.t) (days : Q),
          wt_start (computeWeightTrend ws) = Some first
          /\ wt_end (computeWeightTrend ws) = Some last
          /\ wt_days (computeWeightTrend ws) = Some days
          /\ (1 <= days)%Q
          /\ wt_deltaKg (computeWeightTrend ws)
             = Some (Weight.weightKg last - Weight.weightKg first)%Q
          /\ wt_perWeekKg (computeWeightTrend ws)
             = Some (Num ((Weight.weightKg last - Weight.weightKg first) / (days / 7)))
          /\ In first ws /\ In last ws
          /\ (forall w, In w ws ->
                Weight.dateTimeISO first <= Weight.dateTimeISO w <= Weight.dateTimeISO last)
          /\ days = Qmax 1 (inject_Z (Weight.dateTimeISO last - Weight.dateTimeISO first)
                            / inject_Z msPerDay)).
Proof.
  split; [|split; [|split]].
  - intros Hlt. unfold computeInjectionRegularity.
    rewrite (proj2 (Nat.ltb_lt _ _) Hlt). split; reflexivity.
  - intros Hlt. unfold computeWeightTrend.
    rewrite (proj2 (Nat.ltb_lt _ _) Hlt). repeat split; reflexivity.
  - intros Hge. unfold computeInjectionRegularity.
    rewrite (proj2 (Nat.ltb_ge _ _) Hge). cbn [ir_meanDays ir_onTimeRate].
    pose proof (sort_sorted (fun a b => a - b) ltac:(intros; lia)
                  (map Injection.dateTimeISO injections)) as Hsrt.
    pose proof (sort_perm (fun a b => a - b) (map Injection.dateTimeISO injections)) as Hperm.
    pose proof (sort_length (fun a b => a - b) (map Injection.dateTimeISO injections)) as Hlt.
    rewrite length_map in Hlt.
    assert (Hin : forall t, In t (sort (fun a b => a - b) (map Injection.dateTimeISO injections))
                            <-> exists i, In i injections /\ Injection.dateTimeISO i = t).
    { intros t. rewrite sort_in, List.in_map_iff.
      split; intros (i & H1 & H2); exists i; tauto. }
    destruct (sort (fun a b => a - b) (map Injection.dateTimeISO injections))
      as [|t0 rest] eqn:Et; [simpl in Hlt; lia|].
    assert (Hs : StronglySorted (fun a b => a - b <= 0) (t0 :: rest)).
    { apply Sorted_StronglySorted; [intros a b c; lia|exact Hsrt]. }
    pose proof (sorted_asc_ends (fun t : Z => t) rest t0 Hs) as Hends.
    pose proof (last_in rest t0) as Hlast.
    destruct (proj1 (Hin t0) ltac:(left; reflexivity)) as (first & Hfirst & Hft).
    destruct (proj1 (Hin _) Hlast) as (last & Hlst & Hlt').
    assert (Hli : length (intervalsOf (t0 :: rest)) = (length injections - 1)%nat).
    { rewrite intervalsOf_length. exact (f_equal (fun n => (n - 1)%nat) Hlt). }
    assert (Hnz : ~ (inject_Z (Z.of_nat (length (intervalsOf (t0 :: rest)))) == 0)%Q).
    { apply inject_Z_of_nat_nonzero. lia. }
    rewrite (div_defined _ _ Hnz). unfold safeRatio.
    destruct (Qeq_bool (inject_Z (Z.of_nat (length (intervalsOf (t0 :: rest))))) 0) eqn:E.
    { apply Qeq_bool_iff in E. contradiction. }
    rewrite (div_defined _ _ Hnz).
    eexists _, _, first, last, (t0 :: rest).
    split; [reflexivity|]. split; [reflexivity|].
    split; [exact Hfirst|]. split; [exact Hlst|]. split.
    { intros i Hi. rewrite Hft, Hlt'.
      apply (Hends (Injection.dateTimeISO i)), Hin. now exists i. }
    split.
    { rewrite <- Hli, Hft, Hlt', <- (intervals_telescope rest t0 Hs).
      field. exact Hnz. }
    split; [exact Hperm|]. split; [now apply sorted_le_of_sub|].
    cbn [gapsInDays]. rewrite <- (intervalsOf_gaps rest t0 Hs).
    split; [exact Hli|]. split.
    { unfold countOf, onSchedule. now rewrite Hli. }
    apply on_time_rate_bounds; [apply filter_length_le|lia].
  - intros Hlen. unfold computeWeightTrend.
    rewrite (proj2 (Nat.ltb_ge _ _) Hlen).
    pose proof (sorted_by_time ws) as Hs.
    pose proof (sort_in (fun a b => Weight.dateTimeISO a - Weight.dateTimeISO b) ws) as Hin.
    pose proof (sort_length (fun a b => Weight.dateTimeISO a - Weight.dateTimeISO b) ws) as Hl.
    destruct (sort (fun a b => Weight.dateTimeISO a - Weight.dateTimeISO b) ws)
      as [|first tl] eqn:E; [simpl in Hl; lia|].
    pose proof (sorted_asc_ends Weight.dateTimeISO tl first Hs) as Hends.
    pose proof (last_in tl first) as Hlast.
    rewrite <- (last_cons_default tl first first) in Hends, Hlast.
    set (last := List.last (first :: tl) first) in *.
    assert (Hspan : Weight.dateTimeISO first <= Weight.dateTimeISO last).
    { apply (Hends last), Hlast. }
    set (days := Qmax 1 (daysBetween (Weight.dateTimeISO last) (Weight.dateTimeISO first))).
    assert (Hdays : (1 <= days)%Q) by apply Q.le_max_l.
    exists first, last, days.
    cbn [wt_start wt_end wt_days wt_deltaKg wt_perWeekKg]. fold last. fold days.
    split; [reflexivity|]. split; [reflexivity|]. split; [reflexivity|].
    split; [exact Hdays|]. split; [reflexivity|]. split.
    { rewrite div_defined; [reflexivity|].
      intros He.
      assert (Hpos : (0 < days / 7)%Q).
      { apply Qlt_shift_div_l; [reflexivity|].
        rewrite Qmult_0_l. apply Qlt_le_trans with 1%Q; [reflexivity|exact Hdays]. }
      rewrite He in Hpos. now apply Qlt_irrefl in Hpos. }
    split; [apply (proj1 (Hin first)); left; reflexivity|].
    split; [apply (proj1 (Hin last)), Hlast|].
    split; [intros w Hw; apply Hends, (proj2 (Hin w)), Hw|].
    subst days. unfold daysBetween. now rewrite Z.abs_eq by lia.
Qed.

(** One application gives a null mean. Applications on the days 9, 16 and
    30 have gaps of 7 and 14 days: a mean of 10.5 days and one gap of two
    on schedule. Two weights a fortnight apart, 80 kg then 78 kg, give a
    trend over 14 days, 1 kg down per week. *)
Lemma trend_and_regularity_defined_witness :
  ((length loneInjection < 2)%nat
   /\ ir_meanDays (computeInjectionRegularity loneInjection) = None)
  /\ ((2 <= length unevenInjections)%nat
      /\ exists (mean rate : Q) (times : list Date),
           ir_meanDays (computeInjectionRegularity unevenInjections) = Some (Num mean)
           /\ ir_onTimeRate (computeInjectionRegularity unevenInjections) = Some (Num rate)
           /\ (mean * 2 == 21)%Q
           /\ (rate == 1 # 2)%Q)
  /\ ((2 <= length fortnightWeights)%nat
      /\ exists (first last : Weight.t) (days : Q),
           wt_start (computeWeightTrend fortnightWeights) = Some first
           /\ wt_end (computeWeightTrend fortnightWeights) = Some last
           /\ wt_days (computeWeightTrend fortnightWeights) = Some days
           /\ (1 <= days)%Q).
Proof.
  assert (H1 : (length loneInjection < 2)%nat) by (simpl; lia).
  assert (H2 : (2 <= length unevenInjections)%nat) by (simpl; lia).
  assert (H3 : (2 <= length fortnightWeights)%nat) by (simpl; lia).
  pose proof (trend_and_regularity_defined loneInjection fortnightWeights)
    as (Ha & _ & _ & Hd).
  pose proof (trend_and_regularity_defined unevenInjections fortnightWeights)
    as (_ & _ & Hc & _).
  split; [|split].
  - split; [exact H1|]. exact (proj1 (Ha H1)).
  - split; [exact H2|].
    destruct (Hc H2) as (mean & rate & first & last & times & Hm & Hr & _).
    exists mean, rate, times. split; [exact Hm|]. split; [exact Hr|].
    vm_compute in Hm, Hr. injection Hm as <-. injection Hr as <-.
    split; reflexivity.
  - split; [exact H3|].
    destruct (Hd H3) as (first & last & days & Hs & He & Hdays & Hone & _).
    exists first, last, days.
    split; [exact Hs|]. split; [exact He|]. split; [exact Hdays|exact Hone].
Defined.

Example trend_examples :
  computeWeightTrend [sampleAt 2000000000 0 80] = nullWeightTrend
  /\ wt_perWeekKg (computeWeightTrend [sampleAt 2000000000 0 79; sampleAt 2000000000 0 80])
     = Some (Num ((80 - 79) / (1 / 7)))
  /\ ir_meanDays (computeInjectionRegularity []) = None
  /\ (exists days, wt_days (computeWeightTrend fortnightWeights) = Some days
                   /\ (days == 14)%Q)
  /\ wt_deltaKg (computeWeightTrend fortnightWeights) = Some (78 - 80)%Q
  /\ (exists perWeek, wt_perWeekKg (computeWeightTrend fortnightWeights) = Some (Num perWeek)
                      /\ (perWeek == -1)%Q)
  /\ map Weight.weightKg (sort (fun a b => Weight.dateTimeISO a - Weight.dateTimeISO b)
                            fortnightWeights) = [80%Q; 78%Q].
Proof.
  split; [reflexivity|]. split; [reflexivity|]. split; [reflexivity|].
  split; [eexists; split; [reflexivity|vm_compute; reflexivity]|].
  split; [reflexivity|].
  split; [eexists; split; [reflexivity|vm_compute; reflexivity]|].
  reflexivity.
Qed.

(** ** The weekly consistency and the adherence of a range *)

Lemma NoDup_map_filter {A B} (f : A -> B) (p : A -> bool) (l : list A) :
  List.NoDup (map f l) -> List.NoDup (map f (List.filter p l)).
Proof.
  induction l as [|a l IH]; intros Hnd; [constructor|].
  inversion Hnd as [|? ? Ha Hnd']; subst. simpl.
  destruct (p a); [|now apply IH].
  simpl. constructor; [|now apply IH].
  intros Hin. apply Ha. apply List.in_map_iff in Hin as (x & Hx & Hin).
  apply List.in_map_iff. exists x. split; [exact Hx|].
  now apply List.filter_In in Hin.
Qed.

Lemma week_keys_distinct (start : Date) :
  List.NoDup (map getLocalDateKey (map (addDays start) (seqZ 0 7))).
Proof.
  rewrite map_map.
  rewrite (map_ext _ (fun i => dayNumber start + i))
    by (intros; unfold getLocalDateKey; apply dayNumber_addDays).
  change (seqZ 0 7) with [0; 1; 2; 3; 4; 5; 6].
  repeat (constructor; [simpl; lia|]). constructor.
Qed.

Lemma same_weekday_of_week (start : Date) (i j : Z) :
  0 <= i < 7 -> 0 <= j < 7 ->
  getDay (addDays start i) = getDay (addDays start j) -> i = j.
Proof.
  intros Hi Hj. rewrite !getDay_addDays. intros He.
  pose proof (getDay_range start) as Hg.
  pose proof (Z.div_mod (getDay start + i) 7 ltac:(lia)).
  pose proof (Z.mod_pos_bound (getDay start + i) 7 ltac:(lia)).
  pose proof (Z.div_mod (getDay start + j) 7 ltac:(lia)).
  pose proof (Z.mod_pos_bound (getDay start + j) 7 ltac:(lia)).
  lia.
Qed.

(** The expected weigh keys of a week are the date keys of its days that
    are weigh days. *)
Lemma expectedWeighKeysFrom_spec (start : Date) (days : list Z) (k : DateKey) :
  In k (expectedWeighKeysFrom start (list_to_set days))
  <-> exists i, 0 <= i < 7 /\ k = getLocalDateKey (addDays start i)
                /\ In (getDay (addDays start i)) days.
Proof.
  unfold expectedWeighKeysFrom. rewrite List.in_map_iff. split.
  - intros (d & <- & Hd). apply List.filter_In in Hd as (Hd & Hp).
    apply List.in_map_iff in Hd as (i & <- & Hi). apply in_seqZ in Hi.
    apply bool_decide_eq_true in Hp. rewrite elem_of_list_to_set, list_elem_of_In in Hp.
    exists i. split; [lia|]. split; [reflexivity|exact Hp].
  - intros (i & Hi & -> & Hin). exists (addDays start i). split; [reflexivity|].
    apply List.filter_In. split.
    + apply List.in_map_iff. exists i. split; [reflexivity|]. apply in_seqZ. lia.
    + apply bool_decide_eq_true. rewrite elem_of_list_to_set, list_elem_of_In. exact Hin.
Qed.

(** The application day of a week is its day that falls on the weekday. *)
Lemma findInjectionDay_spec (start : Date) (q : Q) (d : Date) :
  findInjectionDay start q = Some d
  <-> exists i, 0 <= i < 7 /\ d = addDays start i
                /\ (q == inject_Z (getDay (addDays start i)))%Q.
Proof.
  unfold findInjectionDay. split.
  - intros Hf. apply List.find_some in Hf as (Hin & Hp).
    apply List.in_map_iff in Hin as (i & <- & Hi). apply in_seqZ in Hi.
    exists i. split; [lia|]. split; [reflexivity|]. now apply Qeq_bool_iff in Hp.
  - intros (i & Hi & -> & Hq).
    destruct (List.find _ _) as [d'|] eqn:E.
    + apply List.find_some in E as (Hin & Hp).
      apply List.in_map_iff in Hin as (j & <- & Hj). apply in_seqZ in Hj.
      apply Qeq_bool_iff in Hp. rewrite Hq in Hp. apply inject_Z_eq in Hp.
      now rewrite (same_weekday_of_week start i j ltac:(lia) ltac:(lia) Hp).
    + exfalso.
      pose proof (List.find_none _ _ E (addDays start i)
                    ltac:(apply List.in_map_iff; exists i; split;
                          [reflexivity|apply in_seqZ; lia])) as Hn.
      cbv beta in Hn. unfold eq_int in Hn.
      apply (proj2 (Qeq_bool_iff _ _)) in Hq. congruence.
Qed.

Lemma scheduledWeighDay_spec (settings : Settings) (wd : Z) :
  In wd (weighDaysOrDefault settings) <-> scheduledWeighDay settings wd.
Proof.
  unfold weighDaysOrDefault, scheduledWeighDay.
  destruct (weighDaysOfWeek settings); [reflexivity|]. simpl. intuition.
Qed.

(** A week has at most one day on the application weekday, and a range of
    up to 26 weeks at most 26. *)
Lemma injection_days_of_range (q : Q) (start : Date) (n : Z) :
  n <= 182 ->
  (length (List.filter (fun d => eq_int q (getDay d)) (map (addDays start) (seqZ 0 n)))
   <= 26)%nat.
Proof.
  intros Hn. destruct (Z_le_gt_dec n 0) as [Hneg|Hpos].
  { rewrite seqZ_nil by lia. simpl. lia. }
  pose proof (count_whole_weeks (eq_int q) start 26) as Hall.
  change (7 * Z.of_nat 26) with 182 in Hall.
  replace 182 with (n + (182 - n)) in Hall by lia.
  rewrite seqZ_app, map_app, List.filter_app, length_app in Hall by lia.
  pose proof (count_whole_weeks (eq_int q) start 1) as Hone.
  change (7 * Z.of_nat 1) with 7 in Hone.
  rewrite (filter_injection_day q _ (week_days_distinct start)) in Hone.
  set (perWeek := length (List.filter (eq_int q) (seqZ 0 7))) in *.
  destruct (List.find _ _); cbn [length] in Hone; lia.
Qed.

(** C1 (amended). The weekly consistency counts 1 point for each expected
    weigh day and 2 points for the expected application; its percentage is
    between 0 and 100, and is 0 when no point is expected. The percentage is
    100 exactly when at least one point is expected and every expected item
    is done: each expected weigh day of the week has a weight logged under
    its date key, and the application day of the week, when the week has
    one, has an application logged. The week is the one that starts on the
    Monday [weekOffset] weeks before the Monday of the current week; its
    expected weigh keys are the date keys, each once, of its seven days
    whose weekday is a weigh day of the settings, and its application key
    is the date key of its day that falls on the clamped application
    weekday; with the cache built from the store, a key is logged exactly
    when the store holds a record of that day. When the stored weekday is
    missing, not a number or an integer, points are always expected. The
    percentage computed in double precision is the same number.

    The adherence over a range of days counts the same way over the days
    of the range and scores the same way; its percentage is the one
    computed in double precision, 0 when no point is expected. For a range
    of up to 180 days, the longest of the report ranges the settings keep
    (30, 90 or 180 days), it is an integer from 0 to 100 within 1 of the
    exact rounding, and when fewer than 200 points are expected it is 100
    exactly when every expected point is done. *)
Theorem weekly_consistency_percent (now : Date) (cache : Cache) (settings : Settings)
    (weekOffset : jsval) :
  let r := renderWeeklyConsistency now cache settings weekOffset in
  wc_expectedPoints r = wc_expectedWeights r * 1 + wc_expectedInj r * 2
  /\ wc_donePoints r = wc_doneWeights r * 1 + wc_doneInj r * 2
  /\ wc_expectedWeights r = Z.of_nat (length (wc_expectedWeighKeys r))
  /\ wc_expectedInj r = match wc_injKey r with Some _ => 1 | None => 0 end
  /\ wc_pct r = percentOf (wc_donePoints r) (wc_expectedPoints r)
  /\ percentOfDouble (wc_donePoints r) (wc_expectedPoints r) = Some (wc_pct r)
  /\ 0 <= wc_pct r <= 100
  /\ (wc_expectedPoints r = 0 -> wc_pct r = 0)
  /\ (wc_pct r = 100 <-> 0 < wc_expectedPoints r /\ allExpectedDone cache r)
  /\ (integralOrNaN (rawInjectionDow settings) ->
      0 < wc_expectedPoints r /\ (wc_pct r = 100 <-> allExpectedDone cache r))
  /\ (wc_start r = addDays (startOfWeekMonday now) (-7 * weekOffsetOf weekOffset)
      /\ getDay (wc_start r) = 1 /\ wc_start r mod msPerDay = 0
      /\ wc_start r <= addDays now (-7 * weekOffsetOf weekOffset)
         < wc_start r + 7 * msPerDay)
  /\ List.NoDup (wc_expectedWeighKeys r)
  /\ (forall k, In k (wc_expectedWeighKeys r)
        <-> exists i, 0 <= i < 7 /\ k = getLocalDateKey (weekDay r i)
                      /\ scheduledWeighDay settings (getDay (weekDay r i)))
  /\ (forall k, wc_injKey r = Some k
        <-> exists i, 0 <= i < 7 /\ k = getLocalDateKey (weekDay r i)
                      /\ (clampedInjectionDow settings
                          == inject_Z (getDay (weekDay r i)))%Q)
  /\ (forall wd, injectionDayOfWeek settings = JNum (Num (inject_Z wd)) -> 0 <= wd <= 6 ->
        getDay (weekDay r ((wd + 6) mod 7)) = wd
        /\ wc_injKey r = Some (getLocalDateKey (weekDay r ((wd + 6) mod 7))))
  /\ (wc_doneWeights r = countOf (fun k => bool_decide (k ∈ weightKeys cache))
                           (wc_expectedWeighKeys r)
      /\ wc_doneInj r = match wc_injKey r with
                        | Some k => if bool_decide (k ∈ injectionKeys cache) then 1 else 0
                        | None => 0
                        end)
  /\ (allExpectedDone cache r <-> weekFullyDone settings cache r)
  /\ (wc_pct r = 100 <-> 0 < wc_expectedPoints r /\ weekFullyDone settings cache r)
  /\ (forall w : World, cache = cacheOf w ->
        (wc_pct r = 100
         <-> 0 < wc_expectedPoints r
             /\ (forall i, 0 <= i < 7 ->
                   scheduledWeighDay settings (getDay (weekDay r i)) ->
                   loggedOn w weight (getLocalDateKey (weekDay r i)))
             /\ (forall i, 0 <= i < 7 ->
                   (clampedInjectionDow settings == inject_Z (getDay (weekDay r i)))%Q ->
                   loggedOn w injection (getLocalDateKey (weekDay r i)))))
  /\ (forall (rangeDays : Z) (s : option Settings) (data : RangeData),
        let a := computeScheduleAdherenceForRange now rangeDays s data in
        let s' := match s with Some s => s | None => DEFAULTS end in
        let days := daysOfRange now rangeDays in
        let weighDay d := bool_decide (getDay d ∈ weighDaysOrDefault s') in
        let injDay d := eq_int (clampedInjectionDow s') (getDay d) in
        let weighed d :=
          bool_decide (getLocalDateKey d
                       ∈ map (fun w => getLocalDateKey (Weight.dateTimeISO w))
                           (rd_weights data)) in
        let applied d :=
          bool_decide (getLocalDateKey d
                       ∈ map (fun i => getLocalDateKey (Injection.dateTimeISO i))
                           (rd_injections data)) in
        expectedWeights a = countOf weighDay days
        /\ doneWeights a = countOf (fun d => weighDay d && weighed d) days
        /\ expectedInj a = countOf injDay days
        /\ doneInj a = countOf (fun d => injDay d && applied d) days
        /\ expectedPoints a = expectedWeights a * 1 + expectedInj a * 2
        /\ donePoints a = doneWeights a * 1 + doneInj a * 2
        /\ pct a = percentOfDouble (donePoints a) (expectedPoints a)
        /\ (expectedPoints a = 0 -> pct a = Some 0)
        /\ (rangeDays <= 180 ->
            exists p, pct a = Some p
                      /\ 0 <= p <= 100
                      /\ Z.abs (p - percentOf (donePoints a) (expectedPoints a)) <= 1
                      /\ (expectedPoints a < 200 ->
                          (p = 100 <-> 0 < expectedPoints a
                                       /\ donePoints a = expectedPoints a)))).
Proof.
  intros r.
  pose proof (weekly_counts now cache settings weekOffset)
    as (HdW & He7 & HdI & He1 & HallW & HallI).
  fold r in HdW, He7, HdI, He1, HallW, HallI.
  assert (HeP : wc_expectedPoints r = wc_expectedWeights r * 1 + wc_expectedInj r * 2).
  { unfold r, renderWeeklyConsistency. cbn. destruct (option_map _ _); cbn; lia. }
  assert (HdP : wc_donePoints r = wc_doneWeights r * 1 + wc_doneInj r * 2).
  { unfold r, renderWeeklyConsistency. cbn.
    destruct (option_map _ _); [destruct (bool_decide _)|]; cbn; lia. }
  assert (Hpct : wc_pct r = percentOf (wc_donePoints r) (wc_expectedPoints r))
    by reflexivity.
  assert (Hfull : wc_pct r = 100 <-> 0 < wc_expectedPoints r /\ allExpectedDone cache r).
  { unfold allExpectedDone. rewrite <- HallW, <- HallI, Hpct.
    destruct (Z.eq_dec (wc_expectedPoints r) 0) as [H0|Hne].
    - rewrite H0, percentOf_zero. split; [discriminate|lia].
    - rewrite percentOf_full by lia. split; [intros H|intros [_ [H1 H2]]]; lia. }
  set (start := addDays (startOfWeekMonday now) (-7 * weekOffsetOf weekOffset)).
  assert (Hstart : wc_start r = start) by reflexivity.
  assert (Hkeys : forall k, In k (wc_expectedWeighKeys r)
            <-> exists i, 0 <= i < 7 /\ k = getLocalDateKey (weekDay r i)
                          /\ scheduledWeighDay settings (getDay (weekDay r i))).
  { intros k. unfold weekDay. rewrite Hstart.
    change (wc_expectedWeighKeys r)
      with (expectedWeighKeysFrom start (list_to_set (weighDaysOrDefault settings))).
    rewrite expectedWeighKeysFrom_spec.
    split; intros (i & Hi & Hk & Hd); exists i; (split; [exact Hi|]); (split; [exact Hk|]);
      now apply scheduledWeighDay_spec. }
  assert (Hinj : forall k, wc_injKey r = Some k
            <-> exists i, 0 <= i < 7 /\ k = getLocalDateKey (weekDay r i)
                          /\ (clampedInjectionDow settings
                              == inject_Z (getDay (weekDay r i)))%Q).
  { intros k. unfold weekDay. rewrite Hstart.
    change (wc_injKey r)
      with (option_map getLocalDateKey (findInjectionDay start (clampedInjectionDow settings))).
    split.
    - destruct (findInjectionDay start (clampedInjectionDow settings)) as [d|] eqn:E;
        [|discriminate].
      intros [= <-]. apply findInjectionDay_spec in E as (i & Hi & -> & Hq).
      exists i. split; [exact Hi|]. split; [reflexivity|exact Hq].
    - intros (i & Hi & -> & Hq).
      rewrite (proj2 (findInjectionDay_spec start (clampedInjectionDow settings)
                        (addDays start i))); [reflexivity|].
      exists i. split; [exact Hi|]. split; [reflexivity|exact Hq]. }
  assert (Hweek : allExpectedDone cache r <-> weekFullyDone settings cache r).
  { unfold allExpectedDone, weekFullyDone. split; intros [Hw Hi]; split.
    - intros i Hr Hin. apply Hw, Hkeys. exists i. split; [exact Hr|]. split; [reflexivity|exact Hin].
    - intros i Hr Hq. apply (Hi _), Hinj. exists i. split; [exact Hr|].
      split; [reflexivity|exact Hq].
    - intros k Hk. apply Hkeys in Hk as (i & Hr & -> & Hin). now apply Hw.
    - intros k Hk. apply Hinj in Hk as (i & Hr & -> & Hq). now apply Hi. }
  split; [exact HeP|]. split; [exact HdP|].
  split; [reflexivity|]. split; [unfold r, renderWeeklyConsistency; cbn;
                                 now destruct (option_map _ _)|].
  split; [exact Hpct|].
  split; [rewrite Hpct; apply percentOfDouble_small; lia|].
  split; [rewrite Hpct; apply percentOf_bounds; lia|].
  split; [intros H0; rewrite Hpct, H0; apply percentOf_zero|].
  split; [exact Hfull|]. split.
  { intros Hint.
    assert (Hinj1 : wc_expectedInj r = 1).
    { destruct (clampedInjectionDow_integral settings Hint) as (k & Hr & Hk).
      unfold r, renderWeeklyConsistency. cbn [wc_expectedInj].
      destruct (findInjectionDay_integral
                  (addDays (startOfWeekMonday now) (-7 * weekOffsetOf weekOffset))
                  (clampedInjectionDow settings) k Hk Hr) as (j & _ & -> & _).
      reflexivity. }
    split; [lia|]. rewrite Hfull. split; [tauto|]. intros H; split; [lia|exact H]. }
  split.
  { pose proof (proj1 (startOfWeekMonday_iff (startOfWeekMonday now) now) eq_refl)
      as (Hmon & Hmid & Hin).
    rewrite Hstart. split; [reflexivity|]. subst start. split; [|split].
    - rewrite getDay_addDays, Hmon.
      replace (1 + -7 * weekOffsetOf weekOffset) with (1 + (- weekOffsetOf weekOffset) * 7)
        by lia.
      now rewrite Z.mod_add by lia.
    - unfold addDays. now rewrite Z.mod_add by (pose proof msPerDay_pos; lia).
    - unfold addDays. lia. }
  split.
  { change (wc_expectedWeighKeys r)
      with (expectedWeighKeysFrom start (list_to_set (weighDaysOrDefault settings))).
    unfold expectedWeighKeysFrom. apply NoDup_map_filter, week_keys_distinct. }
  split; [exact Hkeys|]. split; [exact Hinj|].
  split.
  { intros wd Hwd Hr.
    pose proof (proj1 (startOfWeekMonday_iff (startOfWeekMonday now) now) eq_refl)
      as (Hmon & _).
    assert (Hmon' : getDay start = 1).
    { subst start. rewrite getDay_addDays, Hmon.
      replace (1 + -7 * weekOffsetOf weekOffset) with (1 + (- weekOffsetOf weekOffset) * 7)
        by lia.
      now rewrite Z.mod_add by lia. }
    assert (Hq : (clampedInjectionDow settings == inject_Z wd)%Q).
    { now rewrite (clampedInjectionDow_weekday settings wd Hwd Hr). }
    unfold weekDay. rewrite Hstart. split.
    - rewrite getDay_addDays, Hmon'.
      pose proof (Z.div_mod (wd + 6) 7 ltac:(lia)).
      pose proof (Z.mod_pos_bound (wd + 6) 7 ltac:(lia)).
      pose proof (Z.div_mod (1 + (wd + 6) mod 7) 7 ltac:(lia)).
      pose proof (Z.mod_pos_bound (1 + (wd + 6) mod 7) 7 ltac:(lia)).
      lia.
    - change (wc_injKey r)
        with (option_map getLocalDateKey
                (findInjectionDay start (clampedInjectionDow settings))).
      now rewrite (findInjectionDay_of_week start _ wd Hmon' Hq Hr). }
  split; [split; reflexivity|].
  split; [exact Hweek|]. split; [rewrite <- Hweek; exact Hfull|].
  split.
  { intros w Hc. rewrite Hfull, Hweek. unfold weekFullyDone. rewrite Hc.
    split; intros (Hpos & Hw & Hi); (split; [exact Hpos|]); split.
    - intros i Hr Hin. now apply weightKeys_logged, Hw.
    - intros i Hr Hq. now apply injectionKeys_logged, Hi.
    - intros i Hr Hin. now apply weightKeys_logged, Hw.
    - intros i Hr Hq. now apply injectionKeys_logged, Hi. }
  intros rangeDays s data a s' days weighDay injDay weighed applied.
  pose proof (range_adherence_counts now rangeDays s data)
    as (HaW & HaI & HaE & HaD & HaP).
  fold a in HaW, HaI, HaE, HaD, HaP.
  assert (Ha : expectedWeights a = countOf weighDay days
               /\ doneWeights a = countOf (fun d => weighDay d && weighed d) days
               /\ expectedInj a = countOf injDay days
               /\ doneInj a = countOf (fun d => injDay d && applied d) days).
  { subst a. unfold computeScheduleAdherenceForRange. fold s'.
    change (map (addDays (addDays (startOfDay now) (- (Z.max 1 rangeDays - 1))))
              (seqZ 0 rangeDays)) with days.
    rewrite adherence_fold_counts.
    cbn [expectedWeights doneWeights expectedInj doneInj]. unfold countOf.
    rewrite !Z.add_0_l.
    assert (Hw : forall d, bool_decide (getDay d ∈ (list_to_set (weighDaysOrDefault s') : gset Z))
                           = weighDay d).
    { intros d. subst weighDay. cbv beta. apply bool_decide_ext.
      now rewrite elem_of_list_to_set. }
    assert (Hk : forall d,
               bool_decide (getLocalDateKey d
                            ∈ uniqueDateKeysFromDateTimeISO
                                (map Weight.dateTimeISO (rd_weights data)))
               = weighed d).
    { intros d. subst weighed. cbv beta. apply bool_decide_ext.
      unfold uniqueDateKeysFromDateTimeISO.
      now rewrite elem_of_list_to_set, map_map. }
    assert (Hi : forall d,
               bool_decide (getLocalDateKey d
                            ∈ uniqueDateKeysFromDateTimeISO
                                (map Injection.dateTimeISO (rd_injections data)))
               = applied d).
    { intros d. subst applied. cbv beta. apply bool_decide_ext.
      unfold uniqueDateKeysFromDateTimeISO.
      now rewrite elem_of_list_to_set, map_map. }
    repeat split; do 2 f_equal; apply List.filter_ext; intros d;
      rewrite ?Hw, ?Hk, ?Hi; reflexivity. }
  destruct Ha as (Ha1 & Ha2 & Ha3 & Ha4).
  split; [exact Ha1|]. split; [exact Ha2|]. split; [exact Ha3|]. split; [exact Ha4|].
  split; [exact HaE|]. split; [exact HaD|]. split; [exact HaP|]. split.
  - intros H0. now rewrite HaP, H0.
  - intros Hr.
    assert (HbW : expectedWeights a <= 180).
    { rewrite Ha1. unfold countOf.
      pose proof (filter_length_le weighDay days) as Hle.
      assert (Hlen : length days = Z.to_nat rangeDays).
      { unfold days, daysOfRange. now rewrite length_map, length_seqZ. }
      lia. }
    assert (HbI : expectedInj a <= 26).
    { rewrite Ha3. unfold countOf, injDay, days, daysOfRange.
      pose proof (injection_days_of_range (clampedInjectionDow s')
                    (addDays (startOfDay now) (- (Z.max 1 rangeDays - 1))) rangeDays
                    ltac:(lia)). lia. }
    destruct (percentOfDouble_range (donePoints a) (expectedPoints a)
                ltac:(lia) ltac:(lia)) as (p & Hp & Hb & Hnear & Hiff).
    exists p. rewrite HaP. split; [exact Hp|]. split; [exact Hb|]. split; [exact Hnear|].
    intros H200. destruct (Z.eq_dec (expectedPoints a) 0) as [H0|Hne].
    + rewrite H0 in Hp. cbn in Hp. injection Hp as <-. split; [discriminate|lia].
    + rewrite (Hiff ltac:(lia)). split; [intros H; split; [lia|exact H]|tauto].
Qed.

(** With the default weekday points are expected; with no weigh day and the
    weekday 2.5 none is, and the percentage is 0; and 23 points done of 40
    expected in a range of 30 days give 57 %, where the exact quotient
    rounds to 58. *)
Lemma weekly_consistency_percent_witness :
  integralOrNaN (rawInjectionDow DEFAULTS)
  /\ 0 < wc_expectedPoints (renderWeeklyConsistency (10 * msPerDay) fullWeekCache DEFAULTS
                              JUndefined)
  /\ (wc_expectedPoints
        (renderWeeklyConsistency (10 * msPerDay) fullWeekCache noScheduleSettings JUndefined)
      = 0
      /\ wc_pct
           (renderWeeklyConsistency (10 * msPerDay) fullWeekCache noScheduleSettings JUndefined)
         = 0)
  /\ (pct (computeScheduleAdherenceForRange (1000 * msPerDay) 30 (Some everyDaySettings)
             monthOfGaps)
      = percentOfDouble 23 40
      /\ percentOfDouble 23 40 = Some 57 /\ percentOf 23 40 = 58).
Proof.
  assert (Hint : integralOrNaN (rawInjectionDow DEFAULTS)) by (exists 6; reflexivity).
  split; [exact Hint|]. split; [|split].
  - pose proof (weekly_consistency_percent (10 * msPerDay) fullWeekCache DEFAULTS JUndefined)
      as (_ & _ & _ & _ & _ & _ & _ & _ & _ & H & _).
    exact (proj1 (H Hint)).
  - pose proof (weekly_consistency_percent (10 * msPerDay) fullWeekCache noScheduleSettings
                  JUndefined) as (_ & _ & _ & _ & _ & _ & _ & H & _).
    assert (H0 : wc_expectedPoints
                   (renderWeeklyConsistency (10 * msPerDay) fullWeekCache noScheduleSettings
                      JUndefined) = 0) by reflexivity.
    split; [exact H0|exact (H H0)].
  - pose proof (weekly_consistency_percent (1000 * msPerDay) fullWeekCache DEFAULTS JUndefined)
      as (_ & _ & _ & _ & _ & _ & _ & _ & _ & _ & _ & _ & _ & _ & _ & _ & _ & _ & _ & H).
    pose proof (H 30 (Some everyDaySettings) monthOfGaps) as Hr. cbv zeta in Hr.
    destruct Hr as (_ & _ & _ & _ & _ & _ & Hp & _).
    split; [rewrite Hp; vm_compute; reflexivity|]. split; reflexivity.
Defined.

Example weekly_consistency_examples :
  let c := {| weights := []; injections := []; measures := [];
              weightKeys := list_to_set [4; 6]; injectionKeys := list_to_set [9];
              measuresKeys := ∅; lastMeasures := None |} in
  let r := renderWeeklyConsistency (10 * msPerDay) c DEFAULTS JUndefined in
  wc_expectedWeighKeys r = [4; 6; 8] /\ wc_injKey r = Some 9
  /\ wc_donePoints r = 4 /\ wc_expectedPoints r = 5 /\ wc_pct r = 80
  /\ wc_pct (renderWeeklyConsistency (10 * msPerDay) fullWeekCache DEFAULTS JUndefined) = 40
  /\ pct (computeScheduleAdherenceForRange (5 * msPerDay) 1 None
            {| rd_weights := []; rd_injections := [] |}) = Some 0
  /\ expectedPoints (computeScheduleAdherenceForRange (5 * msPerDay) 1 None
                       {| rd_weights := []; rd_injections := [] |}) = 0.
Proof. repeat split; vm_compute; reflexivity. Qed.

(** Over a long range the rounding hides a miss: with a weigh-in expected
    every day of 180 days and all but the latest logged, 231 of 232 points
    round to 100 %. *)
Example range_percent_rounds_up :
  let everyDay := {| injectionDayOfWeek := JNum (Num 6); injectionTime := None;
                     weighDaysOfWeek := Some [0; 1; 2; 3; 4; 5; 6];
                     measureReminderEveryDays := JUndefined |} in
  let data :=
    {| rd_weights := map (fun i => sampleAt (1000 * msPerDay) i 80) (seqZ 1 179);
       rd_injections :=
         map (fun i => {| Injection.dateTimeISO := (1000 - i) * msPerDay;
                          Injection.nausea := JUndefined |}) (seqZ 0 180) |} in
  let a := computeScheduleAdherenceForRange (1000 * msPerDay) 180 (Some everyDay) data in
  expectedWeights a = 180 /\ doneWeights a = 179
  /\ expectedInj a = 26 /\ doneInj a = 26 /\ pct a = Some 100
  /\ percentOf (donePoints a) (expectedPoints a) = 100.
Proof. repeat split; vm_compute; reflexivity. Qed.
